(** * prev: a static-site generator, embedded and verified

    The repository holds two generations of the same generator:
    [main.py], which renders pages from external template files with
    [str.format], and [prev.py], which builds pages from functional
    HTML components.  Both read content rows from an SQLite store, compute
    per-row template values ([gen_tmpl_values]), write one page per row and
    an index page per table ([generate_section]), an RSS feed per table
    ([generate_rss]) and offer a single-page watch mode ([watch_buffer]).

    The embedding is shallow.  Python text is a [string] holding the UTF-8
    bytes of the text; every text operation the program uses (concatenation,
    replacement of ASCII characters, splitting at a space, scanning for
    braces) acts on those bytes as it does on the code points.  A value read
    from the store is NULL, an integer or a text ([value]); REAL and BLOB
    columns are outside the model.  An exception is a value of [exn], a
    computation that may raise is a [result].  Dictionaries keep Python's
    insertion order and are association lists ([PyDict]).  The store is a
    list of named tables; each SQL statement the program issues has a
    reference evaluator ([Store]) and column names are compared as written. *)

From Stdlib Require Import String Ascii List ZArith Lia Bool DecimalString.
From Stdlib Require Import Sorted Permutation.
Import ListNotations.

Local Open Scope list_scope.
Local Open Scope string_scope.

(** ** Text *)

Module Text.

(** The double quote and the line feed, which the embedded literals use. *)
Definition dq : string := String "034"%char EmptyString.
Definition nl : string := String "010"%char EmptyString.

(** ["".join(parts)] *)
Fixpoint join (parts : list string) : string :=
  match parts with
  | [] => ""
  | p :: rest => p ++ join rest
  end.

(** [sep.join(parts)] *)
Definition join_sep (sep : string) (parts : list string) : string :=
  String.concat sep parts.

(** [s.replace(c, by)] for a pattern of one character. *)
Fixpoint replace_char (c : ascii) (by_ : string) (s : string) : string :=
  match s with
  | EmptyString => ""
  | String a rest =>
      if Ascii.eqb a c then by_ ++ replace_char c by_ rest
      else String a (replace_char c by_ rest)
  end.

(** [s.split(c)[0]]: the text before the first [c], all of [s] without one. *)
Fixpoint before_first (c : ascii) (s : string) : string :=
  match s with
  | EmptyString => ""
  | String a rest => if Ascii.eqb a c then "" else String a (before_first c rest)
  end.

(** [c in s] for one character. *)
Fixpoint has_char (c : ascii) (s : string) : bool :=
  match s with
  | EmptyString => false
  | String a rest => Ascii.eqb a c || has_char c rest
  end.

(** [needle in hay], as a proposition. *)
Definition contains (hay needle : string) : Prop :=
  exists before after, hay = before ++ needle ++ after.

(** [needle in hay], computed. *)
Fixpoint containsb (hay needle : string) : bool :=
  String.prefix needle hay ||
  match hay with
  | EmptyString => false
  | String _ rest => containsb rest needle
  end.

(** [str(z)] for a Python integer. *)
Definition str_of_Z (z : Z) : string := NilZero.string_of_int (Z.to_int z).

(** [%0<width>d] on a natural number: zeros in front up to [width] digits. *)
Fixpoint zeros (k : nat) : string :=
  match k with
  | O => ""
  | S k' => String "0"%char (zeros k')
  end.

Definition pad_left (width : nat) (s : string) : string :=
  zeros (width - String.length s) ++ s.

Definition zero_padded (width : nat) (n : Z) : string :=
  pad_left width (str_of_Z n).

End Text.

(** ** Values, exceptions, results *)

(** What [sqlite3] hands to Python for a column. *)
Inductive value : Type :=
| VNone
| VInt (z : Z)
| VStr (s : string).

(** The exceptions the modelled code can raise. *)
Inductive exn : Type :=
| KeyError (key : string)
| ValueError
| TypeError
| AttributeError
| IndexError
| UnboundLocalError (name : string)
| OperationalError
| FileNotFoundError
| SystemExit (status : Z).

(** What running a piece of the program gives: a value, an exception, or
    [Unmodelled] where the run leaves the part of Python that is modelled
    (only [Format.format] answers it, see there). *)
Inductive result (A : Type) : Type :=
| Ok (a : A)
| Raise (e : exn)
| Unmodelled.

Arguments Ok {A} a.
Arguments Raise {A} e.
Arguments Unmodelled {A}.

Definition bind {A B : Type} (r : result A) (k : A -> result B) : result B :=
  match r with
  | Ok a => k a
  | Raise e => Raise e
  | Unmodelled => Unmodelled
  end.

Declare Scope result_scope.
Delimit Scope result_scope with result.
Notation "x <- r ;; k" := (bind r (fun x => k))
  (at level 61, r at next level, right associativity) : result_scope.
Local Open Scope result_scope.

(** [for x in xs: acc = step(acc, x)], stopping at the first exception. *)
Fixpoint foldM {A B : Type} (step : B -> A -> result B) (xs : list A) (acc : B)
  : result B :=
  match xs with
  | [] => Ok acc
  | x :: rest => acc' <- step acc x ;; foldM step rest acc'
  end.

(** [[f(x) for x in xs]], stopping at the first exception. *)
Fixpoint mapM {A B : Type} (f : A -> result B) (xs : list A) : result (list B) :=
  match xs with
  | [] => Ok []
  | x :: rest => y <- f x ;; ys <- mapM f rest ;; Ok (y :: ys)
  end.

Definition value_eqb (a b : value) : bool :=
  match a, b with
  | VNone, VNone => true
  | VInt x, VInt y => Z.eqb x y
  | VStr s, VStr t => String.eqb s t
  | _, _ => false
  end.

(** [str(v)], which is also what an f-string or [str.format] field prints. *)
Definition py_str (v : value) : string :=
  match v with
  | VNone => "None"
  | VInt z => Text.str_of_Z z
  | VStr s => s
  end.

(** [bool(v)] *)
Definition truthy (v : value) : bool :=
  match v with
  | VNone => false
  | VInt z => negb (Z.eqb z 0)
  | VStr s => negb (String.eqb s "")
  end.

(** ** Insertion-ordered dictionaries *)

Module PyDict.

Section Dict.
Context {K V : Type}.
Variable eqb : K -> K -> bool.

Definition t := list (K * V).

(** [d.get(k)], [None] when the key is absent. *)
Fixpoint get (k : K) (d : t) : option V :=
  match d with
  | [] => None
  | (k', v) :: rest => if eqb k' k then Some v else get k rest
  end.

(** [k in d] *)
Definition mem (k : K) (d : t) : bool :=
  match get k d with Some _ => true | None => false end.

(** [d[k] = v]: an existing key keeps its place, a new one goes last. *)
Fixpoint set (k : K) (v : V) (d : t) : t :=
  match d with
  | [] => [(k, v)]
  | (k', v') :: rest =>
      if eqb k' k then (k', v) :: rest else (k', v') :: set k v rest
  end.

(** [dict(pairs)] and dictionary displays: the pairs are stored in turn. *)
Definition of_pairs (pairs : list (K * V)) : t :=
  fold_left (fun d kv => set (fst kv) (snd kv) d) pairs [].

Definition keys (d : t) : list K := map fst d.
End Dict.

End PyDict.

(** A row as the program sees it after [dict(r)]: column name to value. *)
Definition Row : Type := list (string * value).

Definition row_get (k : string) (r : Row) : option value :=
  PyDict.get String.eqb k r.

Definition row_set (k : string) (v : value) (r : Row) : Row :=
  PyDict.set String.eqb k v r.

(** [r[k]] on a dictionary. *)
Definition row_item (k : string) (r : Row) : result value :=
  match row_get k r with
  | Some v => Ok v
  | None => Raise (KeyError k)
  end.

(** The mapping from slug to template values that [gen_tmpl_values] builds. *)
Definition Values : Type := list (value * Row).

Definition values_get (slug : value) (vs : Values) : option Row :=
  PyDict.get value_eqb slug vs.

Definition values_set (slug : value) (r : Row) (vs : Values) : Values :=
  PyDict.set value_eqb slug r vs.

(** ** The store

    A table has named columns and rows of values; a row object lists every
    column, a value the row lacks reading as NULL.  The evaluators below are
    the reference meaning of the SQL statements the program issues.  A table
    or a column the statement names and the store lacks is an
    [OperationalError].  SQLite leaves the order of an unordered result and
    of rows with equal sort keys to its planner; the evaluators fix storage
    order (joins nest their loops in the order the statement names the
    tables) and the theorems on relationship links hold for any order, since
    they are stated over the join result.  Columns carry no declared type
    and no collation: values compare as they are stored. *)

Module Store.

Record Table : Type := mkTable {
  columns : list string;
  rows : list (list value)
}.

Definition Database : Type := list (string * Table).

Fixpoint row_of (cols : list string) (vals : list value) : Row :=
  match cols with
  | [] => []
  | c :: cs => (c, hd VNone vals) :: row_of cs (tl vals)
  end.

Definition find_table (db : Database) (name : string) : result Table :=
  match PyDict.get String.eqb name db with
  | Some t => Ok t
  | None => Raise OperationalError
  end.

Definition has_column (t : Table) (c : string) : bool :=
  existsb (String.eqb c) (columns t).

Definition require_column (t : Table) (c : string) : result unit :=
  if has_column t c then Ok tt else Raise OperationalError.

(** The value of column [c] in a row object, NULL when absent. *)
Definition cell (c : string) (r : Row) : value :=
  match row_get c r with
  | Some v => v
  | None => VNone
  end.

Definition table_rows (t : Table) : list Row :=
  map (row_of (columns t)) (rows t).

(** [SELECT * FROM <table>] *)
Definition select_all (db : Database) (table : string) : result (list Row) :=
  t <- find_table db table ;;
  Ok (table_rows t).

(** SQL [x = y]: NULL equals nothing, other values are compared as stored. *)
Definition sql_eq (x y : value) : bool :=
  match x, y with
  | VNone, _ | _, VNone => false
  | _, _ => value_eqb x y
  end.

(** The order SQLite sorts values in: NULL first, then integers by value,
    then texts byte by byte. *)
Definition sql_leb (x y : value) : bool :=
  match x, y with
  | VNone, _ => true
  | _, VNone => false
  | VInt a, VInt b => Z.leb a b
  | VInt _, VStr _ => true
  | VStr _, VInt _ => false
  | VStr s, VStr t => String.leb s t
  end.

(** A row of the feed query. *)
Record FeedRow : Type := mkFeedRow {
  slug : value;
  title : value;
  created_time : value;
  html : value
}.

(** [ORDER BY created_time DESC], by insertion; rows with equal keys keep
    their storage order. *)
Fixpoint insert_desc (r : FeedRow) (sorted : list FeedRow) : list FeedRow :=
  match sorted with
  | [] => [r]
  | r' :: rest =>
      if sql_leb (created_time r') (created_time r) then r :: sorted
      else r' :: insert_desc r rest
  end.

Fixpoint order_by_created_time_desc (rs : list FeedRow) : list FeedRow :=
  match rs with
  | [] => []
  | r :: rest => insert_desc r (order_by_created_time_desc rest)
  end.

(** [SELECT slug, <title_col>, created_time, html FROM <table>
     ORDER BY created_time DESC] *)
Definition select_feed (db : Database) (table title_col : string)
  : result (list FeedRow) :=
  t <- find_table db table ;;
  _ <- require_column t "slug" ;;
  _ <- require_column t title_col ;;
  _ <- require_column t "created_time" ;;
  _ <- require_column t "html" ;;
  Ok (order_by_created_time_desc
        (map (fun r => mkFeedRow (cell "slug" r) (cell title_col r)
                                 (cell "created_time" r) (cell "html" r))
             (table_rows t))).

(** [SELECT a.slug as a_slug, b.slug as b_slug
     FROM <b> b JOIN <j> j ON b.id = j.<j_b_id>
                JOIN <a> a ON a.id = j.<j_a_id>]
    as pairs [(a_slug, b_slug)]. *)
Definition select_related (db : Database) (a j j_a_id b j_b_id : string)
  : result (list (value * value)) :=
  tb <- find_table db b ;;
  tj <- find_table db j ;;
  ta <- find_table db a ;;
  _ <- require_column ta "slug" ;;
  _ <- require_column tb "slug" ;;
  _ <- require_column tb "id" ;;
  _ <- require_column tj j_b_id ;;
  _ <- require_column ta "id" ;;
  _ <- require_column tj j_a_id ;;
  Ok (flat_map (fun rb =>
        flat_map (fun rj =>
          if sql_eq (cell "id" rb) (cell j_b_id rj) then
            flat_map (fun ra =>
              if sql_eq (cell "id" ra) (cell j_a_id rj)
              then [(cell "slug" ra, cell "slug" rb)]
              else [])
              (table_rows ta)
          else [])
          (table_rows tj))
        (table_rows tb)).

(** The lookup of watch mode pastes the table and the slug into the text
    of its statement.  The pasted text reads as meant when the table is a
    bare name (lower-case letters, digits and underscores, no digit first,
    none of the words SQLite reserves) and the slug can stand between single
    quotes as it is (no quote character, no NUL). *)
Definition reserved_words : list string :=
  ["abort"; "action"; "add"; "after"; "all"; "alter"; "always"; "analyze"; "and";
   "as"; "asc"; "attach"; "autoincrement"; "before"; "begin"; "between"; "by";
   "cascade"; "case"; "cast"; "check"; "collate"; "column"; "commit"; "conflict";
   "constraint"; "create"; "cross"; "current"; "current_date"; "current_time";
   "current_timestamp"; "database"; "default"; "deferrable"; "deferred"; "delete";
   "desc"; "detach"; "distinct"; "do"; "drop"; "each"; "else"; "end"; "escape";
   "except"; "exclude"; "exclusive"; "exists"; "explain"; "fail"; "filter";
   "first"; "following"; "for"; "foreign"; "from"; "full"; "generated"; "glob";
   "group"; "groups"; "having"; "if"; "ignore"; "immediate"; "in"; "index";
   "indexed"; "initially"; "inner"; "insert"; "instead"; "intersect"; "into";
   "is"; "isnull"; "join"; "key"; "last"; "left"; "like"; "limit"; "match";
   "materialized"; "natural"; "no"; "not"; "nothing"; "notnull"; "null"; "nulls";
   "of"; "offset"; "on"; "or"; "order"; "others"; "outer"; "over"; "partition";
   "plan"; "pragma"; "preceding"; "primary"; "query"; "raise"; "range";
   "recursive"; "references"; "regexp"; "reindex"; "release"; "rename"; "replace";
   "restrict"; "returning"; "right"; "rollback"; "row"; "rows"; "savepoint";
   "select"; "set"; "table"; "temp"; "temporary"; "then"; "ties"; "to";
   "transaction"; "trigger"; "unbounded"; "union"; "unique"; "update"; "using";
   "vacuum"; "values"; "view"; "virtual"; "when"; "where"; "window"; "with";
   "within"; "without"].

Definition name_start (c : ascii) : bool :=
  let n := nat_of_ascii c in
  ((97 <=? n) && (n <=? 122))%nat || Ascii.eqb c "_".

Definition name_part (c : ascii) : bool :=
  let n := nat_of_ascii c in
  name_start c || ((48 <=? n) && (n <=? 57))%nat.

Fixpoint name_parts (s : string) : bool :=
  match s with
  | EmptyString => true
  | String c rest => name_part c && name_parts rest
  end.

Definition bare_name (s : string) : bool :=
  match s with
  | EmptyString => false
  | String c rest =>
      name_start c && name_parts rest && negb (existsb (String.eqb s) reserved_words)
  end.

Definition quotable (s : string) : bool :=
  negb (Text.has_char "'" s) && negb (Text.has_char "000" s).

(** [SELECT * FROM <table> WHERE slug='<slug>'] followed by [fetchone()],
    for a table and a slug that the statement takes as they are; other
    calls are outside the model. *)
Definition fetchone_by_slug (db : Database) (table slug_ : string)
  : result (option Row) :=
  if bare_name table && quotable slug_ then
    t <- find_table db table ;;
    _ <- require_column t "slug" ;;
    Ok (find (fun r => sql_eq (cell "slug" r) (VStr slug_)) (table_rows t))
  else Unmodelled.

End Store.

(** ** Dates: [datetime.strptime] and [email.utils.format_datetime] *)

Module Datetime.

Definition code (c : ascii) : Z := Z.of_nat (nat_of_ascii c).

Definition is_digit (c : ascii) : bool :=
  (48 <=? code c)%Z && (code c <=? 57)%Z.

Definition digit (c : ascii) : Z := (code c - 48)%Z.

Definition in_range (lo hi : Z) (c : ascii) : bool :=
  is_digit c && (lo <=? digit c)%Z && (digit c <=? hi)%Z.

(** [%Y]: the pattern [\d\d\d\d]. *)
Definition match_year (s : string) : option (Z * string) :=
  match s with
  | String a (String b (String c (String d rest))) =>
      if is_digit a && is_digit b && is_digit c && is_digit d
      then Some ((digit a * 1000 + digit b * 100 + digit c * 10 + digit d)%Z, rest)
      else None
  | _ => None
  end.

(** [%m-]: the pattern [1[0-2]|0[1-9]|[1-9]] followed by the literal dash;
    the alternatives are tried in order and one that the dash does not
    follow is given up. *)
Definition match_month_dash (s : string) : option (Z * string) :=
  match s with
  | String a (String b rest) =>
      match rest with
      | String c rest' =>
          if Ascii.eqb a "1" && in_range 0 2 b && Ascii.eqb c "-"
          then Some ((10 + digit b)%Z, rest')
          else if Ascii.eqb a "0" && in_range 1 9 b && Ascii.eqb c "-"
          then Some (digit b, rest')
          else if in_range 1 9 a && Ascii.eqb b "-" then Some (digit a, rest)
          else None
      | EmptyString =>
          if in_range 1 9 a && Ascii.eqb b "-" then Some (digit a, rest)
          else None
      end
  | _ => None
  end.

(** [%d]: the pattern [3[0-1]|[1-2]\d|0[1-9]|[1-9]| [1-9]]; the first
    alternative that matches is taken. *)
Definition match_day (s : string) : option (Z * string) :=
  match s with
  | String a (String b rest) =>
      if Ascii.eqb a "3" && in_range 0 1 b then Some ((30 + digit b)%Z, rest)
      else if in_range 1 2 a && is_digit b then Some ((digit a * 10 + digit b)%Z, rest)
      else if Ascii.eqb a "0" && in_range 1 9 b then Some (digit b, rest)
      else if in_range 1 9 a then Some (digit a, String b rest)
      else if Ascii.eqb a " " && in_range 1 9 b then Some (digit b, rest)
      else None
  | String a EmptyString =>
      if in_range 1 9 a then Some (digit a, "") else None
  | EmptyString => None
  end.

Definition is_leap (y : Z) : bool :=
  ((y mod 4 =? 0) && (negb (y mod 100 =? 0) || (y mod 400 =? 0)))%Z.

Definition days_in_month (y m : Z) : Z :=
  match m with
  | 2 => if is_leap y then 29 else 28
  | 4 | 6 | 9 | 11 => 30
  | _ => 31
  end%Z.

Record date : Type := mkDate { year : Z; month : Z; day : Z }.

(** [datetime.strptime(s, "%Y-%m-%d")]: the whole text has to match, and
    the date has to exist (years run from 1 to 9999). *)
Definition strptime (s : string) : result date :=
  match match_year s with
  | Some (y, String "-" s1) =>
      match match_month_dash s1 with
      | Some (m, s2) =>
          match match_day s2 with
          | Some (d, EmptyString) =>
              if (1 <=? y)%Z && (d <=? days_in_month y m)%Z
              then Ok (mkDate y m d)
              else Raise ValueError
          | _ => Raise ValueError
          end
      | None => Raise ValueError
      end
  | _ => Raise ValueError
  end.

Definition days_before_year (y : Z) : Z :=
  ((y - 1) * 365 + (y - 1) / 4 - (y - 1) / 100 + (y - 1) / 400)%Z.

Fixpoint days_before_month_nat (y : Z) (m : nat) : Z :=
  match m with
  | O => 0
  | S m' => (days_before_month_nat y m' + days_in_month y (Z.of_nat m))%Z
  end.

(** Days of the year before the first of month [m]. *)
Definition days_before_month (y m : Z) : Z :=
  days_before_month_nat y (Z.to_nat (m - 1)).

Definition toordinal (d : date) : Z :=
  (days_before_year (year d) + days_before_month (year d) (month d) + day d)%Z.

(** [d.weekday()]: Monday is 0. *)
Definition weekday (d : date) : Z := ((toordinal d + 6) mod 7)%Z.

Definition day_name (w : Z) : string :=
  nth (Z.to_nat w) ["Mon"; "Tue"; "Wed"; "Thu"; "Fri"; "Sat"; "Sun"] "".

Definition month_name (m : Z) : string :=
  nth (Z.to_nat (m - 1))
      ["Jan"; "Feb"; "Mar"; "Apr"; "May"; "Jun";
       "Jul"; "Aug"; "Sep"; "Oct"; "Nov"; "Dec"] "".

(** [format_datetime(d.replace(tzinfo=timezone.utc))] for a [datetime] that
    [strptime] made from a date: midnight, and the zone printed as
    [+0000]. *)
Definition format_datetime (d : date) : string :=
  day_name (weekday d) ++ ", " ++ Text.zero_padded 2 (day d) ++ " " ++
  month_name (month d) ++ " " ++ Text.zero_padded 4 (year d) ++ " " ++
  Text.zero_padded 2 0 ++ ":" ++ Text.zero_padded 2 0 ++ ":" ++
  Text.zero_padded 2 0 ++ " " ++ "+0000".

End Datetime.

(** ** [str.format] with keyword arguments

    The templates of [main.py] are Python format strings.  [format kw s] is
    [s.format] applied to the keywords [kw]: text outside braces is copied, a doubled brace stands
    for one, [{name}] is replaced by [str] of the keyword argument [name].
    The value is inserted as it is and never scanned.  A lone brace is a
    [ValueError], a name that is no keyword a [KeyError], a field without a
    name or with a number an [IndexError] (there are no positional
    arguments).  Conversions ([!r]), format specifications ([:>10]) and
    attribute or index lookups ([{a.b}], [{a[0]}]) are where the model
    stops: it answers [Unmodelled]. *)

Module Format.

Inductive mode : Type :=
| InText
| AfterOpen
| AfterClose
| InField (name : string)
| InIndex (name : string).

Definition snoc (s : string) (c : ascii) : string := s ++ String c EmptyString.

(** The part of a field name before the first [.] or [[]. *)
Fixpoint first_part (name : string) : string :=
  match name with
  | EmptyString => ""
  | String c rest =>
      if Ascii.eqb c "." || Ascii.eqb c "[" then "" else String c (first_part rest)
  end.

Fixpoint all_digits (s : string) : bool :=
  match s with
  | EmptyString => true
  | String c rest => Datetime.is_digit c && all_digits rest
  end.

Fixpoint decimal (acc : Z) (s : string) : Z :=
  match s with
  | EmptyString => acc
  | String c rest => decimal (acc * 10 + Datetime.digit c)%Z rest
  end.

(** [PY_SSIZE_T_MAX] of a 64-bit build. *)
Definition PY_SSIZE_T_MAX : Z := (2 ^ 63 - 1)%Z.

(** The object a replacement field names, printed. *)
Definition field_value (kw : Row) (name : string) : result string :=
  let first := first_part name in
  if String.eqb first "" then Raise IndexError
  else if all_digits first then
    if (decimal 0 first >? PY_SSIZE_T_MAX)%Z then Raise ValueError
    else Raise IndexError
  else
    match row_get first kw with
    | None => Raise (KeyError first)
    | Some v => if String.eqb first name then Ok (py_str v) else Unmodelled
    end.

Definition prepend (s : string) (o : result string) : result string :=
  r <- o ;; Ok (s ++ r).

(** One pass over the format string, left to right, as [MarkupIterator]
    makes it: the mode says what the characters read so far were. *)
Fixpoint run (kw : Row) (m : mode) (s : string) : result string :=
  match s with
  | EmptyString =>
      match m with
      | InText => Ok ""
      | _ => Raise ValueError
      end
  | String c rest =>
      match m with
      | InText =>
          if Ascii.eqb c "{" then run kw AfterOpen rest
          else if Ascii.eqb c "}" then run kw AfterClose rest
          else prepend (String c "") (run kw InText rest)
      | AfterClose =>
          if Ascii.eqb c "}" then prepend "}" (run kw InText rest)
          else Raise ValueError
      | AfterOpen =>
          if Ascii.eqb c "{" then prepend "{" (run kw InText rest)
          else if Ascii.eqb c "}" then
            v <- field_value kw "" ;; prepend v (run kw InText rest)
          else if Ascii.eqb c ":" || Ascii.eqb c "!" then Unmodelled
          else if Ascii.eqb c "[" then run kw (InIndex (String c "")) rest
          else run kw (InField (String c "")) rest
      | InField name =>
          if Ascii.eqb c "{" then Raise ValueError
          else if Ascii.eqb c "}" then
            v <- field_value kw name ;; prepend v (run kw InText rest)
          else if Ascii.eqb c ":" || Ascii.eqb c "!" then Unmodelled
          else if Ascii.eqb c "[" then run kw (InIndex (snoc name c)) rest
          else run kw (InField (snoc name c)) rest
      | InIndex name =>
          if Ascii.eqb c "]" then run kw (InField (snoc name c)) rest
          else run kw (InIndex (snoc name c)) rest
      end
  end.

Definition format (kw : Row) (s : string) : result string := run kw InText s.

(** [f(a=x, **row)]: a keyword given twice is a [TypeError] at the call. *)
Fixpoint kwargs (pairs : list (string * value)) : result Row :=
  match pairs with
  | [] => Ok []
  | (k, v) :: rest =>
      kw <- kwargs rest ;;
      if PyDict.mem String.eqb k kw then Raise TypeError else Ok ((k, v) :: kw)
  end.

End Format.

(** ** The world the program acts on

    Files written, in order, the texts printed on the two output streams,
    and the scratch files opened.  A path is the list of the operands of
    [pathlib]'s [/]. *)

Definition Path : Type := list string.

Record World : Type := mkWorld {
  writes : list (Path * string);
  stdout : list string;
  stderr : list string;
  opened : list string
}.

Definition empty_world : World := mkWorld [] [] [] [].

(** A run: from a world to a result and the world it leaves, also when it
    ends in an exception. *)
Definition Run (A : Type) : Type := World -> result A * World.

Definition ret {A : Type} (a : A) : Run A := fun w => (Ok a, w).

Definition lift {A : Type} (r : result A) : Run A := fun w => (r, w).

Definition bindR {A B : Type} (m : Run A) (k : A -> Run B) : Run B :=
  fun w =>
    match m w with
    | (Ok a, w') => k a w'
    | (Raise e, w') => (Raise e, w')
    | (Unmodelled, w') => (Unmodelled, w')
    end.

Declare Scope run_scope.
Delimit Scope run_scope with run.
Notation "x <~ m ;; k" := (bindR m (fun x => k))
  (at level 61, m at next level, right associativity) : run_scope.
Notation "m ;;; k" := (bindR m (fun _ => k))
  (at level 61, right associativity) : run_scope.
Local Open Scope run_scope.

(** [for x in xs: body(x)] *)
Fixpoint for_each {A : Type} (body : A -> Run unit) (xs : list A) : Run unit :=
  match xs with
  | [] => ret tt
  | x :: rest => body x ;;; for_each body rest
  end.

(** [for x in xs: acc = body(acc, x)] *)
Fixpoint fold_run {A B : Type} (body : B -> A -> Run B) (xs : list A) (acc : B)
  : Run B :=
  match xs with
  | [] => ret acc
  | x :: rest => acc' <~ body acc x ;; fold_run body rest acc'
  end.

Definition print (line : string) : Run unit :=
  fun w => (Ok tt, mkWorld (writes w) (stdout w ++ [line])%list (stderr w) (opened w)).

Definition print_err (line : string) : Run unit :=
  fun w => (Ok tt, mkWorld (writes w) (stdout w) (stderr w ++ [line])%list (opened w)).

Definition write_text (path : Path) (content : string) : Run unit :=
  fun w => (Ok tt, mkWorld (writes w ++ [(path, content)])%list (stdout w) (stderr w)
                   (opened w)).

(** [os.open(name, os.O_RDONLY | os.O_CREAT, 0o644)] *)
Definition os_open (name : string) : Run unit :=
  fun w => (Ok tt, mkWorld (writes w) (stdout w) (stderr w) (opened w ++ [name])%list).

(** ** Utilities, the same in both files *)

Module Utils.

Definition KB14_URL : string :=
  "https://endtimes.dev/why-your-website-should-be-under-14kb-in-size".

(** [die_with_honor(msg)] *)
Definition die_with_honor {A : Type} (msg : string) : Run A :=
  print_err msg ;;; lift (Raise (SystemExit 1)).

(** [str(path)] for operands that are plain names. *)
Definition path_str (path : Path) : string := Text.join_sep "/" path.

(** [f"{size / 1024:.2f}"] for a size in bytes: the quotient is exact in
    binary floating point, and [.2f] rounds it to hundredths, a tie going to
    the even neighbour. *)
Definition kb_2f (size : nat) : string :=
  let n := (Z.of_nat size * 100)%Z in
  let q := (n / 1024)%Z in
  let r := (n mod 1024)%Z in
  let hundredths :=
    if (r >? 512)%Z then (q + 1)%Z
    else if (r =? 512)%Z then (if Z.even q then q else q + 1)%Z
    else q in
  Text.str_of_Z (hundredths / 100) ++ "." ++ Text.zero_padded 2 (hundredths mod 100).

(** [write_file(path, content)] *)
Definition write_file (path : Path) (content : string) : Run unit :=
  write_text path content ;;;
  let size := String.length content in
  print ("[OK] Wrote " ++ kb_2f size ++ "kB to " ++ path_str path) ;;;
  if (14 * 1024 <=? Z.of_nat size)%Z then
    print ("[WARN] " ++ path_str path ++ " over 14kB") ;;;
    print ("[WARN] See " ++ KB14_URL)
  else ret tt.

(** The type check [str.join] makes on an item. *)
Definition as_str (v : value) : result string :=
  match v with
  | VStr s => Ok s
  | _ => Raise TypeError
  end.

(** [v.split(' ')[0]], a method only texts have. *)
Definition date_part (v : value) : result string :=
  match v with
  | VStr s => Ok (Text.before_first " " s)
  | _ => Raise AttributeError
  end.

(** The [pubDate] of a feed row: the date part of [created_time], parsed
    and printed for UTC. *)
Definition pub_date (created_time : value) : result string :=
  dt <- date_part created_time ;;
  d <- Datetime.strptime dt ;;
  Ok (Datetime.format_datetime d).

(** A declared relationship:
    [(junction_table, this_id_col, this_junction_id_col,
      other_table, other_id_col, other_junction_id_col)]. *)
Record relationship : Type := mkRel {
  junction_table : string;
  this_id_col : string;
  this_junction_id_col : string;
  other_table : string;
  other_id_col : string;
  other_junction_id_col : string
}.

Definition Relationships : Type := list (string * list relationship).

(** The loop that groups the join result: [relations_map], from the source
    slug to the related slugs in the order the join gave them. *)
Definition relations_map (rels : list (value * value)) : list (value * list value) :=
  fold_left
    (fun m rel =>
       let src_slug := fst rel in
       let m := if PyDict.mem value_eqb src_slug m then m
                else PyDict.set value_eqb src_slug [] m in
       match PyDict.get value_eqb src_slug m with
       | Some l => PyDict.set value_eqb src_slug (l ++ [snd rel])%list m
       | None => m
       end)
    rels [].

(** [d[slug]['context'] += links] *)
Definition append_context (slug : value) (links : string) (vs : Values)
  : result Values :=
  match values_get slug vs with
  | None => Raise (KeyError (py_str slug))
  | Some row =>
      c <- row_item "context" row ;;
      match c with
      | VStr s => Ok (values_set slug (row_set "context" (VStr (s ++ links)) row) vs)
      | _ => Raise TypeError
      end
  end.

(** [{r['slug']: {**dict(r), 'context': ''} for r in rows}]; a row object
    without the column refuses the index. *)
Definition values_of_rows (rows : list Row) : result Values :=
  foldM (fun vs r =>
           match row_get "slug" r with
           | None => Raise IndexError
           | Some s => Ok (values_set s (row_set "context" (VStr "") r) vs)
           end)
        rows [].

(** [row.get(k, None)] *)
Definition get_or_none (k : string) (r : Row) : value :=
  match row_get k r with
  | Some v => v
  | None => VNone
  end.

(** The links of one declaration, added to the rows they start from. *)
Definition add_links (link : string -> value -> string) (other : string)
  (rels : list (value * value)) (vs : Values) : result Values :=
  foldM (fun vs entry =>
           let '(row_slug, rel_slugs) := entry in
           if PyDict.mem value_eqb row_slug vs then
             append_context row_slug (Text.join (map (link other) rel_slugs)) vs
           else Ok vs)
        (relations_map rels) vs.

End Utils.

(** ** [prev.py]: pages from functional components *)

Module Prev.

Import Text Utils.

Definition DIST_DIR : string := "dist".

Definition AUTHOR_BIRTHDAY : string := "2003-12-10T13:30:00+01:00".

Definition BASE_URL : string := "https://danielfalbo.com".

(** The tables a feed is generated for; the source holds them in a set. *)
Definition RSS_TABLES : list string := ["weblog"; "bookmarks"].

Definition RELATIONSHIPS : Relationships :=
  [("bookmarks",
    [mkRel "bookmark_authors" "id" "bookmark_id" "authors" "id" "author_id"]);
   ("authors",
    [mkRel "bookmark_authors" "id" "author_id" "bookmarks" "id" "bookmark_id"])].

(** [xml_escape(s)] *)
Definition xml_escape (s : value) : string :=
  let s := py_str s in
  let s := replace_char "&" "&amp;" s in
  let s := replace_char "<" "&lt;" s in
  let s := replace_char ">" "&gt;" s in
  s.

(** [h(tag, props, *children)], for children that are texts. *)
Definition h (tag : string) (props : list (string * string))
  (children : list string) : string :=
  let attr_str :=
    join_sep " " (map (fun kv => fst kv ++ "=" ++ dq ++ snd kv ++ dq) props) in
  let inner_html := join children in
  "<" ++ tag ++ " " ++ attr_str ++ ">" ++ inner_html ++ "</" ++ tag ++ ">".

Definition DOT : string := h "span" [] [" Â· "].

Definition NAVBAR : string :=
  h "p" []
    [h "a" [("href", "/index.html")] ["root"];
     DOT; h "a" [("href", "/weblog/code.html")] ["code"];
     DOT; h "a" [("href", "/weblog/words.html")] ["words"]].

(** [layout(title, css, body_content_list)]; the callers pass the body
    already joined, and joining the characters of a text gives it back. *)
Definition layout (title css body_content : string) : string :=
  "<!doctype html>" ++
  h "html" []
    [h "head" []
       [h "title" [] [title ++ " | danielfalbo"];
        h "style" [] [css];
        "<meta charset=" ++ dq ++ "UTF-8" ++ dq ++ ">";
        "<link rel=" ++ dq ++ "icon" ++ dq ++ " type=" ++ dq ++ "image/x-icon" ++
          dq ++ " href=" ++ dq ++ "/favicon.ico" ++ dq ++ ">"];
     h "body" [] [body_content]].

Definition title_component (title_str : string) : string :=
  h "p" [("style", "font-size: 3rem;
                                font-weight: 700; margin: 0px;
                                word-break: break-word;
                                text-transform: uppercase;")] [title_str].

Definition table_index_page (css table html : string) : string :=
  layout table css (join [NAVBAR; title_component table; html]).

(** [author_page(css, entry)]: the title is printed into the page title and
    joined, which only a text allows, into the heading. *)
Definition author_page (css : string) (entry : Row) : result string :=
  name <- row_item "name" entry ;;
  name_str <- as_str name ;;
  context <- row_item "context" entry ;;
  context_str <- as_str context ;;
  Ok (layout (py_str name) css
        (join [NAVBAR; title_component name_str; context_str])).

(** [entry_page(css, entry)] *)
Definition entry_page (css : string) (entry : Row) : result string :=
  title <- row_item "title" entry ;;
  title_str <- as_str title ;;
  context <- row_item "context" entry ;;
  html <- row_item "html" entry ;;
  context_str <- as_str context ;;
  html_str <- as_str html ;;
  Ok (layout (py_str title) css
        (join [NAVBAR; title_component title_str; context_str; html_str])).

Definition Builder : Type := string -> Row -> result string.

Definition TABLE_TO_BUILDER : list (string * Builder) :=
  [("authors", author_page); ("weblog", entry_page); ("bookmarks", entry_page)].

(** [dateage_js(created_time)] *)
Definition dateage_js (created_time : value) : string :=
  join_sep " "
    ["
<script>
    const createdStr = " ++ dq ++ py_str created_time ++ dq ++ ";
    const birthStr = " ++ dq ++ AUTHOR_BIRTHDAY ++ dq ++ ";
        ";
     "
const container = document.getElementById(" ++ dq ++ "dateage" ++ dq ++ ");

const formatDate = (dateString, birthString) => {
    const MS_PER_YEAR = 1000 * 60 * 60 * 24 * 365.2425;

    const targetDate = new Date(dateString);
    const birthDate = new Date(birthString);
    const now = new Date();

    // Calculate time difference relative to now (client-side)
    const timeDifference = Math.abs(now.getTime() - targetDate.getTime());
    const daysAgo = Math.floor(timeDifference / (1000 * 60 * 60 * 24));

    // Calculate age at the created_time of the entry
    const ageAtPostTime = (
        (targetDate.getTime() - birthDate.getTime()) / MS_PER_YEAR
    );
    const ageSuffix = ageAtPostTime >= 0
      ? `, ${ageAtPostTime.toFixed(2)} y.o.`
      : '';

    // Format the display date (e.g. " ++ dq ++ "December 15, 2022" ++ dq ++ ")
    const fullDate = targetDate.toLocaleString('en-us', {
      month: 'long', day: 'numeric', year: 'numeric'
    });

    // Return the string based on " ++ dq ++ "Ago" ++ dq ++ " buckets
    if (daysAgo < 1) {
      return 'Today';
    } else if (daysAgo < 7) {
      return `${fullDate} (${daysAgo}d ago${ageSuffix})`;
    } else if (daysAgo < 30) {
      const weeksAgo = Math.floor(daysAgo / 7);
      return `${fullDate} (${weeksAgo}w ago${ageSuffix})`;
    } else if (daysAgo < 365) {
      const monthsAgo = Math.floor(daysAgo / 30);
      return `${fullDate} (${monthsAgo}mo ago${ageSuffix})`;
    } else {
      const yearsAgo = Math.floor(daysAgo / 365);
      return `${fullDate} (${yearsAgo}y ago${ageSuffix})`;
    }
};

// Render
container.innerText = `written on ${formatDate(createdStr, birthStr)}`
</script>
        "].

(** One turn of the loop that appends the date-age script to [html]. *)
Definition add_dateage (vs : Values) (slug : value) : result Values :=
  match values_get slug vs with
  | None => Raise (KeyError (py_str slug))
  | Some row =>
      let html := get_or_none "html" row in
      let created_time := get_or_none "created_time" row in
      match html, created_time with
      | VNone, _ | _, VNone => Ok vs
      | VStr s, _ =>
          Ok (values_set slug
                (row_set "html" (VStr (s ++ dateage_js created_time)) row) vs)
      | VInt _, _ => Raise TypeError
      end
  end.

(** The link to a related row. *)
Definition link (other : string) (s : value) : string :=
  h "p" []
    [h "a" [("href", "../" ++ other ++ "/" ++ py_str s ++ ".html")]
       ["/" ++ other ++ "/" ++ py_str s]].

(** One declared relationship: the join, then the links. *)
Definition resolve (db : Store.Database) (table : string) (vs : Values)
  (rel : relationship) : result Values :=
  rels <- Store.select_related db table (junction_table rel)
            (this_junction_id_col rel) (other_table rel)
            (other_junction_id_col rel) ;;
  add_links link (other_table rel) rels vs.

(** The first half of [gen_tmpl_values]: the rows, keyed by slug, with the
    date-age script appended. *)
Definition base_values (db : Store.Database) (table : string) : result Values :=
  rows <- Store.select_all db table ;;
  tmpl_values_by_slug <- values_of_rows rows ;;
  foldM add_dateage (PyDict.keys tmpl_values_by_slug) tmpl_values_by_slug.

(** [gen_tmpl_values(db, table)], over the relationships in force. *)
Definition gen_tmpl_values_with (config : Relationships) (db : Store.Database)
  (table : string) : result Values :=
  tmpl_values_by_slug <- base_values db table ;;
  match PyDict.get String.eqb table config with
  | None => Ok tmpl_values_by_slug
  | Some declarations => foldM (resolve db table) declarations tmpl_values_by_slug
  end.

Definition gen_tmpl_values : Store.Database -> string -> result Values :=
  gen_tmpl_values_with RELATIONSHIPS.

(** [row.get('listed', 1)], as the condition of an [if]. *)
Definition listed (row : Row) : bool :=
  match row_get "listed" row with
  | Some v => truthy v
  | None => true
  end.

(** [row.get('title', row.get('name', slug))] *)
Definition label_of (slug : value) (row : Row) : value :=
  match row_get "title" row with
  | Some v => v
  | None =>
      match row_get "name" row with
      | Some v => v
      | None => slug
      end
  end.

Definition index_link (table : string) (slug label : value) : string :=
  "<p>
                <a href=" ++ dq ++ "./" ++ table ++ "/" ++ py_str slug ++ ".html" ++ dq ++ ">" ++ py_str label ++ "</a>
            </p>".

(** The body of the loop over [values.items()]; [values[slug]] is the row
    the iteration yields. *)
Definition section_step (css table : string) (builder : Builder)
  (index_content_html : string) (entry : value * Row) : Run string :=
  let '(slug, row) := entry in
  html <~ lift (builder css row) ;;
  write_file [DIST_DIR; table; py_str slug ++ ".html"] html ;;;
  ret (if listed row
       then index_content_html ++ index_link table slug (label_of slug row)
       else index_content_html).

(** [generate_section(db, css, table, builder)] *)
Definition generate_section_with (config : Relationships) (db : Store.Database)
  (css table : string) (builder : Builder) : Run unit :=
  values <~ lift (gen_tmpl_values_with config db table) ;;
  index_content_html <~ fold_run (section_step css table builder) values "" ;;
  write_file [DIST_DIR; table ++ ".html"]
    (table_index_page css table index_content_html).

Definition generate_section : Store.Database -> string -> string -> Builder -> Run unit :=
  generate_section_with RELATIONSHIPS.

(** The [<item>] of a feed row. *)
Definition item_xml (table : string) (r : Store.FeedRow) : result string :=
  let link := BASE_URL ++ "/" ++ table ++ "/" ++ py_str (Store.slug r) in
  let title := xml_escape (Store.title r) in
  dt <- pub_date (Store.created_time r) ;;
  Ok ("<item>
          <title>" ++ title ++ "</title>
          <guid>" ++ link ++ "</guid>
          <link>" ++ link ++ "</link>
          <pubDate>" ++ dt ++ "</pubDate>
          <description>
            <![CDATA[ " ++ py_str (Store.html r) ++ " ]]>
          </description>
        </item>").

Definition rss_document (table items_xml : string) : string :=
  "<rss xmlns:atom=" ++ dq ++ "http://www.w3.org/2005/Atom" ++ dq ++ " version=" ++ dq ++ "2.0" ++ dq ++ ">
          <channel>
            <title>" ++ table ++ " | danielfalbo</title>
            <link>" ++ BASE_URL ++ "/" ++ table ++ "</link>
            <description>Latest entries from " ++ table ++ "</description>
            " ++ items_xml ++ "
          </channel>
        </rss>".

(** The body of the loop over the rows: [items_xml] grows by the item, and
    [rss_content] is assigned anew from the items so far.  Before the first
    turn [rss_content] is not bound. *)
Definition rss_step (table : string) (state : string * option string)
  (r : Store.FeedRow) : result (string * option string) :=
  item <- item_xml table r ;;
  let items_xml := fst state ++ item in
  Ok (items_xml, Some (rss_document table items_xml)).

(** [generate_rss(db, table)] *)
Definition generate_rss (db : Store.Database) (table : string) : Run unit :=
  let title_col := "title" in
  rows <~ lift (Store.select_feed db table title_col) ;;
  state <~ lift (foldM (rss_step table) rows ("", None)) ;;
  match snd state with
  | None => lift (Raise (UnboundLocalError "rss_content"))
  | Some rss_content => write_file [DIST_DIR; table; "rss"] rss_content
  end.

(** One turn of the watch loop, for the text [html] read from the buffer.
    [in] on a row object runs over its values. *)
Definition rebuild (table slug css : string) (builder : Builder) (row : Row)
  (html : string) : Run unit :=
  print ">> Change detected, rebuilding..." ;;;
  html <~ lift
    (if existsb (value_eqb (VStr "created_time")) (map snd row) then
       match row_get "created_time" row with
       | Some created_time => Ok (html ++ dateage_js created_time)
       | None => Raise IndexError
       end
     else Ok html) ;;
  content <~ lift
    (builder css (row_set "context" (VStr "") (row_set "html" (VStr html) row))) ;;
  write_file [DIST_DIR; table; slug ++ ".html"] content.

(** [watch_buffer(table, slug)]: [fetched] is what the lookup of the row
    gave, [events] the buffer contents read at each change notification up
    to the interrupt. *)
Definition watch_buffer (fetched : result (option Row)) (css table slug : string)
  (events : list string) : Run unit :=
  let buf_file := "buf_" ++ table ++ "_" ++ slug ++ ".html" in
  row <~ lift fetched ;;
  match row with
  | Some (column :: columns) =>
      let row := column :: columns in
      print ("Watching " ++ buf_file ++ " as html content of " ++ table ++ "/" ++
             slug ++ "...") ;;;
      os_open buf_file ;;;
      builder <~ lift (match PyDict.get String.eqb table TABLE_TO_BUILDER with
                       | Some builder => Ok builder
                       | None => Raise (KeyError table)
                       end) ;;
      for_each (rebuild table slug css builder row) events ;;;
      print (nl ++ "Stopping...")
  | _ => die_with_honor ("Slug '" ++ slug ++ "' not found in table '" ++ table ++ "'")
  end.

End Prev.

(** ** [main.py]: pages from template files

    The templates and components are files outside the source tree.  They
    are parameters here: [tmpls] maps the stem of a file of [templates/] to
    its text, [cmps] the stem of a file of [components/] to its text, as
    [load_cmps] returns it. *)

Module Main.

Import Text Utils.

Definition DIST_DIR : string := "dist".

Definition AUTHOR_BIRTHDAY : string := "2003-12-10T13:30:00+01:00".

Definition BASE_URL : string := "https://danielfalbo.com".

Definition RELATIONSHIPS : Relationships :=
  [("resources",
    [mkRel "resource_authors" "id" "resource_id" "authors" "id" "author_id"]);
   ("authors",
    [mkRel "resource_authors" "id" "author_id" "resources" "id" "resource_id"])].

Definition Assets : Type := list (string * string).

(** [load_tmpl(name)] *)
Definition load_tmpl (tmpls : Assets) (name : string) : result string :=
  match PyDict.get String.eqb name tmpls with
  | Some text => Ok text
  | None => Raise FileNotFoundError
  end.

(** [cmps[name]] *)
Definition component (cmps : Assets) (name : string) : result string :=
  match PyDict.get String.eqb name cmps with
  | Some text => Ok text
  | None => Raise (KeyError name)
  end.

(** One turn of the loop that replaces the [{dateage}] placeholder: the
    stored [html] is itself the format string. *)
Definition add_dateage (dateage_cmp : string) (vs : Values) (slug : value)
  : result Values :=
  match values_get slug vs with
  | None => Raise (KeyError (py_str slug))
  | Some row =>
      let html := get_or_none "html" row in
      let created_time := get_or_none "created_time" row in
      match html, created_time with
      | VNone, _ | _, VNone => Ok vs
      | VInt _, _ => Raise AttributeError
      | VStr s, _ =>
          dateage <- Format.format
                       [("created_time", created_time);
                        ("AUTHOR_BIRTHDAY", VStr AUTHOR_BIRTHDAY)]
                       dateage_cmp ;;
          formatted <- Format.format [("dateage", VStr dateage)] s ;;
          Ok (values_set slug (row_set "html" (VStr formatted) row) vs)
      end
  end.

(** The link to a related row. *)
Definition link (other : string) (s : value) : string :=
  "<p><a href=" ++ dq ++ "../" ++ other ++ "/" ++ py_str s ++ ".html" ++ dq ++ ">/" ++ other ++ "/" ++ py_str s ++ "</a></p>".

Definition resolve (db : Store.Database) (table : string) (vs : Values)
  (rel : relationship) : result Values :=
  rels <- Store.select_related db table (junction_table rel)
            (this_junction_id_col rel) (other_table rel)
            (other_junction_id_col rel) ;;
  add_links link (other_table rel) rels vs.

(** The first half of [gen_tmpl_values]: the rows, keyed by slug, with the
    date-age placeholder replaced. *)
Definition base_values (db : Store.Database) (table : string) (cmps : Assets)
  : result Values :=
  rows <- Store.select_all db table ;;
  tmpl_values_by_slug <- values_of_rows rows ;;
  dateage_cmp <- component cmps "dateage" ;;
  foldM (add_dateage dateage_cmp) (PyDict.keys tmpl_values_by_slug)
        tmpl_values_by_slug.

(** [gen_tmpl_values(db, table, cmps)], over the relationships in force. *)
Definition gen_tmpl_values_with (config : Relationships) (db : Store.Database)
  (table : string) (cmps : Assets) : result Values :=
  tmpl_values_by_slug <- base_values db table cmps ;;
  match PyDict.get String.eqb table config with
  | None => Ok tmpl_values_by_slug
  | Some declarations => foldM (resolve db table) declarations tmpl_values_by_slug
  end.

Definition gen_tmpl_values : Store.Database -> string -> Assets -> result Values :=
  gen_tmpl_values_with RELATIONSHIPS.

Definition index_link (table : string) (slug : value) : string :=
  "<p>
            <a href=" ++ dq ++ "./" ++ table ++ "/" ++ py_str slug ++ ".html" ++ dq ++ ">/" ++ table ++ "/" ++ py_str slug ++ "</a>
        </p>".

(** The body of the loop over [values.items()]. *)
Definition section_step (tmpl css table : string) (index_content_html : string)
  (entry : value * Row) : Run string :=
  let '(slug, row) := entry in
  html <~ lift (kw <- Format.kwargs (("css", VStr css) :: row) ;;
                Format.format kw tmpl) ;;
  write_file [DIST_DIR; table; py_str slug ++ ".html"] html ;;;
  ret (index_content_html ++ index_link table slug).

(** [generate_section(db, css, cmps, table)] *)
Definition generate_section_with (config : Relationships) (tmpls : Assets)
  (db : Store.Database) (css : string) (cmps : Assets) (table : string)
  : Run unit :=
  tmpl <~ lift (load_tmpl tmpls table) ;;
  values <~ lift (gen_tmpl_values_with config db table cmps) ;;
  list_cmpn <~ lift (component cmps "list") ;;
  index_content_html <~ fold_run (section_step tmpl css table) values "" ;;
  index_html <~ lift (Format.format
                        [("css", VStr css); ("table", VStr table);
                         ("content", VStr index_content_html)]
                        list_cmpn) ;;
  write_file [DIST_DIR; table ++ ".html"] index_html.

Definition generate_section
  : Assets -> Store.Database -> string -> Assets -> string -> Run unit :=
  generate_section_with RELATIONSHIPS.

(** The [<item>] of a feed row. *)
Definition item_xml (table : string) (r : Store.FeedRow) : result string :=
  let link := BASE_URL ++ "/" ++ table ++ "/" ++ py_str (Store.slug r) in
  let title :=
    replace_char ">" "&gt;"
      (replace_char "<" "&lt;"
         (replace_char "&" "&amp;" (py_str (Store.title r)))) in
  dt <- pub_date (Store.created_time r) ;;
  Ok ("
    <item>
      <title>" ++ title ++ "</title>
      <guid>" ++ link ++ "</guid>
      <link>" ++ link ++ "</link>
      <pubDate>" ++ dt ++ "</pubDate>
      <description>
        <![CDATA[ " ++ py_str (Store.html r) ++ " ]]>
      </description>
    </item>").

Definition rss_document (table items_xml : string) : string :=
  "<rss xmlns:atom=" ++ dq ++ "http://www.w3.org/2005/Atom" ++ dq ++ " version=" ++ dq ++ "2.0" ++ dq ++ ">
  <channel>
    <title>" ++ table ++ " | danielfalbo</title>
    <link>" ++ BASE_URL ++ "/" ++ table ++ "</link>
    <description>Latest entries from " ++ table ++ "</description>
    " ++ items_xml ++ "
  </channel>
</rss>".

Definition title_col (table : string) : string :=
  if String.eqb table "authors" then "name" else "title".

(** [generate_rss(db, table)] *)
Definition generate_rss (db : Store.Database) (table : string) : Run unit :=
  rows <~ lift (Store.select_feed db table (title_col table)) ;;
  items_xml <~ lift (foldM (fun items_xml r =>
                              item <- item_xml table r ;;
                              Ok (items_xml ++ item))
                           rows "") ;;
  write_file [DIST_DIR; table; "rss"] (rss_document table items_xml).

(** [template.replace('{css}', css)]: the occurrences of the placeholder
    are replaced from the left; they cannot overlap. *)
Fixpoint replace_css (css s : string) : string :=
  match s with
  | String "{" (String "c" (String "s" (String "s" (String "}" rest)))) =>
      css ++ replace_css css rest
  | String c rest => String c (replace_css css rest)
  | EmptyString => ""
  end.

(** [generate_standalone_page(css, name)] *)
Definition generate_standalone_page (tmpls : Assets) (css name : string)
  : Run unit :=
  template <~ lift (load_tmpl tmpls name) ;;
  let html := replace_css css template in
  write_file [DIST_DIR; name ++ ".html"] html.

(** One turn of the watch loop; the row keeps the text read for the next
    turn. *)
Definition rebuild (template css table slug : string) (row : Row) (html : string)
  : Run Row :=
  print ">> Change detected, rebuilding..." ;;;
  let row := row_set "html" (VStr html) row in
  content <~ lift (kw <- Format.kwargs
                           (("css", VStr css) :: row ++ [("context", VStr "")])%list ;;
                   Format.format kw template) ;;
  write_file [DIST_DIR; table; slug ++ ".html"] content ;;;
  ret row.

(** [watch_buffer(table, slug)]: [fetched] is what the lookup of the row
    gave, [global_css] what [load_global_css()] gives, [events] the buffer
    contents read at each change notification up to the interrupt. *)
Definition watch_buffer (tmpls : Assets) (global_css : result string)
  (fetched : result (option Row)) (table slug : string) (events : list string)
  : Run unit :=
  let buf_file := "buf_" ++ table ++ "_" ++ slug ++ ".html" in
  row <~ lift fetched ;;
  match row with
  | Some (column :: columns) =>
      let row := column :: columns in
      print ("Watching " ++ buf_file ++ " as html content of " ++ table ++ "/" ++
             slug ++ "...") ;;;
      os_open buf_file ;;;
      template <~ lift (load_tmpl tmpls table) ;;
      css <~ lift global_css ;;
      fold_run (rebuild template css table slug) events row ;;;
      print (nl ++ "Stopping...")
  | _ => die_with_honor ("Slug '" ++ slug ++ "' not found in table '" ++ table ++ "'")
  end.

End Main.

(** * Definitions the statements use *)

(** An XML element without attributes. *)
Definition element (tag content : string) : string :=
  "<" ++ tag ++ ">" ++ content ++ "</" ++ tag ++ ">".

(** ** The shape of a feed

    What the two [generate_rss] print, with the white space between the
    elements, which is all they differ in, taken out as a [layout]. *)

Record layout : Type := mkLayout {
  before_item : string;
  in_item : string;
  in_description : string;
  before_item_end : string;
  in_rss : string;
  in_channel : string;
  before_rss_end : string
}.

Definition feed_item (l : layout) (title link pub_date body : string) : string :=
  before_item l ++ "<item>" ++
  in_item l ++ element "title" title ++
  in_item l ++ element "guid" link ++
  in_item l ++ element "link" link ++
  in_item l ++ element "pubDate" pub_date ++
  in_item l ++ "<description>" ++
  in_description l ++ "<![CDATA[ " ++ body ++ " ]]>" ++
  in_item l ++ "</description>" ++
  before_item_end l ++ "</item>".

Definition feed_document (l : layout) (base_url table items : string) : string :=
  "<rss xmlns:atom=" ++ Text.dq ++ "http://www.w3.org/2005/Atom" ++ Text.dq ++
  " version=" ++ Text.dq ++ "2.0" ++ Text.dq ++ ">" ++
  in_rss l ++ "<channel>" ++
  in_channel l ++ element "title" (table ++ " | danielfalbo") ++
  in_channel l ++ element "link" (base_url ++ "/" ++ table) ++
  in_channel l ++ element "description" ("Latest entries from " ++ table) ++
  in_channel l ++ items ++
  in_rss l ++ "</channel>" ++
  before_rss_end l ++ "</rss>".

Definition spaces (n : nat) : string := String.concat "" (repeat " " n).

Definition prev_layout : layout :=
  mkLayout "" (Text.nl ++ spaces 10) (Text.nl ++ spaces 12) (Text.nl ++ spaces 8)
           (Text.nl ++ spaces 10) (Text.nl ++ spaces 12) (Text.nl ++ spaces 8).

Definition main_layout : layout :=
  mkLayout (Text.nl ++ spaces 4) (Text.nl ++ spaces 6) (Text.nl ++ spaces 8)
           (Text.nl ++ spaces 4)
           (Text.nl ++ spaces 2) (Text.nl ++ spaces 4) Text.nl.

(** The address of an entry in the feed: base URL, table, slug. *)
Definition feed_link (table : string) (slug : value) : string :=
  "https://danielfalbo.com" ++ "/" ++ table ++ "/" ++ py_str slug.

(** The three replacements of the title, made character by character. *)
Definition escape_char (c : ascii) : string :=
  if Ascii.eqb c "&" then "&amp;"
  else if Ascii.eqb c "<" then "&lt;"
  else if Ascii.eqb c ">" then "&gt;"
  else String c "".

Fixpoint escape_chars (s : string) : string :=
  match s with
  | EmptyString => ""
  | String c rest => escape_char c ++ escape_chars rest
  end.

(** Every [&] of the text starts one of the three entities. *)
Fixpoint ampersands_escaped (s : string) : bool :=
  match s with
  | EmptyString => true
  | String c rest =>
      (if Ascii.eqb c "&"
       then String.prefix "amp;" rest || String.prefix "lt;" rest ||
            String.prefix "gt;" rest
       else true)
      && ampersands_escaped rest
  end.

(** A CDATA section: the opening mark, a text that does not hold the
    closing mark, and the closing mark. *)
Definition cdata_section (block : string) : Prop :=
  exists inner,
    block = "<![CDATA[" ++ inner ++ "]]>" /\ Text.containsb inner "]]>" = false.

(** ** The calendar

    Dates as numbers, the texts that write them and the RFC 822 form, told
    without the date arithmetic of the code. *)

Definition digit_char (z : Z) : ascii :=
  match z with
  | 0 => "0" | 1 => "1" | 2 => "2" | 3 => "3" | 4 => "4"
  | 5 => "5" | 6 => "6" | 7 => "7" | 8 => "8" | _ => "9"
  end%Z%char.

(** The last [k] decimal digits of [n]. *)
Fixpoint digits (k : nat) (n : Z) : string :=
  match k with
  | O => ""
  | S k' => digits k' (n / 10) ++ String (digit_char (n mod 10)) ""
  end.

Definition leap_year (y : Z) : bool :=
  if (y mod 400 =? 0)%Z then true
  else if (y mod 100 =? 0)%Z then false
  else (y mod 4 =? 0)%Z.

Definition month_days (y m : Z) : Z :=
  if (m =? 2)%Z then (if leap_year y then 29 else 28)%Z
  else if ((m =? 4) || (m =? 6) || (m =? 9) || (m =? 11))%Z then 30%Z
  else 31%Z.

(** A day of the Gregorian calendar, in the years that have four digits. *)
Definition calendar_day (y m d : Z) : bool :=
  ((1 <=? y) && (y <=? 9999) && (1 <=? m) && (m <=? 12) &&
   (1 <=? d) && (d <=? month_days y m))%Z.

(** A month or a day as the store may write it: with two digits, or, below
    ten, with one. *)
Definition written (padded : bool) (n : Z) : string :=
  if padded || (10 <=? n)%Z then digits 2 n else digits 1 n.

Definition written_date (y m d : Z) (month_padded day_padded : bool) : string :=
  digits 4 y ++ "-" ++ written month_padded m ++ "-" ++ written day_padded d.

(** The end of a timestamp after its date: nothing, or a blank and
    whatever follows. *)
Definition time_of_day (rest : string) : bool :=
  match rest with
  | EmptyString => true
  | String c _ => Ascii.eqb c " "
  end.

(** The day of the week by Zeller's congruence: 0 is Saturday. *)
Definition zeller (y m d : Z) : Z :=
  let m' := if (m <? 3)%Z then (m + 12)%Z else m in
  let y' := if (m <? 3)%Z then (y - 1)%Z else y in
  let k := (y' mod 100)%Z in
  let j := (y' / 100)%Z in
  ((d + (13 * (m' + 1)) / 5 + k + k / 4 + j / 4 + 5 * j) mod 7)%Z.

Definition weekday_abbreviation (h : Z) : string :=
  match h with
  | 0 => "Sat" | 1 => "Sun" | 2 => "Mon" | 3 => "Tue"
  | 4 => "Wed" | 5 => "Thu" | _ => "Fri"
  end%Z.

Definition month_abbreviation (m : Z) : string :=
  match m with
  | 1 => "Jan" | 2 => "Feb" | 3 => "Mar" | 4 => "Apr" | 5 => "May" | 6 => "Jun"
  | 7 => "Jul" | 8 => "Aug" | 9 => "Sep" | 10 => "Oct" | 11 => "Nov" | _ => "Dec"
  end%Z.

(** A day as RFC 822 writes it, at midnight, in UTC. *)
Definition rfc822_date (y m d : Z) : string :=
  weekday_abbreviation (zeller y m d) ++ ", " ++ digits 2 d ++ " " ++
  month_abbreviation m ++ " " ++ digits 4 y ++ " 00:00:00 +0000".

(** The feed built once, after all items are collected: what the spec asks
    the loop of [Prev.generate_rss] to be read as. *)
Definition generate_rss_build_once (db : Store.Database) (table : string)
  : Run unit :=
  bindR (lift (Store.select_feed db table "title")) (fun rows =>
  bindR (lift (mapM (Prev.item_xml table) rows)) (fun items =>
  Utils.write_file [Prev.DIST_DIR; table; "rss"]
    (Prev.rss_document table (Text.join items)))).

(** What an item of a feed says: its title as escaped, its address, its
    date as printed and its body. *)
Record entry : Type := mkEntry {
  entry_title : string;
  entry_link : string;
  entry_date : string;
  entry_body : string
}.

Definition feed_entry (table : string) (r : Store.FeedRow) : result entry :=
  bind (Utils.pub_date (Store.created_time r))
       (fun dt => Ok (mkEntry (escape_chars (py_str (Store.title r)))
                              (feed_link table (Store.slug r)) dt
                              (py_str (Store.html r)))).

Definition render_entry (l : layout) (e : entry) : string :=
  feed_item l (entry_title e) (entry_link e) (entry_date e) (entry_body e).

(** The feed of a table with the given entries, laid out by [l]. *)
Definition feed_text (l : layout) (table : string) (entries : list entry) : string :=
  feed_document l "https://danielfalbo.com" table
    (Text.join (map (render_entry l) entries)).

(** The first row of a feed is at least as new as the second, in the order
    the store sorts values in. *)
Definition newer_or_equal (r1 r2 : Store.FeedRow) : Prop :=
  Store.sql_leb (Store.created_time r2) (Store.created_time r1) = true.

(** The four columns of a stored row that the feed query selects. *)
Definition feed_row (title_col : string) (r : Row) : Store.FeedRow :=
  Store.mkFeedRow (Store.cell "slug" r) (Store.cell title_col r)
                  (Store.cell "created_time" r) (Store.cell "html" r).

(** Calendar order on dates. *)
Definition date_leb (d1 d2 : Datetime.date) : bool :=
  ((Datetime.year d1 <? Datetime.year d2) ||
   ((Datetime.year d1 =? Datetime.year d2) &&
    ((Datetime.month d1 <? Datetime.month d2) ||
     ((Datetime.month d1 =? Datetime.month d2) &&
      (Datetime.day d1 <=? Datetime.day d2)))))%Z.

(** The calendar date of a feed row, as [generate_rss] reads it. *)
Definition row_date (r : Store.FeedRow) : result Datetime.date :=
  bind (Utils.date_part (Store.created_time r)) Datetime.strptime.

(** A timestamp written [YYYY-MM-DD], alone or followed by a blank and a
    time of day: the two forms the source says the store holds. *)
Definition iso_timestamp (v : value) : bool :=
  match v with
  | VStr (String y1 (String y2 (String y3 (String y4 (String dash1
      (String m1 (String m2 (String dash2 (String d1 (String d2 rest))))))))))
    =>
      Datetime.is_digit y1 && Datetime.is_digit y2 && Datetime.is_digit y3 &&
      Datetime.is_digit y4 && Ascii.eqb dash1 "-" &&
      Datetime.is_digit m1 && Datetime.is_digit m2 && Ascii.eqb dash2 "-" &&
      Datetime.is_digit d1 && Datetime.is_digit d2 &&
      match rest with
      | EmptyString => true
      | String c _ => Ascii.eqb c " "
      end
  | _ => false
  end.

(** ** Relationship links *)

(** The slugs the join relates to [slug], in the order of the join result. *)
Definition related (slug : value) (rels : list (value * value)) : list value :=
  map snd (filter (fun rel => value_eqb (fst rel) slug) rels).

(** A row with [links] added at the end of its [context]. *)
Definition with_context (links : string) (row : Row) : Row :=
  match row_get "context" row with
  | Some (VStr s) => row_set "context" (VStr (s ++ links)) row
  | _ => row
  end.

Definition has_text_context (row : Row) : Prop :=
  exists s, row_get "context" row = Some (VStr s).

(** One turn of the loop that fills [relations_map]. *)
Definition group_step (m : list (value * list value)) (rel : value * value)
  : list (value * list value) :=
  let src_slug := fst rel in
  let m := if PyDict.mem value_eqb src_slug m then m
           else PyDict.set value_eqb src_slug [] m in
  match PyDict.get value_eqb src_slug m with
  | Some l => PyDict.set value_eqb src_slug (l ++ [snd rel])%list m
  | None => m
  end.

(** The slugs grouped under [slug], none when the key is absent. *)
Definition slugs_of (slug : value) (m : list (value * list value)) : list value :=
  match PyDict.get value_eqb slug m with
  | Some l => l
  | None => []
  end.


(** The links of the slugs related to one row, joined. *)
Definition links_to (link : string -> value -> string) (other : string)
  (slugs : list value) : string :=
  Text.join (map (link other) slugs).

Definition all_text_context (vs : Values) : Prop :=
  forall e, In e vs -> has_text_context (snd e).

Definition empty_context (vs : Values) : Prop :=
  forall e, In e vs -> row_get "context" (snd e) = Some (VStr "").

(** The join of one declared relationship of [table]. *)
Definition join_of (db : Store.Database) (table : string)
  (rel : Utils.relationship) : result (list (value * value)) :=
  Store.select_related db table (Utils.junction_table rel)
    (Utils.this_junction_id_col rel) (Utils.other_table rel)
    (Utils.other_junction_id_col rel).

(** The context of the row [slug]: for each declaration in turn, the links
    to the slugs its join relates to [slug], in the order of the join. *)
Fixpoint context_links (link : string -> value -> string)
  (declarations : list Utils.relationship)
  (joins : list (list (value * value))) (slug : value) : string :=
  match declarations, joins with
  | rel :: declarations', rels :: joins' =>
      links_to link (Utils.other_table rel) (related slug rels) ++
      context_links link declarations' joins' slug
  | _, _ => ""
  end.

(** What [prev.py] does to the values of one row before the relationships:
    the date-age script goes after the body when the row has a body and a
    creation time. *)
Definition prev_dated (row : Row) : result Row :=
  match Utils.get_or_none "html" row, Utils.get_or_none "created_time" row with
  | VNone, _ | _, VNone => Ok row
  | VStr s, created_time =>
      Ok (row_set "html" (VStr (s ++ Prev.dateage_js created_time)) row)
  | VInt _, _ => Raise TypeError
  end.

(** A change of the values of a row, made to an entry of the dictionary. *)
Definition on_entry (upd : Row -> result Row) (e : value * Row)
  : result (value * Row) :=
  bind (upd (snd e)) (fun row' => Ok (fst e, row')).

(** The values of a stored row before any processing: the columns and an
    empty context. *)
Definition initial_values (r : Row) : Row := row_set "context" (VStr "") r.

(** The row stored last under [slug]. *)
Fixpoint last_with_slug (slug : value) (rows : list Row) : option Row :=
  match rows with
  | [] => None
  | r :: rest =>
      match last_with_slug slug rest with
      | Some r' => Some r'
      | None =>
          match row_get "slug" r with
          | Some s => if value_eqb s slug then Some r else None
          | None => None
          end
      end
  end.

(** ** Format strings *)

(** A text without braces. *)
Definition brace_free (s : string) : bool :=
  negb (Text.has_char "{" s || Text.has_char "}" s).

(** A character that may stand in a plain field name. *)
Definition name_char (c : ascii) : bool :=
  negb (Ascii.eqb c "{" || Ascii.eqb c "}" || Ascii.eqb c "[" || Ascii.eqb c "]"
        || Ascii.eqb c "." || Ascii.eqb c ":" || Ascii.eqb c "!").

Fixpoint name_chars (s : string) : bool :=
  match s with
  | EmptyString => true
  | String c rest => name_char c && name_chars rest
  end.

(** A field name that is looked up among the keywords as it stands: not
    empty, not a number, and without the characters of the field syntax. *)
Definition plain_name (name : string) : bool :=
  negb (String.eqb name "") && name_chars name && negb (Format.all_digits name).

(** What [main.py] does to the values of one row before the relationships:
    the body is formatted, with the formatted date-age component for its
    [dateage] field, when the row has a body and a creation time. *)
Definition main_dated (dateage_cmp : string) (row : Row) : result Row :=
  match Utils.get_or_none "html" row, Utils.get_or_none "created_time" row with
  | VNone, _ | _, VNone => Ok row
  | VInt _, _ => Raise AttributeError
  | VStr s, created_time =>
      bind (Format.format [("created_time", created_time);
                           ("AUTHOR_BIRTHDAY", VStr Main.AUTHOR_BIRTHDAY)]
                          dateage_cmp)
        (fun dateage =>
           bind (Format.format [("dateage", VStr dateage)] s)
             (fun formatted => Ok (row_set "html" (VStr formatted) row)))
  end.

(** ** Sections *)


Definition entry_path (table : string) (slug : value) : Path :=
  ["dist"; table; py_str slug ++ ".html"].

(** The pages of the entries, as written: one per entry, in order. *)
Fixpoint entry_writes (table : string) (values : Values) (pages : list string)
  : list (Path * string) :=
  match values, pages with
  | e :: values', page :: pages' =>
      (entry_path table (fst e), page) :: entry_writes table values' pages'
  | _, _ => []
  end.




(** Two worlds that differ at most in what was printed on standard output
    and in the files written. *)
Definition wrote (w w' : World) (files : list (Path * string)) : Prop :=
  writes w' = (writes w ++ files)%list
  /\ stderr w' = stderr w
  /\ opened w' = opened w.

(** The text [YYYY-MM-DD] of eight digits, and the number its digits
    spell when the dashes are left out. *)
Definition date_text (y1 y2 y3 y4 m1 m2 d1 d2 : ascii) : string :=
  String y1 (String y2 (String y3 (String y4 (String "-"
    (String m1 (String m2 (String "-" (String d1 (String d2 ""))))))))).

Definition date_key (y1 y2 y3 y4 m1 m2 d1 d2 : ascii) : Z :=
  ((Datetime.digit y1 * 1000 + Datetime.digit y2 * 100 + Datetime.digit y3 * 10 +
    Datetime.digit y4) * 10000
   + (10 * Datetime.digit m1 + Datetime.digit m2) * 100
   + (10 * Datetime.digit d1 + Datetime.digit d2))%Z.

(** The first row of a feed is dated no earlier than the second, by the
    calendar. *)
Definition calendar_newer_or_equal (r1 r2 : Store.FeedRow) : Prop :=
  exists d1 d2,
    row_date r1 = Ok d1 /\ row_date r2 = Ok d2 /\ date_leb d2 d1 = true.

Definition iso_dated (r : Store.FeedRow) : Prop :=
  iso_timestamp (Store.created_time r) = true.

(** The text without its first [n] characters. *)
Fixpoint drop_chars (n : nat) (s : string) : string :=
  match n, s with
  | S n', String _ rest => drop_chars n' rest
  | _, _ => s
  end.

(** A feed row with another body. *)
Definition with_html (r : Store.FeedRow) (body : value) : Store.FeedRow :=
  Store.mkFeedRow (Store.slug r) (Store.title r) (Store.created_time r) body.

(** ** Watch mode *)

(** No row of the table holds the slug: every stored slug is NULL or
    another text.  A number in the column is left out: whether SQLite takes
    it for the text of the statement depends on the declared type of the
    column. *)
Definition slug_absent (slug : string) (t : Store.Table) : bool :=
  forallb (fun r =>
             match Store.cell "slug" r with
             | VNone => true
             | VInt _ => false
             | VStr s => negb (String.eqb s slug)
             end)
          (Store.table_rows t).


(** The scratch file watched for an entry. *)
Definition buffer_name (table slug : string) : string :=
  "buf_" ++ table ++ "_" ++ slug ++ ".html".

(** The page [prev.py] builds of a row and a body, with no links. *)
Definition prev_watch_page (builder : Prev.Builder) (css : string) (row : Row)
  (body : string) : result string :=
  builder css (row_set "context" (VStr "") (row_set "html" (VStr body) row)).

(** The page [main.py] builds of a row and a body, with no links: the
    body is one of the values the template is formatted with. *)
Definition main_watch_page (template css : string) (row : Row) (body : string)
  : result string :=
  bind (Format.kwargs
          (("css", VStr css) :: row_set "html" (VStr body) row
             ++ [("context", VStr "")])%list)
       (fun kw => Format.format kw template).

(** No value of the row is the given text. *)
Definition no_value_is (text : string) (row : Row) : bool :=
  negb (existsb (value_eqb (VStr text)) (map snd row)).

(** What a watch session leaves: the scratch file opened, the pages
    written over each other at the path of the entry, nothing on the error
    stream. *)
Definition watched (w w' : World) (table slug : string) (pages : list string)
  : Prop :=
  writes w' = (writes w ++ map (fun page => (["dist"; table; (slug ++ ".html")%string],
                                             page))
                               pages)%list
  /\ stderr w' = stderr w
  /\ opened w' = (opened w ++ [buffer_name table slug])%list.

(** ** Sample stores *)

Module Samples.

Import Store.

(** A [weblog] table as the feed tables are laid out. *)
Definition weblog_columns : list string :=
  ["id"; "slug"; "title"; "created_time"; "html"; "listed"].

Definition notes_db : Database :=
  [("notes", mkTable ["id"; "slug"; "title"; "created_time"; "html"]
      [[VInt 1; VStr "hello"; VStr "Hello"; VStr "2024-01-01 00:00:00"; VStr ""]])].

Definition weblog (rows : list (list value)) : Database :=
  [("weblog", mkTable weblog_columns rows)].

Definition empty_weblog_db : Database := weblog [].

Definition one_entry_db : Database :=
  weblog [[VInt 1; VStr "a"; VStr "A"; VStr "2024-01-01 00:00:00";
           VStr "<p>x</p>"; VInt 1]].

(** Two entries whose dates are written without a leading zero. *)
Definition unpadded_dates_db : Database :=
  weblog [[VInt 1; VStr "sep"; VStr "September"; VStr "2024-9-01";
           VStr "<p>s</p>"; VInt 1];
          [VInt 2; VStr "oct"; VStr "October"; VStr "2024-10-01";
           VStr "<p>o</p>"; VInt 1]].

(** Three entries: listed, with a NULL [listed], and marked unlisted. *)
Definition listing_db : Database :=
  weblog [[VInt 1; VStr "a"; VStr "A"; VStr "2024-01-01 00:00:00";
           VStr "<p>a</p>"; VInt 1];
          [VInt 2; VStr "b"; VStr "B"; VStr "2024-01-02"; VStr "<p>b</p>"; VNone];
          [VInt 3; VStr "c"; VStr "C"; VStr "2024-01-03"; VStr "<p>c</p>"; VInt 0]].

(** Two entries, the second without a title. *)
Definition untitled_db : Database :=
  weblog [[VInt 1; VStr "a"; VStr "A"; VStr "2024-01-01"; VStr "<p>a</p>"; VInt 1];
          [VInt 2; VStr "b"; VNone; VStr "2024-01-02"; VStr "<p>b</p>"; VInt 1]].

(** Two bookmarks and two authors; the first bookmark has both authors. *)
Definition library_db : Database :=
  [("bookmarks", mkTable ["id"; "slug"; "title"; "created_time"; "html"]
      [[VInt 1; VStr "b1"; VStr "One"; VStr "2024-01-01"; VStr "<p>1</p>"];
       [VInt 2; VStr "b2"; VStr "Two"; VNone; VStr "<p>{2}</p>"]]);
   ("authors", mkTable ["id"; "slug"; "name"]
      [[VInt 1; VStr "alice"; VStr "Alice"];
       [VInt 2; VStr "bob"; VStr "Bob"]]);
   ("bookmark_authors", mkTable ["bookmark_id"; "author_id"]
      [[VInt 1; VInt 1]; [VInt 1; VInt 2]])].

(** The same with the table names of [main.py]. *)
Definition resources_db : Database :=
  [("resources", mkTable ["id"; "slug"; "title"; "created_time"; "html"]
      [[VInt 1; VStr "r1"; VStr "One"; VStr "2024-01-01"; VStr "<p>1</p>"];
       [VInt 2; VStr "r2"; VStr "Two"; VNone; VStr "<p>2</p>"]]);
   ("authors", mkTable ["id"; "slug"; "name"]
      [[VInt 1; VStr "alice"; VStr "Alice"];
       [VInt 2; VStr "bob"; VStr "Bob"]]);
   ("resource_authors", mkTable ["resource_id"; "author_id"]
      [[VInt 1; VInt 1]; [VInt 1; VInt 2]])].

(** Components and a template as [main.py] loads them. *)
Definition components : Main.Assets :=
  [("dateage", "<i>{created_time}</i>");
   ("list", "<style>{css}</style><h1>{table}</h1>{content}")].

Definition templates : Main.Assets :=
  [("weblog", "<style>{css}</style><h1>{title}</h1>{context}{html}")].

(** An entry whose body holds the date-age placeholder and one whose body
    holds a field that is no keyword. *)
Definition placeholder_db : Database :=
  weblog [[VInt 1; VStr "a"; VStr "A"; VStr "2024-01-01"; VStr "<p>{dateage}</p>";
           VInt 0]].


(** An entry whose body holds the closing mark of a CDATA section. *)
Definition cdata_end_db : Database :=
  weblog [[VInt 1; VStr "a"; VStr "A & B"; VStr "2024-01-01"; VStr "a]]>b";
           VInt 1]].

(** An entry whose body holds doubled braces. *)
Definition doubled_braces_db : Database :=
  weblog [[VInt 1; VStr "a"; VStr "A"; VStr "2024-01-01"; VStr "<p>{{x}}</p>";
           VInt 1]].

Definition stray_field_db : Database :=
  weblog [[VInt 1; VStr "a"; VStr "A"; VStr "2024-01-01"; VStr "<p>{x}</p>";
           VInt 1]].

End Samples.

(** * Facts about the building blocks *)

Section ResultFacts.

Context {A B : Type}.

Lemma bind_ok (r : result A) (k : A -> result B) (b : B) :
  bind r k = Ok b -> exists a, r = Ok a /\ k a = Ok b.
Proof.
  destruct r as [a | e | ]; simpl; intros H; try discriminate.
  exists a; split; [reflexivity | exact H].
Qed.

Lemma foldM_app (step : B -> A -> result B) (xs ys : list A) (acc : B) :
  foldM step (xs ++ ys)%list acc = bind (foldM step xs acc) (foldM step ys).
Proof.
  revert acc; induction xs as [| x xs IH]; intros acc; simpl.
  - reflexivity.
  - destruct (step acc x) as [acc' | e | ]; simpl; auto.
Qed.

Lemma foldM_ext (f g : B -> A -> result B) (xs : list A) (acc : B) :
  (forall acc x, f acc x = g acc x) -> foldM f xs acc = foldM g xs acc.
Proof.
  intros H. revert acc. induction xs as [| x xs IH]; intros acc; simpl.
  - reflexivity.
  - rewrite H. destruct (g acc x); simpl; auto.
Qed.

End ResultFacts.

Section TextFacts.

Lemma append_nil_r (s : string) : s ++ "" = s.
Proof. induction s as [| c s IH]; simpl; [reflexivity | now rewrite IH]. Qed.

Lemma append_assoc (s t u : string) : (s ++ t) ++ u = s ++ (t ++ u).
Proof. induction s as [| c s IH]; simpl; [reflexivity | now rewrite IH]. Qed.

Lemma length_append (s t : string) :
  String.length (s ++ t) = String.length s + String.length t.
Proof. induction s as [| c s IH]; simpl; [reflexivity | now rewrite IH]. Qed.

Lemma join_app (xs ys : list string) :
  Text.join (xs ++ ys)%list = Text.join xs ++ Text.join ys.
Proof.
  induction xs as [| x xs IH]; simpl; [reflexivity |].
  now rewrite IH, append_assoc.
Qed.

Lemma contains_refl (s : string) : Text.contains s s.
Proof. exists "", ""; simpl; now rewrite append_nil_r. Qed.

Lemma contains_app_l (pre hay needle : string) :
  Text.contains hay needle -> Text.contains (pre ++ hay) needle.
Proof.
  intros (x & y & ->). exists (pre ++ x), y. now rewrite append_assoc.
Qed.

Lemma contains_app_r (post hay needle : string) :
  Text.contains hay needle -> Text.contains (hay ++ post) needle.
Proof.
  intros (x & y & ->). exists x, (y ++ post). now rewrite !append_assoc.
Qed.

End TextFacts.

Lemma value_eqb_spec (x y : value) : reflect (x = y) (value_eqb x y).
Proof.
  destruct x as [| a | s], y as [| b | t]; simpl; try (constructor; congruence).
  - destruct (Z.eqb_spec a b); constructor; congruence.
  - destruct (String.eqb_spec s t); constructor; congruence.
Qed.

Lemma value_eqb_refl (x : value) : value_eqb x x = true.
Proof. destruct (value_eqb_spec x x); congruence. Qed.

(** Both sides are concatenations of the same pieces. *)
Ltac same_text :=
  repeat rewrite append_assoc; simpl; repeat rewrite append_assoc; reflexivity.

Lemma has_char_app (c : ascii) (s t : string) :
  Text.has_char c (s ++ t) = Text.has_char c s || Text.has_char c t.
Proof.
  induction s as [| a s IH]; simpl; [reflexivity |].
  now rewrite IH, orb_assoc.
Qed.

Section DateFacts.

Lemma before_first_app (c : ascii) (s t : string) :
  Text.has_char c s = false ->
  Text.before_first c (s ++ String c t) = s.
Proof.
  induction s as [| a s IH]; simpl.
  - now rewrite Ascii.eqb_refl.
  - destruct (Ascii.eqb a c); simpl; [discriminate |].
    intros H. now rewrite IH.
Qed.

Lemma before_first_none (c : ascii) (s : string) :
  Text.has_char c s = false -> Text.before_first c s = s.
Proof.
  induction s as [| a s IH]; simpl; [reflexivity |].
  destruct (Ascii.eqb a c); simpl; [discriminate |].
  intros H. now rewrite IH.
Qed.

(** The time of day does not reach the [pubDate]. *)
Lemma pub_date_ignores_time (day time : string) :
  Text.has_char " " day = false ->
  Utils.pub_date (VStr (day ++ " " ++ time)) = Utils.pub_date (VStr day).
Proof.
  intros H. unfold Utils.pub_date, Utils.date_part.
  change (day ++ " " ++ time) with (day ++ String " " time).
  now rewrite before_first_app, before_first_none.
Qed.

Lemma pub_date_ok (s : string) (d : Datetime.date) :
  Datetime.strptime (Text.before_first " " s) = Ok d ->
  Utils.pub_date (VStr s) = Ok (Datetime.format_datetime d).
Proof. intros H. unfold Utils.pub_date, Utils.date_part. simpl. now rewrite H. Qed.

End DateFacts.

(** * Facts about dictionaries *)

Section DictFacts.

Context {K V : Type}.
Variable eqb : K -> K -> bool.
Hypothesis eqb_spec : forall x y : K, reflect (x = y) (eqb x y).

Lemma dict_eqb_refl (k : K) : eqb k k = true.
Proof. destruct (eqb_spec k k); congruence. Qed.

Lemma get_set_same (k : K) (v : V) (d : list (K * V)) :
  PyDict.get eqb k (PyDict.set eqb k v d) = Some v.
Proof.
  induction d as [| [k' v'] d IH]; simpl.
  - now rewrite dict_eqb_refl.
  - destruct (eqb k' k) eqn:E; simpl; rewrite E; [reflexivity | exact IH].
Qed.

Lemma get_set_other (k k' : K) (v : V) (d : list (K * V)) :
  k <> k' ->
  PyDict.get eqb k' (PyDict.set eqb k v d) = PyDict.get eqb k' d.
Proof.
  intros Hne. induction d as [| [k0 v0] d IH]; simpl.
  - destruct (eqb_spec k k'); [contradiction | reflexivity].
  - destruct (eqb_spec k0 k) as [-> | Hk0]; simpl.
    + destruct (eqb_spec k k'); [contradiction | reflexivity].
    + destruct (eqb k0 k'); [reflexivity | exact IH].
Qed.

Lemma get_some_in (k : K) (v : V) (d : list (K * V)) :
  PyDict.get eqb k d = Some v -> In (k, v) d.
Proof.
  induction d as [| [k' v'] d IH]; simpl; [discriminate |].
  destruct (eqb_spec k' k) as [-> | Hne].
  - intros [= ->]. now left.
  - intros H. right. exact (IH H).
Qed.

Lemma get_none_not_in (k : K) (d : list (K * V)) :
  PyDict.get eqb k d = None -> ~ In k (PyDict.keys d).
Proof.
  induction d as [| [k' v'] d IH]; simpl; [tauto |].
  destruct (eqb_spec k' k) as [-> | Hne]; [discriminate |].
  intros H [Heq | Hin]; [contradiction | exact (IH H Hin)].
Qed.

Lemma not_in_get_none (k : K) (d : list (K * V)) :
  ~ In k (PyDict.keys d) -> PyDict.get eqb k d = None.
Proof.
  induction d as [| [k' v'] d IH]; simpl; [reflexivity |].
  intros H. destruct (eqb_spec k' k) as [-> | Hne]; [tauto |].
  apply IH. tauto.
Qed.

Lemma in_get_nodup (k : K) (v : V) (d : list (K * V)) :
  NoDup (PyDict.keys d) -> In (k, v) d -> PyDict.get eqb k d = Some v.
Proof.
  induction d as [| [k' v'] d IH]; simpl; [tauto |].
  intros Hnd [[= -> ->] | Hin].
  - now rewrite dict_eqb_refl.
  - inversion Hnd as [| ? ? Hnotin Hnd']; subst.
    destruct (eqb_spec k' k) as [-> | Hne].
    + exfalso. apply Hnotin. change k with (fst (k, v)). now apply in_map.
    + now apply IH.
Qed.

(** Storing under a key that is there keeps the keys and their order. *)
Lemma keys_set_present (k : K) (v : V) (d : list (K * V)) :
  PyDict.mem eqb k d = true ->
  PyDict.keys (PyDict.set eqb k v d) = PyDict.keys d.
Proof.
  unfold PyDict.mem. induction d as [| [k' v'] d IH]; simpl; [discriminate |].
  destruct (eqb k' k) eqn:E; simpl; [reflexivity |].
  intros H. now rewrite IH.
Qed.

(** Storing under a new key puts it last. *)
Lemma keys_set_absent (k : K) (v : V) (d : list (K * V)) :
  PyDict.mem eqb k d = false ->
  PyDict.keys (PyDict.set eqb k v d) = (PyDict.keys d ++ [k])%list.
Proof.
  unfold PyDict.mem. induction d as [| [k' v'] d IH]; simpl; [reflexivity |].
  destruct (eqb k' k) eqn:E; simpl; [discriminate |].
  intros H. now rewrite IH.
Qed.

Lemma mem_true_in (k : K) (d : list (K * V)) :
  PyDict.mem eqb k d = true <-> In k (PyDict.keys d).
Proof.
  unfold PyDict.mem. split.
  - destruct (PyDict.get eqb k d) as [v |] eqn:E; [| discriminate].
    intros _. apply get_some_in in E.
    change k with (fst (k, v)). now apply in_map.
  - intros Hin. destruct (PyDict.get eqb k d) eqn:E; [reflexivity |].
    now apply get_none_not_in in E.
Qed.

(** No key is ever stored twice. *)
Lemma keys_set_nodup (k : K) (v : V) (d : list (K * V)) :
  NoDup (PyDict.keys d) -> NoDup (PyDict.keys (PyDict.set eqb k v d)).
Proof.
  intros Hnd. destruct (PyDict.mem eqb k d) eqn:E.
  - now rewrite keys_set_present.
  - rewrite keys_set_absent by exact E.
    apply NoDup_app; [exact Hnd | repeat constructor; simpl; tauto |].
    intros x Hx [<- | []].
    apply mem_true_in in Hx. congruence.
Qed.

(** With distinct keys, storing under a key that is there rewrites that one
    entry. *)
Lemma set_present_map (k : K) (v : V) (d : list (K * V)) :
  NoDup (PyDict.keys d) ->
  PyDict.mem eqb k d = true ->
  PyDict.set eqb k v d
  = map (fun kv => if eqb (fst kv) k then (fst kv, v) else kv) d.
Proof.
  unfold PyDict.mem. induction d as [| [k' v'] d IH]; simpl; [discriminate |].
  intros Hnd. inversion Hnd as [| ? ? Hnotin Hnd']; subst.
  destruct (eqb_spec k' k) as [-> | Hne]; simpl.
  - intros _. f_equal. symmetry.
    rewrite <- (map_id d) at 2. apply map_ext_in.
    intros [k0 v0] Hin. simpl.
    destruct (eqb_spec k0 k) as [-> | _]; [| reflexivity].
    exfalso. apply Hnotin. change k with (fst (k, v0)). now apply in_map.
  - intros H. f_equal. now apply IH.
Qed.

Lemma set_unchanged (k : K) (v : V) (d : list (K * V)) :
  PyDict.get eqb k d = Some v ->
  (forall k', eqb k' k = true -> k' = k) ->
  PyDict.set eqb k v d = d.
Proof.
  intros H _. induction d as [| [k' v'] d IH]; simpl in *; [discriminate |].
  destruct (eqb k' k) eqn:E.
  - now injection H as ->.
  - f_equal. now apply IH.
Qed.

End DictFacts.

Section SetTwice.

Context {K V : Type}.
Variable eqb : K -> K -> bool.
Hypothesis eqb_spec : forall x y : K, reflect (x = y) (eqb x y).

Lemma set_set (k : K) (v1 v2 : V) (d : list (K * V)) :
  PyDict.set eqb k v2 (PyDict.set eqb k v1 d) = PyDict.set eqb k v2 d.
Proof.
  induction d as [| [k' v'] d IH]; simpl.
  - now rewrite (dict_eqb_refl eqb eqb_spec).
  - destruct (eqb k' k) eqn:E; simpl; rewrite E; [reflexivity | now rewrite IH].
Qed.

End SetTwice.

(** * Facts about rows *)

Section RowFacts.

Lemma row_get_set_same (k : string) (v : value) (r : Row) :
  row_get k (row_set k v r) = Some v.
Proof. apply (get_set_same String.eqb String.eqb_spec). Qed.

Lemma row_get_set_other (k k' : string) (v : value) (r : Row) :
  k <> k' -> row_get k' (row_set k v r) = row_get k' r.
Proof. apply (get_set_other String.eqb String.eqb_spec). Qed.

Lemma row_set_unchanged (k : string) (v : value) (r : Row) :
  row_get k r = Some v -> row_set k v r = r.
Proof.
  intros H. apply (set_unchanged String.eqb); [exact H |].
  intros k' E. now apply String.eqb_eq.
Qed.

Lemma with_context_get (links s : string) (r : Row) :
  row_get "context" r = Some (VStr s) ->
  row_get "context" (with_context links r) = Some (VStr (s ++ links)).
Proof.
  intros H. unfold with_context. rewrite H. apply row_get_set_same.
Qed.

Lemma with_context_other (links k : string) (r : Row) :
  k <> "context" -> row_get k (with_context links r) = row_get k r.
Proof.
  intros H. unfold with_context.
  destruct (row_get "context" r) as [[| z | s] |]; try reflexivity.
  apply row_get_set_other. congruence.
Qed.

Lemma with_context_nil (r : Row) : with_context "" r = r.
Proof.
  unfold with_context.
  destruct (row_get "context" r) as [[| z | s] |] eqn:E; try reflexivity.
  rewrite append_nil_r. now apply row_set_unchanged.
Qed.

Lemma with_context_twice (a b : string) (r : Row) :
  with_context b (with_context a r) = with_context (a ++ b) r.
Proof.
  unfold with_context at 2 3.
  destruct (row_get "context" r) as [[| z | s] |] eqn:E;
    try (unfold with_context; rewrite E; reflexivity).
  unfold with_context. rewrite row_get_set_same.
  unfold row_set. rewrite (set_set String.eqb String.eqb_spec).
  now rewrite append_assoc.
Qed.

Lemma with_context_keeps_text (links : string) (r : Row) :
  has_text_context r -> has_text_context (with_context links r).
Proof.
  intros [s H]. exists (s ++ links). now apply with_context_get.
Qed.

End RowFacts.

(** * Facts about the relationship links *)

Section RelationsMap.

Lemma group_step_slugs (m : list (value * list value)) (rel : value * value)
  (slug : value) :
  slugs_of slug (group_step m rel)
  = (slugs_of slug m ++ related slug [rel])%list.
Proof.
  unfold group_step, slugs_of, related, PyDict.mem. simpl.
  destruct (value_eqb_spec (fst rel) slug) as [<- | Hne]; simpl.
  - destruct (PyDict.get value_eqb (fst rel) m) as [l |] eqn:E.
    + rewrite E. now rewrite (get_set_same value_eqb value_eqb_spec).
    + rewrite (get_set_same value_eqb value_eqb_spec).
      now rewrite (get_set_same value_eqb value_eqb_spec).
  - rewrite app_nil_r.
    destruct (PyDict.get value_eqb (fst rel) m) as [l |] eqn:E.
    + rewrite E. now rewrite (get_set_other value_eqb value_eqb_spec).
    + rewrite (get_set_same value_eqb value_eqb_spec).
      rewrite (get_set_other value_eqb value_eqb_spec) by exact Hne.
      now rewrite (get_set_other value_eqb value_eqb_spec).
Qed.

Lemma group_step_nodup (m : list (value * list value)) (rel : value * value) :
  NoDup (PyDict.keys m) -> NoDup (PyDict.keys (group_step m rel)).
Proof.
  intros H. unfold group_step.
  set (m' := if PyDict.mem value_eqb (fst rel) m then m
             else PyDict.set value_eqb (fst rel) [] m).
  assert (H' : NoDup (PyDict.keys m')).
  { unfold m'. destruct (PyDict.mem value_eqb (fst rel) m); [exact H |].
    now apply (keys_set_nodup value_eqb value_eqb_spec). }
  destruct (PyDict.get value_eqb (fst rel) m'); [| exact H'].
  now apply (keys_set_nodup value_eqb value_eqb_spec).
Qed.

Lemma related_app (slug : value) (xs ys : list (value * value)) :
  related slug (xs ++ ys) = (related slug xs ++ related slug ys)%list.
Proof. unfold related. now rewrite filter_app, map_app. Qed.

Lemma fold_group_slugs (rels : list (value * value))
  (m : list (value * list value)) (slug : value) :
  slugs_of slug (fold_left group_step rels m)
  = (slugs_of slug m ++ related slug rels)%list.
Proof.
  revert m. induction rels as [| rel rels IH]; intros m; simpl.
  - unfold related. simpl. now rewrite app_nil_r.
  - rewrite IH, group_step_slugs.
    change (rel :: rels) with ([rel] ++ rels)%list.
    now rewrite related_app, app_assoc.
Qed.

Lemma fold_group_nodup (rels : list (value * value))
  (m : list (value * list value)) :
  NoDup (PyDict.keys m) -> NoDup (PyDict.keys (fold_left group_step rels m)).
Proof.
  revert m. induction rels as [| rel rels IH]; intros m H; simpl; [exact H |].
  apply IH. now apply group_step_nodup.
Qed.

(** The grouping loop: under each source slug the related slugs, in the
    order of the join result, and no slug twice among the keys. *)
Lemma relations_map_slugs (rels : list (value * value)) (slug : value) :
  slugs_of slug (Utils.relations_map rels) = related slug rels.
Proof. apply (fold_group_slugs rels [] slug). Qed.

Lemma relations_map_nodup (rels : list (value * value)) :
  NoDup (PyDict.keys (Utils.relations_map rels)).
Proof. apply (fold_group_nodup rels []). constructor. Qed.

End RelationsMap.

Section AddLinks.

Variable link : string -> value -> string.
Variable other : string.

Lemma append_context_map (slug : value) (links : string) (vs : Values) :
  NoDup (PyDict.keys vs) ->
  PyDict.mem value_eqb slug vs = true ->
  all_text_context vs ->
  Utils.append_context slug links vs
  = Ok (map (fun e => if value_eqb (fst e) slug
                      then (fst e, with_context links (snd e)) else e) vs).
Proof.
  intros Hnd Hmem Htext. unfold Utils.append_context, values_get.
  pose proof Hmem as Hmem'. unfold PyDict.mem in Hmem'.
  destruct (PyDict.get value_eqb slug vs) as [row |] eqn:Hget; [| discriminate].
  pose proof (get_some_in value_eqb value_eqb_spec _ _ _ Hget) as Hin.
  destruct (Htext _ Hin) as [s Hs]. simpl in Hs.
  unfold row_item. rewrite Hs. simpl. f_equal.
  unfold values_set.
  rewrite (set_present_map value_eqb value_eqb_spec) by assumption.
  apply map_ext_in. intros [k r] Hk. simpl.
  destruct (value_eqb_spec k slug) as [-> | Hne]; [| reflexivity].
  f_equal.
  assert (r = row) as ->.
  { pose proof (in_get_nodup value_eqb value_eqb_spec _ _ _ Hnd Hk) as H.
    congruence. }
  unfold with_context. now rewrite Hs.
Qed.

Let step (vs : Values) (entry : value * list value) : result Values :=
  let '(row_slug, rel_slugs) := entry in
  if PyDict.mem value_eqb row_slug vs then
    Utils.append_context row_slug (Text.join (map (link other) rel_slugs)) vs
  else Ok vs.

Lemma fold_links_map (entries : list (value * list value)) (vs : Values) :
  NoDup (PyDict.keys entries) ->
  NoDup (PyDict.keys vs) ->
  all_text_context vs ->
  foldM step entries vs
  = Ok (map (fun e => (fst e,
                       with_context (links_to link other (slugs_of (fst e) entries))
                                    (snd e)))
            vs).
Proof.
  revert vs. induction entries as [| [k l] entries IH]; intros vs Hnde Hnd Htext.
  - simpl. f_equal. rewrite <- (map_id vs) at 1. apply map_ext.
    intros [s r]. unfold slugs_of, links_to. simpl. now rewrite with_context_nil.
  - inversion Hnde as [| ? ? Hnotin Hnde']; subst.
    assert (Hk : slugs_of k entries = []).
    { unfold slugs_of.
      now rewrite (not_in_get_none value_eqb value_eqb_spec k entries). }
    cbn [foldM]. unfold step at 1.
    destruct (PyDict.mem value_eqb k vs) eqn:Hmem.
    + rewrite append_context_map by assumption. cbn [bind].
      rewrite IH.
      * f_equal. rewrite map_map. apply map_ext. intros [s r].
        unfold slugs_of. cbn [PyDict.get fst snd].
        destruct (value_eqb_spec s k) as [-> | Hne].
        -- rewrite (dict_eqb_refl value_eqb value_eqb_spec). cbn [fst snd].
           fold (slugs_of k entries). rewrite Hk.
           unfold links_to at 1. cbn [map Text.join].
           now rewrite with_context_nil.
        -- destruct (value_eqb_spec k s) as [-> | _]; [congruence |].
           reflexivity.
      * exact Hnde'.
      * unfold PyDict.keys in *. rewrite map_map.
        erewrite map_ext; [exact Hnd |].
        intros [s r]. simpl. now destruct (value_eqb s k).
      * intros e He. apply in_map_iff in He as ([s r] & <- & Hin).
        cbn [fst snd]. pose proof (Htext _ Hin) as Hr. cbn [snd] in Hr.
        destruct (value_eqb s k); cbn [snd]; [| exact Hr].
        now apply with_context_keeps_text.
    + cbn [bind]. rewrite IH by assumption.
      f_equal. apply map_ext_in. intros [s r] Hin.
      unfold slugs_of. cbn [PyDict.get fst snd].
      destruct (value_eqb_spec k s) as [-> | _]; [| reflexivity].
      exfalso.
      assert (PyDict.mem value_eqb s vs = true); [| congruence].
      apply (mem_true_in value_eqb value_eqb_spec).
      change s with (fst (s, r)). now apply in_map.
Qed.

(** [add_links]: every row gets, at the end of its context, the links to
    the slugs the join relates to it, in the order of the join result. *)
Lemma add_links_map (rels : list (value * value)) (vs : Values) :
  NoDup (PyDict.keys vs) ->
  all_text_context vs ->
  Utils.add_links link other rels vs
  = Ok (map (fun e => (fst e,
                       with_context (links_to link other (related (fst e) rels))
                                    (snd e)))
            vs).
Proof.
  intros Hnd Htext. unfold Utils.add_links.
  change (foldM step (Utils.relations_map rels) vs = Ok
    (map (fun e => (fst e,
                    with_context (links_to link other (related (fst e) rels))
                                 (snd e))) vs)).
  rewrite fold_links_map; [| apply relations_map_nodup | assumption | assumption].
  f_equal. apply map_ext. intros e. now rewrite relations_map_slugs.
Qed.

End AddLinks.

(** * Facts about the template values *)

Section KeyedUpdate.

Lemma values_get_app_notin (k : value) (pre post : Values) :
  ~ In k (PyDict.keys pre) ->
  values_get k (pre ++ post)%list = values_get k post.
Proof.
  unfold values_get. induction pre as [| [k' r'] pre IH]; simpl; [reflexivity |].
  intros H. destruct (value_eqb_spec k' k) as [-> | Hne]; [tauto |].
  apply IH. tauto.
Qed.

Lemma values_set_app_notin (k : value) (r : Row) (pre post : Values) :
  ~ In k (PyDict.keys pre) ->
  values_set k r (pre ++ post)%list = (pre ++ values_set k r post)%list.
Proof.
  unfold values_set. induction pre as [| [k' r'] pre IH]; simpl; [reflexivity |].
  intros H. destruct (value_eqb_spec k' k) as [-> | Hne]; [tauto |].
  f_equal. apply IH. tauto.
Qed.

Variable upd : Row -> result Row.

Let step (vs : Values) (slug : value) : result Values :=
  match values_get slug vs with
  | None => Raise (KeyError (py_str slug))
  | Some row => bind (upd row) (fun row' => Ok (values_set slug row' vs))
  end.

(** A loop over the keys of a dictionary that rewrites the value under each
    key rewrites every entry once, in order, and stops at the first
    exception. *)
Lemma fold_keys_update (pre post : Values) :
  NoDup (PyDict.keys (pre ++ post)%list) ->
  foldM step (PyDict.keys post) (pre ++ post)%list
  = bind (mapM (on_entry upd) post) (fun post' => Ok (pre ++ post')%list).
Proof.
  revert pre. induction post as [| [k r] post IH]; intros pre Hnd; simpl.
  - reflexivity.
  - assert (Hk : ~ In k (PyDict.keys pre)).
    { unfold PyDict.keys in Hnd. rewrite map_app in Hnd.
      apply NoDup_remove_2 in Hnd. intros H. apply Hnd.
      apply in_or_app. now left. }
    unfold step at 1. rewrite values_get_app_notin by exact Hk.
    unfold values_get. simpl. rewrite value_eqb_refl.
    unfold on_entry at 1. simpl.
    destruct (upd r) as [r' | e | ]; simpl; try reflexivity.
    rewrite values_set_app_notin by exact Hk.
    unfold values_set. simpl. rewrite value_eqb_refl.
    change (pre ++ (k, r') :: post)%list with (pre ++ [(k, r')] ++ post)%list.
    rewrite app_assoc. rewrite IH.
    + destruct (mapM (on_entry upd) post) as [post' | e | ]; simpl; try reflexivity.
      now rewrite <- app_assoc.
    + rewrite <- app_assoc. simpl.
      unfold PyDict.keys in *. rewrite map_app in *. simpl in *. exact Hnd.
Qed.

End KeyedUpdate.

Section ValuesOfRows.

Let vstep (vs : Values) (r : Row) : result Values :=
  match row_get "slug" r with
  | None => Raise IndexError
  | Some s => Ok (values_set s (row_set "context" (VStr "") r) vs)
  end.

Lemma values_of_rows_fold (rows : list Row) (vs0 vs : Values) :
  foldM vstep rows vs0 = Ok vs ->
  NoDup (PyDict.keys vs0) ->
  NoDup (PyDict.keys vs)
  /\ (forall slug,
        values_get slug vs
        = match last_with_slug slug rows with
          | Some r => Some (initial_values r)
          | None => values_get slug vs0
          end).
Proof.
  revert vs0. induction rows as [| r rows IH]; intros vs0; simpl.
  - intros [= <-] H. split; [exact H | reflexivity].
  - unfold vstep at 1.
    destruct (row_get "slug" r) as [s |] eqn:Hs; simpl; [| discriminate].
    intros Hfold Hnd.
    destruct (IH _ Hfold) as [Hnd' Hget].
    { now apply (keys_set_nodup value_eqb value_eqb_spec). }
    split; [exact Hnd' |].
    intros slug. rewrite Hget.
    destruct (last_with_slug slug rows); [reflexivity |].
    unfold values_get, values_set.
    destruct (value_eqb_spec s slug) as [-> | Hne].
    + now rewrite (get_set_same value_eqb value_eqb_spec).
    + now rewrite (get_set_other value_eqb value_eqb_spec).
Qed.

(** [values_of_rows]: no slug is a key twice, and under each slug are the
    columns of the row stored last under it, with an empty context. *)
Lemma values_of_rows_spec (rows : list Row) (vs : Values) :
  Utils.values_of_rows rows = Ok vs ->
  NoDup (PyDict.keys vs)
  /\ (forall slug,
        values_get slug vs = option_map initial_values (last_with_slug slug rows)).
Proof.
  intros H. destruct (values_of_rows_fold rows [] vs H) as [Hnd Hget].
  { constructor. }
  split; [exact Hnd |].
  intros slug. rewrite Hget. now destruct (last_with_slug slug rows).
Qed.

Lemma values_of_rows_unique_fold (rows : list Row) (vs0 : Values) :
  (forall r, In r rows -> row_get "slug" r <> None) ->
  NoDup (PyDict.keys vs0 ++ map (Store.cell "slug") rows)%list ->
  foldM vstep rows vs0
  = Ok (vs0 ++ map (fun r => (Store.cell "slug" r, initial_values r)) rows)%list.
Proof.
  revert vs0. induction rows as [| r rows IH]; intros vs0 Hslug Hnd.
  - simpl. now rewrite app_nil_r.
  - cbn [foldM map]. unfold vstep at 1.
    destruct (row_get "slug" r) as [s |] eqn:Hs.
    2:{ exfalso. apply (Hslug r); [now left | exact Hs]. }
    assert (Hcell : Store.cell "slug" r = s) by (unfold Store.cell; now rewrite Hs).
    rewrite Hcell. cbn [map] in Hnd. rewrite Hcell in Hnd.
    assert (Hmem : PyDict.mem value_eqb s vs0 = false).
    { destruct (PyDict.mem value_eqb s vs0) eqn:E; [| reflexivity].
      apply (mem_true_in value_eqb value_eqb_spec) in E.
      apply NoDup_remove_2 in Hnd. exfalso. apply Hnd.
      apply in_or_app. now left. }
    assert (Hset : forall d : Values,
               PyDict.mem value_eqb s d = false ->
               PyDict.set value_eqb s (row_set "context" (VStr "") r) d
               = (d ++ [(s, row_set "context" (VStr "") r)])%list).
    { unfold PyDict.mem. induction d as [| [k v] d IHd]; simpl; [reflexivity |].
      destruct (value_eqb k s); [discriminate |].
      intros H. now rewrite IHd. }
    cbn [bind]. unfold values_set. rewrite Hset by exact Hmem.
    rewrite IH.
    + now rewrite <- app_assoc.
    + intros r' Hr'. apply Hslug. now right.
    + unfold PyDict.keys in *. rewrite map_app. cbn [map fst].
      rewrite <- app_assoc. exact Hnd.
Qed.

(** With distinct slugs the values follow the rows, one entry per row. *)
Lemma values_of_rows_unique (rows : list Row) :
  (forall r, In r rows -> row_get "slug" r <> None) ->
  NoDup (map (Store.cell "slug") rows) ->
  Utils.values_of_rows rows
  = Ok (map (fun r => (Store.cell "slug" r, initial_values r)) rows).
Proof.
  intros Hslug Hnd. apply (values_of_rows_unique_fold rows [] Hslug Hnd).
Qed.

End ValuesOfRows.

Section Relationships.

Variable link : string -> value -> string.
Variable db : Store.Database.
Variable table : string.

Let resolve (vs : Values) (rel : Utils.relationship) : result Values :=
  bind (join_of db table rel)
       (fun rels => Utils.add_links link (Utils.other_table rel) rels vs).

(** The loop over the declared relationships: the joins are made in
    declaration order, and the links of each are added after those of the
    declarations before it. *)
Lemma fold_resolve (declarations : list Utils.relationship) (vs : Values) :
  NoDup (PyDict.keys vs) ->
  all_text_context vs ->
  foldM resolve declarations vs
  = bind (mapM (join_of db table) declarations)
      (fun joins =>
         Ok (map (fun e => (fst e,
                            with_context
                              (context_links link declarations joins (fst e))
                              (snd e)))
                 vs)).
Proof.
  revert vs. induction declarations as [| rel decls IH]; intros vs Hnd Htext.
  - simpl. f_equal. rewrite <- (map_id vs) at 1. apply map_ext.
    intros [s r]. simpl. now rewrite with_context_nil.
  - cbn [foldM mapM]. unfold resolve at 1.
    destruct (join_of db table rel) as [rels | e | ]; cbn [bind]; try reflexivity.
    rewrite add_links_map by assumption. cbn [bind].
    rewrite IH.
    + destruct (mapM (join_of db table) decls) as [joins | e | ]; cbn [bind];
        try reflexivity.
      f_equal. rewrite map_map. apply map_ext. intros [s r]. cbn [fst snd].
      cbn [context_links]. now rewrite with_context_twice.
    + unfold PyDict.keys in *. rewrite map_map. exact Hnd.
    + intros e He. apply in_map_iff in He as ([s r] & <- & Hin).
      cbn [fst snd]. apply with_context_keeps_text. exact (Htext _ Hin).
Qed.

End Relationships.

Section PrevBase.

Lemma prev_add_dateage_eq (vs : Values) (slug : value) :
  Prev.add_dateage vs slug
  = match values_get slug vs with
    | None => Raise (KeyError (py_str slug))
    | Some row => bind (prev_dated row) (fun row' => Ok (values_set slug row' vs))
    end.
Proof.
  unfold Prev.add_dateage, prev_dated.
  destruct (values_get slug vs) as [row |] eqn:Hget; [| reflexivity].
  assert (Hsame : values_set slug row vs = vs).
  { apply (set_unchanged value_eqb); [exact Hget |].
    intros k' E. now destruct (value_eqb_spec k' slug). }
  destruct (Utils.get_or_none "html" row) as [| z | s];
    destruct (Utils.get_or_none "created_time" row) as [| z' | s'];
    cbn [bind]; rewrite ?Hsame; reflexivity.
Qed.

(** The first half of [Prev.gen_tmpl_values], entry by entry. *)
Lemma prev_base_values_eq (db : Store.Database) (table : string) :
  Prev.base_values db table
  = bind (Store.select_all db table) (fun rows =>
    bind (Utils.values_of_rows rows) (fun vs =>
    mapM (on_entry prev_dated) vs)).
Proof.
  unfold Prev.base_values.
  destruct (Store.select_all db table) as [rows | e | ]; cbn [bind]; try reflexivity.
  destruct (Utils.values_of_rows rows) as [vs | e | ] eqn:Hvs; cbn [bind];
    try reflexivity.
  destruct (values_of_rows_spec rows vs Hvs) as [Hnd _].
  rewrite (foldM_ext _ _ _ _ prev_add_dateage_eq).
  pose proof (fold_keys_update prev_dated [] vs Hnd) as H.
  cbn [app] in H. rewrite H.
  now destruct (mapM (on_entry prev_dated) vs).
Qed.

End PrevBase.

Section EntryFacts.

Lemma in_values_set (e : value * Row) (k : value) (r : Row) (vs : Values) :
  In e (values_set k r vs) -> In e vs \/ snd e = r.
Proof.
  unfold values_set. induction vs as [| [k' r'] vs IH]; simpl.
  - intros [<- | []]. now right.
  - destruct (value_eqb k' k); simpl.
    + intros [<- | H]; [now right | left; now right].
    + intros [<- | H]; [left; now left |].
      destruct (IH H) as [H' | H']; [left; now right | now right].
Qed.

Lemma values_of_rows_empty_context (rows : list Row) (vs : Values) :
  Utils.values_of_rows rows = Ok vs -> empty_context vs.
Proof.
  unfold Utils.values_of_rows.
  assert (H : forall vs0, empty_context vs0 ->
            foldM (fun vs r =>
                     match row_get "slug" r with
                     | None => Raise IndexError
                     | Some s => Ok (values_set s (row_set "context" (VStr "") r) vs)
                     end) rows vs0 = Ok vs -> empty_context vs).
  { induction rows as [| r rows IH]; intros vs0 H0; simpl.
    - now intros [= <-].
    - destruct (row_get "slug" r) as [s |]; simpl; [| discriminate].
      apply IH. intros e He. apply in_values_set in He as [He | ->].
      + now apply H0.
      + apply row_get_set_same. }
  apply H. intros e [].
Qed.

Lemma mapM_on_entry (upd : Row -> result Row) (vs vs' : Values) :
  mapM (on_entry upd) vs = Ok vs' ->
  Forall2 (fun e e' => fst e' = fst e /\ upd (snd e) = Ok (snd e')) vs vs'.
Proof.
  revert vs'. induction vs as [| [k r] vs IH]; intros vs'; simpl.
  - intros [= <-]. constructor.
  - unfold on_entry at 1. simpl.
    destruct (upd r) as [r' | e | ] eqn:Hr; simpl; try discriminate.
    destruct (mapM (on_entry upd) vs) as [rest | e | ]; simpl; try discriminate.
    intros [= <-]. constructor; [now split | now apply IH].
Qed.

Lemma forall2_keys (P : Row -> Row -> Prop) (vs vs' : Values) :
  Forall2 (fun e e' => fst e' = fst e /\ P (snd e) (snd e')) vs vs' ->
  PyDict.keys vs' = PyDict.keys vs.
Proof.
  induction 1 as [| e e' vs vs' [Hk _] _ IH]; simpl; [reflexivity |].
  now rewrite Hk, IH.
Qed.

Lemma forall2_get (P : Row -> Row -> Prop) (vs vs' : Values) (slug : value) :
  Forall2 (fun e e' => fst e' = fst e /\ P (snd e) (snd e')) vs vs' ->
  match values_get slug vs, values_get slug vs' with
  | Some r, Some r' => P r r'
  | None, None => True
  | _, _ => False
  end.
Proof.
  unfold values_get.
  induction 1 as [| [k r] [k' r'] vs vs' [Hk HP] _ IH]; simpl; [exact I |].
  simpl in Hk, HP. subst k'. destruct (value_eqb k slug); [exact HP | exact IH].
Qed.

Lemma values_get_map (f : value -> Row -> Row) (vs : Values) (slug : value) :
  values_get slug (map (fun e => (fst e, f (fst e) (snd e))) vs)
  = option_map (f slug) (values_get slug vs).
Proof.
  unfold values_get. induction vs as [| [k r] vs IH]; simpl; [reflexivity |].
  destruct (value_eqb_spec k slug) as [-> | _]; [reflexivity | exact IH].
Qed.

Lemma prev_dated_frame (row row' : Row) :
  prev_dated row = Ok row' ->
  (forall k, k <> "html" -> row_get k row' = row_get k row)
  /\ row_get "html" row'
     = match Utils.get_or_none "html" row, Utils.get_or_none "created_time" row with
       | VStr s, (VInt _ | VStr _) as created_time =>
           Some (VStr (s ++ Prev.dateage_js created_time))
       | _, _ => row_get "html" row
       end.
Proof.
  unfold prev_dated.
  destruct (Utils.get_or_none "html" row) as [| z | s];
    destruct (Utils.get_or_none "created_time" row) as [| z' | s'];
    intros [= <-]; (split; [intros k Hk; try reflexivity;
                            now apply row_get_set_other; congruence
                           | try reflexivity; apply row_get_set_same]).
Qed.

End EntryFacts.

Section PrevValues.

Variable db : Store.Database.
Variable table : string.

Lemma empty_context_text (vs : Values) : empty_context vs -> all_text_context vs.
Proof. intros H e He. exists "". now apply H. Qed.

(** What holds of the values [prev.py] has before the relationships. *)
Lemma prev_base_values_spec (vs0 : Values) :
  Prev.base_values db table = Ok vs0 ->
  exists rows,
    Store.select_all db table = Ok rows
    /\ NoDup (PyDict.keys vs0)
    /\ empty_context vs0
    /\ forall slug row0,
         values_get slug vs0 = Some row0 ->
         exists r, last_with_slug slug rows = Some r
                   /\ prev_dated (initial_values r) = Ok row0.
Proof.
  rewrite prev_base_values_eq.
  destruct (Store.select_all db table) as [rows | e | ]; cbn [bind]; try discriminate.
  destruct (Utils.values_of_rows rows) as [vs | e | ] eqn:Hvs; cbn [bind];
    try discriminate.
  intros Hmap. exists rows. split; [reflexivity |].
  destruct (values_of_rows_spec rows vs Hvs) as [Hnd Hget].
  pose proof (values_of_rows_empty_context rows vs Hvs) as Hctx.
  pose proof (mapM_on_entry prev_dated vs vs0 Hmap) as Hall.
  split; [| split].
  - now rewrite (forall2_keys (fun r r' => prev_dated r = Ok r') vs vs0 Hall).
  - clear Hget Hnd Hmap Hvs. induction Hall as [| e e' vs vs' [Hk Hd] _ IH].
    + intros e [].
    + intros x [<- | Hx].
      * destruct (prev_dated_frame _ _ Hd) as [Hframe _].
        rewrite Hframe by congruence. apply Hctx. now left.
      * apply IH; [| exact Hx]. intros y Hy. apply Hctx. now right.
  - intros slug row0 Hrow0.
    pose proof (forall2_get (fun r r' => prev_dated r = Ok r') vs vs0 slug Hall) as H.
    rewrite Hrow0, Hget in H.
    destruct (last_with_slug slug rows) as [r |]; simpl in H; [| contradiction].
    now exists r.
Qed.

Lemma with_empty_context (links : string) (row : Row) :
  row_get "context" row = Some (VStr "") ->
  with_context links row = row_set "context" (VStr links) row.
Proof. intros H. unfold with_context. now rewrite H. Qed.

(** [Prev.gen_tmpl_values] in two steps: the base values, then, for a table
    with declared relationships, the joins and the contexts they give. *)
Lemma prev_gen_tmpl_values_eq (config : Utils.Relationships) (vs0 : Values) :
  Prev.base_values db table = Ok vs0 ->
  Prev.gen_tmpl_values_with config db table
  = match PyDict.get String.eqb table config with
    | None => Ok vs0
    | Some declarations =>
        bind (mapM (join_of db table) declarations)
          (fun joins =>
             Ok (map (fun e =>
                        (fst e,
                         row_set "context"
                           (VStr (context_links Prev.link declarations joins (fst e)))
                           (snd e)))
                     vs0))
    end.
Proof.
  intros Hbase. unfold Prev.gen_tmpl_values_with. rewrite Hbase. cbn [bind].
  destruct (PyDict.get String.eqb table config) as [decls |]; [| reflexivity].
  destruct (prev_base_values_spec vs0 Hbase) as (rows & _ & Hnd & Hctx & _).
  change (foldM (Prev.resolve db table) decls vs0)
    with (foldM (fun vs rel =>
                   bind (join_of db table rel)
                     (fun rels => Utils.add_links Prev.link
                                    (Utils.other_table rel) rels vs))
                decls vs0).
  rewrite (fold_resolve Prev.link db table decls vs0 Hnd (empty_context_text _ Hctx)).
  destruct (mapM (join_of db table) decls) as [joins | e | ]; cbn [bind];
    try reflexivity.
  f_equal. apply map_ext_in. intros e He.
  now rewrite with_empty_context by (now apply Hctx).
Qed.

End PrevValues.

Section MainValues.

Variable db : Store.Database.
Variable table : string.
Variable cmps : Main.Assets.

Lemma main_add_dateage_eq (dateage_cmp : string) (vs : Values) (slug : value) :
  Main.add_dateage dateage_cmp vs slug
  = match values_get slug vs with
    | None => Raise (KeyError (py_str slug))
    | Some row =>
        bind (main_dated dateage_cmp row) (fun row' => Ok (values_set slug row' vs))
    end.
Proof.
  unfold Main.add_dateage, main_dated.
  destruct (values_get slug vs) as [row |] eqn:Hget; [| reflexivity].
  assert (Hsame : values_set slug row vs = vs).
  { apply (set_unchanged value_eqb); [exact Hget |].
    intros k' E. now destruct (value_eqb_spec k' slug). }
  destruct (Utils.get_or_none "html" row) as [| z | s];
    destruct (Utils.get_or_none "created_time" row) as [| z' | s'];
    cbn [bind]; rewrite ?Hsame; try reflexivity.
  - destruct (Format.format _ dateage_cmp) as [d | e | ]; cbn [bind]; try reflexivity.
    now destruct (Format.format _ s).
  - destruct (Format.format _ dateage_cmp) as [d | e | ]; cbn [bind]; try reflexivity.
    now destruct (Format.format _ s).
Qed.

(** The first half of [Main.gen_tmpl_values], entry by entry. *)
Lemma main_base_values_eq :
  Main.base_values db table cmps
  = bind (Store.select_all db table) (fun rows =>
    bind (Utils.values_of_rows rows) (fun vs =>
    bind (Main.component cmps "dateage") (fun dateage_cmp =>
    mapM (on_entry (main_dated dateage_cmp)) vs))).
Proof.
  unfold Main.base_values.
  destruct (Store.select_all db table) as [rows | e | ]; cbn [bind]; try reflexivity.
  destruct (Utils.values_of_rows rows) as [vs | e | ] eqn:Hvs; cbn [bind];
    try reflexivity.
  destruct (Main.component cmps "dateage") as [cmp | e | ]; cbn [bind];
    try reflexivity.
  destruct (values_of_rows_spec rows vs Hvs) as [Hnd _].
  rewrite (foldM_ext _ _ _ _ (main_add_dateage_eq cmp)).
  pose proof (fold_keys_update (main_dated cmp) [] vs Hnd) as H.
  cbn [app] in H. rewrite H.
  now destruct (mapM (on_entry (main_dated cmp)) vs).
Qed.

Lemma main_dated_frame (cmp : string) (row row' : Row) :
  main_dated cmp row = Ok row' ->
  (forall k, k <> "html" -> row_get k row' = row_get k row)
  /\ match Utils.get_or_none "html" row, Utils.get_or_none "created_time" row with
     | VStr s, (VInt _ | VStr _) as created_time =>
         exists dateage formatted,
           Format.format [("created_time", created_time);
                          ("AUTHOR_BIRTHDAY", VStr "2003-12-10T13:30:00+01:00")]
                         cmp = Ok dateage
           /\ Format.format [("dateage", VStr dateage)] s = Ok formatted
           /\ row_get "html" row' = Some (VStr formatted)
     | _, _ => row_get "html" row' = row_get "html" row
     end.
Proof.
  unfold main_dated.
  destruct (Utils.get_or_none "html" row) as [| z | s];
    destruct (Utils.get_or_none "created_time" row) as [| z' | s'];
    try (intros [= <-]; now split); try discriminate.
  - destruct (Format.format _ cmp) as [d | e | ] eqn:Hd; cbn [bind]; try discriminate.
    destruct (Format.format _ s) as [f | e | ] eqn:Hf; cbn [bind]; try discriminate.
    intros [= <-]. split.
    + intros k Hk. apply row_get_set_other. congruence.
    + exists d, f. split; [reflexivity |]. split; [exact Hf |].
      apply row_get_set_same.
  - destruct (Format.format _ cmp) as [d | e | ] eqn:Hd; cbn [bind]; try discriminate.
    destruct (Format.format _ s) as [f | e | ] eqn:Hf; cbn [bind]; try discriminate.
    intros [= <-]. split.
    + intros k Hk. apply row_get_set_other. congruence.
    + exists d, f. split; [reflexivity |]. split; [exact Hf |].
      apply row_get_set_same.
Qed.

(** What holds of the values [main.py] has before the relationships. *)
Lemma main_base_values_spec (vs0 : Values) :
  Main.base_values db table cmps = Ok vs0 ->
  exists rows dateage_cmp,
    Store.select_all db table = Ok rows
    /\ Main.component cmps "dateage" = Ok dateage_cmp
    /\ NoDup (PyDict.keys vs0)
    /\ empty_context vs0
    /\ forall slug row0,
         values_get slug vs0 = Some row0 ->
         exists r, last_with_slug slug rows = Some r
                   /\ main_dated dateage_cmp (initial_values r) = Ok row0.
Proof.
  rewrite main_base_values_eq.
  destruct (Store.select_all db table) as [rows | e | ]; cbn [bind]; try discriminate.
  destruct (Utils.values_of_rows rows) as [vs | e | ] eqn:Hvs; cbn [bind];
    try discriminate.
  destruct (Main.component cmps "dateage") as [cmp | e | ]; cbn [bind];
    try discriminate.
  intros Hmap. exists rows, cmp. split; [reflexivity |]. split; [reflexivity |].
  destruct (values_of_rows_spec rows vs Hvs) as [Hnd Hget].
  pose proof (values_of_rows_empty_context rows vs Hvs) as Hctx.
  pose proof (mapM_on_entry (main_dated cmp) vs vs0 Hmap) as Hall.
  split; [| split].
  - now rewrite (forall2_keys (fun r r' => main_dated cmp r = Ok r') vs vs0 Hall).
  - clear Hget Hnd Hmap Hvs. induction Hall as [| e e' vs vs' [Hk Hd] _ IH].
    + intros e [].
    + intros x [<- | Hx].
      * destruct (main_dated_frame _ _ _ Hd) as [Hframe _].
        rewrite Hframe by congruence. apply Hctx. now left.
      * apply IH; [| exact Hx]. intros y Hy. apply Hctx. now right.
  - intros slug row0 Hrow0.
    pose proof (forall2_get (fun r r' => main_dated cmp r = Ok r') vs vs0 slug Hall)
      as H.
    rewrite Hrow0, Hget in H.
    destruct (last_with_slug slug rows) as [r |]; simpl in H; [| contradiction].
    now exists r.
Qed.

Lemma main_gen_tmpl_values_eq (config : Utils.Relationships) (vs0 : Values) :
  Main.base_values db table cmps = Ok vs0 ->
  Main.gen_tmpl_values_with config db table cmps
  = match PyDict.get String.eqb table config with
    | None => Ok vs0
    | Some declarations =>
        bind (mapM (join_of db table) declarations)
          (fun joins =>
             Ok (map (fun e =>
                        (fst e,
                         row_set "context"
                           (VStr (context_links Main.link declarations joins (fst e)))
                           (snd e)))
                     vs0))
    end.
Proof.
  intros Hbase. unfold Main.gen_tmpl_values_with. rewrite Hbase. cbn [bind].
  destruct (PyDict.get String.eqb table config) as [decls |]; [| reflexivity].
  destruct (main_base_values_spec vs0 Hbase) as (rows & cmp & _ & _ & Hnd & Hctx & _).
  change (foldM (Main.resolve db table) decls vs0)
    with (foldM (fun vs rel =>
                   bind (join_of db table rel)
                     (fun rels => Utils.add_links Main.link
                                    (Utils.other_table rel) rels vs))
                decls vs0).
  rewrite (fold_resolve Main.link db table decls vs0 Hnd (empty_context_text _ Hctx)).
  destruct (mapM (join_of db table) decls) as [joins | e | ]; cbn [bind];
    try reflexivity.
  f_equal. apply map_ext_in. intros e He.
  now rewrite with_empty_context by (now apply Hctx).
Qed.

End MainValues.

(** * Facts about format strings *)

Section FormatFacts.

Variable kw : Row.

Lemma prepend_nil (o : result string) : Format.prepend "" o = o.
Proof. now destruct o. Qed.

Lemma prepend_prepend (a b : string) (o : result string) :
  Format.prepend a (Format.prepend b o) = Format.prepend (a ++ b) o.
Proof. destruct o; simpl; try reflexivity. now rewrite append_assoc. Qed.

(** Text without braces is copied. *)
Lemma format_text (a s : string) :
  brace_free a = true ->
  Format.run kw Format.InText (a ++ s)
  = Format.prepend a (Format.run kw Format.InText s).
Proof.
  unfold brace_free. induction a as [| c a IH]; intros H.
  - simpl. now rewrite prepend_nil.
  - simpl in H. cbn [append Format.run].
    destruct (Ascii.eqb c "{") eqn:E1; [simpl in H; discriminate H |].
    destruct (Ascii.eqb c "}") eqn:E2;
      [rewrite orb_true_r in H; simpl in H; discriminate H |].
    simpl in H. rewrite IH by exact H.
    now rewrite prepend_prepend.
Qed.

Lemma format_brace_free (a : string) :
  brace_free a = true -> Format.format kw a = Ok a.
Proof.
  intros H. unfold Format.format.
  rewrite <- (append_nil_r a) at 1. rewrite format_text by exact H.
  simpl. now rewrite append_nil_r.
Qed.

Lemma name_char_cases (c : ascii) :
  name_char c = true ->
  Ascii.eqb c "{" = false /\ Ascii.eqb c "}" = false /\ Ascii.eqb c "[" = false
  /\ Ascii.eqb c "]" = false /\ Ascii.eqb c "." = false
  /\ Ascii.eqb c ":" = false /\ Ascii.eqb c "!" = false.
Proof.
  unfold name_char.
  destruct (Ascii.eqb c "{"), (Ascii.eqb c "}"), (Ascii.eqb c "["),
    (Ascii.eqb c "]"), (Ascii.eqb c "."), (Ascii.eqb c ":"), (Ascii.eqb c "!");
    simpl; intros H; try discriminate; repeat split.
Qed.

(** Inside a field, the characters of a plain name are collected up to the
    closing brace. *)
Lemma format_in_field (acc name s : string) :
  name_chars name = true ->
  Format.run kw (Format.InField acc) (name ++ String "}" s)
  = bind (Format.field_value kw (acc ++ name))
      (fun v => Format.prepend v (Format.run kw Format.InText s)).
Proof.
  revert acc. induction name as [| c name IH]; intros acc H.
  - simpl. now rewrite append_nil_r.
  - simpl in H. apply andb_prop in H as [Hc Hname].
    destruct (name_char_cases c Hc) as (E1 & E2 & E3 & E4 & E5 & E6 & E7).
    cbn [append Format.run]. rewrite E1, E2, E6, E7, E3. cbn [orb].
    rewrite IH by exact Hname. unfold Format.snoc.
    now rewrite append_assoc.
Qed.

Lemma format_field (name s : string) :
  negb (String.eqb name "") = true ->
  name_chars name = true ->
  Format.run kw Format.InText (String "{" (name ++ String "}" s))
  = bind (Format.field_value kw name)
      (fun v => Format.prepend v (Format.run kw Format.InText s)).
Proof.
  intros Hne Hname. destruct name as [| c name]; [discriminate |].
  simpl in Hname. apply andb_prop in Hname as [Hc Hname].
  destruct (name_char_cases c Hc) as (E1 & E2 & E3 & E4 & E5 & E6 & E7).
  cbn [append Format.run]. simpl. rewrite E1, E2, E6, E7, E3. cbn [orb].
  now rewrite format_in_field by exact Hname.
Qed.

Lemma first_part_plain (name : string) :
  name_chars name = true -> Format.first_part name = name.
Proof.
  induction name as [| c name IH]; [reflexivity |].
  simpl. intros H. apply andb_prop in H as [Hc Hname].
  destruct (name_char_cases c Hc) as (E1 & E2 & E3 & E4 & E5 & E6 & E7).
  rewrite E5, E3. simpl. now rewrite IH.
Qed.

(** A plain name is looked up among the keywords; what is found is printed,
    what is missing is a [KeyError]. *)
Lemma field_value_plain (name : string) :
  plain_name name = true ->
  Format.field_value kw name
  = match row_get name kw with
    | Some v => Ok (py_str v)
    | None => Raise (KeyError name)
    end.
Proof.
  unfold plain_name. intros H.
  apply andb_prop in H as [H Hdigits]. apply andb_prop in H as [Hne Hname].
  unfold Format.field_value. rewrite (first_part_plain name Hname).
  apply negb_true_iff in Hne, Hdigits. rewrite Hne, Hdigits.
  destruct (row_get name kw); [| reflexivity].
  now rewrite String.eqb_refl.
Qed.

(** A field with a plain name, after text without braces. *)
Lemma format_plain_field (a name s : string) :
  brace_free a = true ->
  plain_name name = true ->
  Format.format kw (a ++ "{" ++ name ++ "}" ++ s)
  = match row_get name kw with
    | Some v => Format.prepend (a ++ py_str v) (Format.format kw s)
    | None => Raise (KeyError name)
    end.
Proof.
  intros Ha Hname. unfold Format.format. rewrite format_text by exact Ha.
  pose proof Hname as Hplain. unfold plain_name in Hname.
  apply andb_prop in Hname as [Hname _]. apply andb_prop in Hname as [Hne Hname].
  change ("{" ++ name ++ "}" ++ s) with (String "{" (name ++ String "}" s)).
  rewrite format_field by assumption.
  rewrite field_value_plain by exact Hplain.
  destruct (row_get name kw) as [v |]; simpl; [| reflexivity].
  now rewrite prepend_prepend.
Qed.

End FormatFacts.

(** * Facts about the feed *)

Section EscapeFacts.

Lemma replace_char_app (c : ascii) (by_ s t : string) :
  Text.replace_char c by_ (s ++ t)
  = Text.replace_char c by_ s ++ Text.replace_char c by_ t.
Proof.
  induction s as [| a s IH]; simpl; [reflexivity |].
  destruct (Ascii.eqb a c); rewrite IH; [now rewrite append_assoc | reflexivity].
Qed.

(** Replacing [&], then [<], then [>] is replacing each character once: no
    replacement text holds a character a later step looks for. *)
Lemma xml_escape_chars (s : string) :
  Text.replace_char ">" "&gt;"
    (Text.replace_char "<" "&lt;" (Text.replace_char "&" "&amp;" s))
  = escape_chars s.
Proof.
  induction s as [| c s IH]; simpl; [reflexivity |].
  unfold escape_char.
  destruct (Ascii.eqb_spec c "&") as [-> | Hamp]; simpl.
  - now rewrite IH.
  - destruct (Ascii.eqb_spec c "<") as [-> | Hlt]; simpl.
    + now rewrite IH.
    + destruct (Ascii.eqb_spec c ">") as [-> | Hgt]; simpl; now rewrite IH.
Qed.

Lemma prev_xml_escape_chars (v : value) :
  Prev.xml_escape v = escape_chars (py_str v).
Proof. unfold Prev.xml_escape. apply xml_escape_chars. Qed.

End EscapeFacts.

Section ItemFacts.

Variable table : string.
Variable r : Store.FeedRow.

Lemma prev_item_xml_eq :
  Prev.item_xml table r
  = bind (Utils.pub_date (Store.created_time r))
      (fun dt => Ok (feed_item prev_layout (escape_chars (py_str (Store.title r)))
                       (feed_link table (Store.slug r)) dt
                       (py_str (Store.html r)))).
Proof.
  unfold Prev.item_xml.
  destruct (Utils.pub_date (Store.created_time r)) as [dt | e | ]; simpl; try reflexivity.
  f_equal. rewrite prev_xml_escape_chars.
  unfold feed_item, element, feed_link, Prev.BASE_URL. simpl. same_text.
Qed.

Lemma main_item_xml_eq :
  Main.item_xml table r
  = bind (Utils.pub_date (Store.created_time r))
      (fun dt => Ok (feed_item main_layout (escape_chars (py_str (Store.title r)))
                       (feed_link table (Store.slug r)) dt
                       (py_str (Store.html r)))).
Proof.
  unfold Main.item_xml.
  destruct (Utils.pub_date (Store.created_time r)) as [dt | e | ]; simpl; try reflexivity.
  f_equal. rewrite xml_escape_chars.
  unfold feed_item, element, feed_link, Main.BASE_URL. simpl. same_text.
Qed.

End ItemFacts.

Lemma prev_rss_document_eq (table items : string) :
  Prev.rss_document table items
  = feed_document prev_layout Prev.BASE_URL table items.
Proof.
  unfold Prev.rss_document, feed_document, element, Text.dq. simpl. same_text.
Qed.

Lemma main_rss_document_eq (table items : string) :
  Main.rss_document table items
  = feed_document main_layout Main.BASE_URL table items.
Proof.
  unfold Main.rss_document, feed_document, element, Text.dq. simpl. same_text.
Qed.

Section RssLoop.

Variable table : string.

(** The loop of [Prev.generate_rss]: the items are those of the rows, in
    order, and [rss_content] is bound as soon as one row was seen. *)
Lemma prev_rss_loop (rows : list Store.FeedRow) (items_xml : string)
  (rss_content : option string) :
  foldM (Prev.rss_step table) rows (items_xml, rss_content)
  = bind (mapM (Prev.item_xml table) rows)
      (fun items =>
         Ok (items_xml ++ Text.join items,
             match rows with
             | [] => rss_content
             | _ :: _ =>
                 Some (Prev.rss_document table (items_xml ++ Text.join items))
             end)).
Proof.
  revert items_xml rss_content.
  induction rows as [| r rows IH]; intros items_xml rss_content; simpl.
  - now rewrite append_nil_r.
  - unfold Prev.rss_step at 1.
    destruct (Prev.item_xml table r) as [item | e | ]; simpl; try reflexivity.
    rewrite IH.
    destruct (mapM (Prev.item_xml table) rows) as [items | e | ] eqn:Hrest;
      simpl; try reflexivity.
    rewrite append_assoc. destruct rows; simpl; try reflexivity.
    simpl in Hrest. injection Hrest as <-. simpl.
    now rewrite !append_nil_r.
Qed.

Lemma main_rss_loop (rows : list Store.FeedRow) (items_xml : string) :
  foldM (fun items_xml r =>
           bind (Main.item_xml table r) (fun item => Ok (items_xml ++ item)))
        rows items_xml
  = bind (mapM (Main.item_xml table) rows)
      (fun items => Ok (items_xml ++ Text.join items)).
Proof.
  revert items_xml.
  induction rows as [| r rows IH]; intros items_xml; simpl.
  - now rewrite append_nil_r.
  - destruct (Main.item_xml table r) as [item | e | ]; simpl; try reflexivity.
    rewrite IH.
    destruct (mapM (Main.item_xml table) rows) as [items | e | ]; simpl;
      try reflexivity.
    now rewrite append_assoc.
Qed.

End RssLoop.

(** What [Prev.generate_rss] does, by cases. *)
Lemma prev_generate_rss_eq (db : Store.Database) (table : string) (w : World) :
  Prev.generate_rss db table w
  = match Store.select_feed db table "title" with
    | Ok rows =>
        match mapM (Prev.item_xml table) rows with
        | Ok items =>
            match rows with
            | [] => (Raise (UnboundLocalError "rss_content"), w)
            | _ :: _ =>
                Utils.write_file [Prev.DIST_DIR; table; "rss"]
                  (Prev.rss_document table (Text.join items)) w
            end
        | Raise e => (Raise e, w)
        | Unmodelled => (Unmodelled, w)
        end
    | Raise e => (Raise e, w)
    | Unmodelled => (Unmodelled, w)
    end.
Proof.
  unfold Prev.generate_rss, bindR, lift.
  destruct (Store.select_feed db table "title") as [rows | e | ]; try reflexivity.
  rewrite prev_rss_loop.
  destruct (mapM (Prev.item_xml table) rows) as [items | e | ]; simpl;
    try reflexivity.
  destruct rows; reflexivity.
Qed.

Lemma main_generate_rss_eq (db : Store.Database) (table : string) (w : World) :
  Main.generate_rss db table w
  = match Store.select_feed db table (Main.title_col table) with
    | Ok rows =>
        match mapM (Main.item_xml table) rows with
        | Ok items =>
            Utils.write_file [Main.DIST_DIR; table; "rss"]
              (Main.rss_document table (Text.join items)) w
        | Raise e => (Raise e, w)
        | Unmodelled => (Unmodelled, w)
        end
    | Raise e => (Raise e, w)
    | Unmodelled => (Unmodelled, w)
    end.
Proof.
  unfold Main.generate_rss, bindR, lift.
  destruct (Store.select_feed db table (Main.title_col table)) as [rows | e | ];
    try reflexivity.
  rewrite main_rss_loop.
  destruct (mapM (Main.item_xml table) rows) as [items | e | ]; reflexivity.
Qed.

(** [write_file] adds one file to those written and touches nothing else
    but the standard output. *)
Lemma write_file_writes (path : Path) (content : string) (w : World) :
  exists out,
    Utils.write_file path content w
    = (Ok tt, mkWorld (writes w ++ [(path, content)])%list out (stderr w) (opened w)).
Proof.
  unfold Utils.write_file, bindR, write_text, print, ret.
  destruct (14 * 1024 <=? Z.of_nat (String.length content))%Z;
    eexists; reflexivity.
Qed.

Section EntryFacts.

Variable table : string.

(** The items of the two files are the two renderings of the same entries. *)
Lemma prev_items_entries (rows : list Store.FeedRow) :
  mapM (Prev.item_xml table) rows
  = bind (mapM (feed_entry table) rows)
      (fun entries => Ok (map (render_entry prev_layout) entries)).
Proof.
  induction rows as [| r rows IH]; [reflexivity |].
  cbn [mapM]. rewrite IH, prev_item_xml_eq.
  assert (Hr : feed_entry table r
               = bind (Utils.pub_date (Store.created_time r))
                   (fun dt => Ok (mkEntry (escape_chars (py_str (Store.title r)))
                                          (feed_link table (Store.slug r)) dt
                                          (py_str (Store.html r)))))
    by reflexivity.
  rewrite Hr.
  destruct (Utils.pub_date (Store.created_time r)) as [dt | e | ]; cbn [bind];
    try reflexivity.
  destruct (mapM (feed_entry table) rows) as [entries | e | ]; reflexivity.
Qed.

Lemma main_items_entries (rows : list Store.FeedRow) :
  mapM (Main.item_xml table) rows
  = bind (mapM (feed_entry table) rows)
      (fun entries => Ok (map (render_entry main_layout) entries)).
Proof.
  induction rows as [| r rows IH]; [reflexivity |].
  cbn [mapM]. rewrite IH, main_item_xml_eq.
  assert (Hr : feed_entry table r
               = bind (Utils.pub_date (Store.created_time r))
                   (fun dt => Ok (mkEntry (escape_chars (py_str (Store.title r)))
                                          (feed_link table (Store.slug r)) dt
                                          (py_str (Store.html r)))))
    by reflexivity.
  rewrite Hr.
  destruct (Utils.pub_date (Store.created_time r)) as [dt | e | ]; cbn [bind];
    try reflexivity.
  destruct (mapM (feed_entry table) rows) as [entries | e | ]; reflexivity.
Qed.

End EntryFacts.

Section OrderFacts.

Lemma sql_leb_total (x y : value) :
  Store.sql_leb x y = false -> Store.sql_leb y x = true.
Proof.
  destruct x as [| a | s], y as [| b | t]; simpl; try congruence.
  - intros H. apply Z.leb_gt in H. apply Z.leb_le. lia.
  - unfold String.leb. rewrite (String.compare_antisym s t).
    destruct (String.compare t s); simpl; congruence.
Qed.

Lemma insert_desc_perm (r : Store.FeedRow) (rows : list Store.FeedRow) :
  Permutation (r :: rows) (Store.insert_desc r rows).
Proof.
  induction rows as [| r' rows IH]; simpl; [reflexivity |].
  destruct (Store.sql_leb (Store.created_time r') (Store.created_time r));
    [reflexivity |].
  rewrite perm_swap. now apply perm_skip.
Qed.

Lemma order_perm (rows : list Store.FeedRow) :
  Permutation rows (Store.order_by_created_time_desc rows).
Proof.
  induction rows as [| r rows IH]; simpl; [constructor |].
  rewrite <- insert_desc_perm. now apply perm_skip.
Qed.

Lemma insert_desc_hd (r : Store.FeedRow) (rows : list Store.FeedRow)
  (r0 : Store.FeedRow) :
  HdRel newer_or_equal r0 rows ->
  newer_or_equal r0 r ->
  HdRel newer_or_equal r0 (Store.insert_desc r rows).
Proof.
  intros Hhd Hr. destruct rows as [| r' rows]; simpl.
  - now constructor.
  - destruct (Store.sql_leb (Store.created_time r') (Store.created_time r));
      constructor; [exact Hr | now inversion Hhd].
Qed.

Lemma insert_desc_sorted (r : Store.FeedRow) (rows : list Store.FeedRow) :
  Sorted newer_or_equal rows -> Sorted newer_or_equal (Store.insert_desc r rows).
Proof.
  induction rows as [| r' rows IH]; intros Hs; simpl.
  - repeat constructor.
  - destruct (Store.sql_leb (Store.created_time r') (Store.created_time r)) eqn:E.
    + constructor; [exact Hs | constructor; exact E].
    + inversion Hs as [| ? ? Hs' Hhd]; subst.
      constructor; [now apply IH |].
      apply insert_desc_hd; [exact Hhd |].
      unfold newer_or_equal. now apply sql_leb_total.
Qed.

Lemma order_sorted (rows : list Store.FeedRow) :
  Sorted newer_or_equal (Store.order_by_created_time_desc rows).
Proof.
  induction rows as [| r rows IH]; simpl; [constructor |].
  now apply insert_desc_sorted.
Qed.

End OrderFacts.

Section NeverUnmodelled.

Lemma pub_date_modelled (v : value) : Utils.pub_date v <> Unmodelled.
Proof.
  unfold Utils.pub_date, Utils.date_part. destruct v as [| z | s]; simpl;
    try discriminate.
  unfold Datetime.strptime.
  destruct (Datetime.match_year (Text.before_first " " s)) as [[y [| c s1]] |];
    try discriminate.
  destruct (Ascii.eqb_spec c "-") as [-> | Hc].
  - destruct (Datetime.match_month_dash s1) as [[m s2] |]; try discriminate.
    destruct (Datetime.match_day s2) as [[d [| c' s3]] |]; try discriminate.
    destruct ((1 <=? y)%Z && (d <=? Datetime.days_in_month y m)%Z); discriminate.
  - destruct c as [[] [] [] [] [] [] [] []]; try discriminate.
    contradiction Hc. reflexivity.
Qed.

Lemma mapM_modelled {A B : Type} (f : A -> result B) (xs : list A) :
  (forall x, f x <> Unmodelled) -> mapM f xs <> Unmodelled.
Proof.
  intros H. induction xs as [| x xs IH]; simpl; [discriminate |].
  specialize (H x). destruct (f x); simpl; try congruence.
  destruct (mapM f xs); simpl; congruence.
Qed.

Lemma select_feed_modelled (db : Store.Database) (table col : string) :
  Store.select_feed db table col <> Unmodelled.
Proof.
  unfold Store.select_feed, Store.find_table, Store.require_column.
  destruct (PyDict.get String.eqb table db) as [t |]; simpl; [| discriminate].
  destruct (Store.has_column t "slug"); simpl; [| discriminate].
  destruct (Store.has_column t col); simpl; [| discriminate].
  destruct (Store.has_column t "created_time"); simpl; [| discriminate].
  destruct (Store.has_column t "html"); simpl; discriminate.
Qed.

End NeverUnmodelled.

(** * Facts about the sections *)

Section WriteFacts.

Lemma wrote_nothing (w : World) : wrote w w [].
Proof. unfold wrote. now rewrite app_nil_r. Qed.

Lemma wrote_trans (w1 w2 w3 : World) (f g : list (Path * string)) :
  wrote w1 w2 f -> wrote w2 w3 g -> wrote w1 w3 (f ++ g)%list.
Proof.
  unfold wrote. intros (H1 & H2 & H3) (H4 & H5 & H6).
  rewrite H4, H1, H5, H2, H6, H3, app_assoc. auto.
Qed.

Lemma write_file_wrote (path : Path) (content : string) (w : World) :
  exists w', Utils.write_file path content w = (Ok tt, w')
             /\ wrote w w' [(path, content)].
Proof.
  destruct (write_file_writes path content w) as (out & ->).
  eexists. split; [reflexivity |]. unfold wrote. simpl. auto.
Qed.


End WriteFacts.

Section PrevSection.

Variables (css table : string) (builder : Prev.Builder).


(** The loop stops at the first entry whose page cannot be built. *)
Lemma prev_section_loop_stops (before after : Values) (entry : value * Row)
  (pages : list string) (e : exn) :
  mapM (fun e => builder css (snd e)) before = Ok pages ->
  builder css (snd entry) = Raise e ->
  forall (acc : string) (w : World),
  exists w',
    fold_run (Prev.section_step css table builder)
             (before ++ entry :: after)%list acc w
    = (Raise e, w')
    /\ wrote w w' (entry_writes table before pages).
Proof.
  revert pages. induction before as [| [slug row] before IH]; intros pages.
  - simpl. intros [= <-] Hfail acc w. exists w. split; [| apply wrote_nothing].
    unfold bindR, Prev.section_step, lift. destruct entry as [slug row].
    simpl in Hfail. unfold bindR, lift. now rewrite Hfail.
  - cbn [mapM snd].
    destruct (builder css row) as [page | e' | ] eqn:Hpage; cbn [bind]; try discriminate.
    destruct (mapM (fun e => builder css (snd e)) before) as [rest | e' | ] eqn:Hrest;
      cbn [bind]; try discriminate.
    intros [= <-] Hfail acc w.
    cbn [app fold_run]. unfold bindR at 1. unfold Prev.section_step at 1.
    unfold bindR at 1, lift. rewrite Hpage.
    unfold bindR at 1.
    destruct (write_file_wrote [Prev.DIST_DIR; table; py_str slug ++ ".html"] page w)
      as (w1 & -> & Hw1).
    unfold ret.
    destruct (IH rest eq_refl Hfail
                (if Prev.listed row
                 then acc ++ Prev.index_link table slug (Prev.label_of slug row)
                 else acc) w1) as (w2 & -> & Hw2).
    exists w2. split; [reflexivity |].
    exact (wrote_trans _ _ _ _ _ Hw1 Hw2).
Qed.

End PrevSection.

Section MainSection.

Variables (tmpl css table : string).


End MainSection.

(** * Facts about the watch loops *)

Section WatchLoops.

Variables (table slug css : string).

Lemma row_set_set (k : string) (v1 v2 : value) (r : Row) :
  row_set k v2 (row_set k v1 r) = row_set k v2 r.
Proof. apply (set_set String.eqb String.eqb_spec). Qed.

Lemma wrote_cons (w1 w2 w3 : World) (f : Path * string) (g : list (Path * string)) :
  wrote w1 w2 [f] -> wrote w2 w3 g -> wrote w1 w3 (f :: g).
Proof. intros H1 H2. exact (wrote_trans _ _ _ _ _ H1 H2). Qed.

(** The turns of the loop of [prev.py] for a row none of whose values is
    the text [created_time]. *)
Lemma prev_rebuild_loop (builder : Prev.Builder) (row : Row)
  (events pages : list string) :
  no_value_is "created_time" row = true ->
  mapM (prev_watch_page builder css row) events = Ok pages ->
  forall w : World,
  exists w',
    for_each (Prev.rebuild table slug css builder row) events w = (Ok tt, w')
    /\ wrote w w' (map (fun page => (["dist"; table; slug ++ ".html"], page)) pages).
Proof.
  intros Hno. unfold no_value_is in Hno. apply negb_true_iff in Hno.
  revert pages. induction events as [| html events IH]; intros pages.
  - simpl. intros [= <-] w. exists w. split; [reflexivity | apply wrote_nothing].
  - cbn [mapM].
    destruct (prev_watch_page builder css row html) as [page | e | ] eqn:Hpage;
      cbn [bind]; try discriminate.
    destruct (mapM (prev_watch_page builder css row) events) as [rest | e | ]
      eqn:Hrest; cbn [bind]; try discriminate.
    intros [= <-] w.
    cbn [for_each]. unfold bindR at 1. unfold Prev.rebuild at 1.
    unfold bindR at 1. unfold print at 1.
    unfold bindR at 1, lift. rewrite Hno.
    unfold bindR at 1. fold (prev_watch_page builder css row html). rewrite Hpage.
    match goal with
    | |- context [Utils.write_file ?p page ?w0] =>
        destruct (write_file_wrote p page w0) as (w1 & -> & Hw1)
    end.
    destruct (IH rest eq_refl w1) as (w2 & -> & Hw2).
    exists w2. split; [reflexivity |].
    cbn [map]. refine (wrote_cons _ _ _ _ _ _ Hw2).
    destruct Hw1 as (H1 & H2 & H3). unfold wrote. cbn in H1, H2, H3 |- *. auto.
Qed.

(** The turns of the loop of [main.py]: the row carries the last body into
    the next turn, where the new body replaces it. *)
Lemma main_rebuild_loop (template : string) (row : Row) (events pages : list string) :
  mapM (main_watch_page template css row) events = Ok pages ->
  forall (body : option string) (w : World),
  exists w' row',
    fold_run (Main.rebuild template css table slug) events
      (match body with Some b => row_set "html" (VStr b) row | None => row end) w
    = (Ok row', w')
    /\ wrote w w' (map (fun page => (["dist"; table; slug ++ ".html"], page)) pages).
Proof.
  revert pages. induction events as [| html events IH]; intros pages.
  - simpl. intros [= <-] body w. eexists w, _. split; [reflexivity | apply wrote_nothing].
  - cbn [mapM].
    destruct (main_watch_page template css row html) as [page | e | ] eqn:Hpage;
      cbn [bind]; try discriminate.
    destruct (mapM (main_watch_page template css row) events) as [rest | e | ]
      eqn:Hrest; cbn [bind]; try discriminate.
    intros [= <-] body w.
    cbn [fold_run]. unfold bindR at 1. unfold Main.rebuild at 1.
    unfold bindR at 1. unfold print at 1.
    assert (Hrow : row_set "html" (VStr html)
                     (match body with
                      | Some b => row_set "html" (VStr b) row
                      | None => row
                      end) = row_set "html" (VStr html) row).
    { destruct body; [apply row_set_set | reflexivity]. }
    rewrite Hrow.
    unfold bindR at 1, lift. fold (main_watch_page template css row html).
    rewrite Hpage.
    unfold bindR at 1.
    match goal with
    | |- context [Utils.write_file ?p page ?w0] =>
        destruct (write_file_wrote p page w0) as (w1 & -> & Hw1)
    end.
    unfold ret at 1.
    destruct (IH rest eq_refl (Some html) w1) as (w2 & row' & -> & Hw2).
    exists w2, row'. split; [reflexivity |].
    cbn [map]. refine (wrote_cons _ _ _ _ _ _ Hw2).
    destruct Hw1 as (H1 & H2 & H3). unfold wrote. cbn in H1, H2, H3 |- *. auto.
Qed.

End WatchLoops.

(** * Facts about the page builders of [prev.py] *)

Section Pages.

(** The body goes into the layout as it is, before the closing tags. *)
Lemma layout_body (title css : string) :
  exists before,
    forall body, Prev.layout title css body = before ++ body ++ "</body></html>".
Proof.
  exists ("<!doctype html><html >" ++
          Prev.h "head" []
            [Prev.h "title" [] [title ++ " | danielfalbo"];
             Prev.h "style" [] [css];
             "<meta charset=" ++ Text.dq ++ "UTF-8" ++ Text.dq ++ ">";
             "<link rel=" ++ Text.dq ++ "icon" ++ Text.dq ++ " type=" ++ Text.dq ++ "image/x-icon" ++
               Text.dq ++ " href=" ++ Text.dq ++ "/favicon.ico" ++ Text.dq ++ ">"] ++
          "<body >").
  intros body. unfold Prev.layout.
  set (head := Prev.h "head" [] _).
  unfold Prev.h. cbn [map Text.join_sep String.concat Text.join].
  rewrite !append_nil_r. repeat rewrite append_assoc. reflexivity.
Qed.

Lemma row_item_set_other (k k' : string) (v : value) (r : Row) :
  k <> k' -> row_item k' (row_set k v r) = row_item k' r.
Proof. intros H. unfold row_item. now rewrite row_get_set_other. Qed.

Lemma row_item_set_same (k : string) (v : value) (r : Row) :
  row_item k (row_set k v r) = Ok v.
Proof. unfold row_item. now rewrite row_get_set_same. Qed.

Lemma row_item_some (k : string) (v : value) (r : Row) :
  row_get k r = Some v -> row_item k r = Ok v.
Proof. intros H. unfold row_item. now rewrite H. Qed.

End Pages.

(** * Timestamps in the ISO form: the order of the texts is the order of the dates *)

Section IsoDates.

Lemma code_N (c : ascii) : Datetime.code c = Z.of_N (N_of_ascii c).
Proof. unfold Datetime.code, nat_of_ascii. apply N_nat_Z. Qed.

Lemma compare_lt_code (a b : ascii) :
  Ascii.compare a b = Lt -> (Datetime.code a < Datetime.code b)%Z.
Proof.
  unfold Ascii.compare. rewrite !code_N. intros H.
  apply N.compare_lt_iff in H. now apply N2Z.inj_lt.
Qed.

Lemma digit_bounds (c : ascii) :
  Datetime.is_digit c = true -> (0 <= Datetime.digit c <= 9)%Z.
Proof.
  unfold Datetime.is_digit, Datetime.digit. intros H.
  apply andb_prop in H as [H1 H2]. apply Z.leb_le in H1, H2. lia.
Qed.

Lemma digit_not_blank (c : ascii) :
  Datetime.is_digit c = true -> Ascii.eqb c " " = false.
Proof.
  intros H. destruct (Ascii.eqb_spec c " ") as [-> | _]; [discriminate H | reflexivity].
Qed.

Lemma digit_not_dash (c : ascii) :
  Datetime.is_digit c = true -> Ascii.eqb c "-" = false.
Proof.
  intros H. destruct (Ascii.eqb_spec c "-") as [-> | _]; [discriminate H | reflexivity].
Qed.

Variables y1 y2 y3 y4 m1 m2 d1 d2 : ascii.
Hypothesis Hy1 : Datetime.is_digit y1 = true.
Hypothesis Hy2 : Datetime.is_digit y2 = true.
Hypothesis Hy3 : Datetime.is_digit y3 = true.
Hypothesis Hy4 : Datetime.is_digit y4 = true.
Hypothesis Hm1 : Datetime.is_digit m1 = true.
Hypothesis Hm2 : Datetime.is_digit m2 = true.
Hypothesis Hd1 : Datetime.is_digit d1 = true.
Hypothesis Hd2 : Datetime.is_digit d2 = true.

Lemma iso_month (rest : string) (m : Z) (s2 : string) :
  Datetime.match_month_dash (String m1 (String m2 (String "-" rest))) = Some (m, s2) ->
  m = (10 * Datetime.digit m1 + Datetime.digit m2)%Z /\ s2 = rest.
Proof.
  unfold Datetime.match_month_dash.
  destruct (Ascii.eqb_spec m1 "1") as [-> | _]; cbn [andb].
  - destruct (Datetime.in_range 0 2 m2); cbn [andb Ascii.eqb Bool.eqb].
    + intros [= <- <-]. split; [unfold Datetime.digit at 2; simpl; lia | reflexivity].
    + rewrite (digit_not_dash m2 Hm2), andb_false_r. discriminate.
  - destruct (Ascii.eqb_spec m1 "0") as [-> | _]; cbn [andb].
    + destruct (Datetime.in_range 1 9 m2); cbn [andb Ascii.eqb Bool.eqb].
      * intros [= <- <-]. split; [reflexivity | reflexivity].
      * rewrite (digit_not_dash m2 Hm2), andb_false_r. discriminate.
    + rewrite (digit_not_dash m2 Hm2), andb_false_r. discriminate.
Qed.

Lemma iso_day (d : Z) :
  Datetime.match_day (String d1 (String d2 "")) = Some (d, "") ->
  d = (10 * Datetime.digit d1 + Datetime.digit d2)%Z.
Proof.
  unfold Datetime.match_day.
  destruct (Ascii.eqb_spec d1 "3") as [-> | _]; cbn [andb].
  - destruct (Datetime.in_range 0 1 d2).
    + intros [= <-]. reflexivity.
    + cbn. destruct (Datetime.is_digit d2); cbn; [| discriminate].
      discriminate.
  - destruct (Datetime.in_range 1 2 d1 && Datetime.is_digit d2).
    + intros [= <-]. lia.
    + destruct (Ascii.eqb_spec d1 "0") as [-> | _]; cbn [andb].
      * destruct (Datetime.in_range 1 9 d2).
        -- intros [= <-]. reflexivity.
        -- cbn. discriminate.
      * destruct (Datetime.in_range 1 9 d1); [discriminate |].
        rewrite (digit_not_blank d1 Hd1). discriminate.
Qed.

Lemma iso_strptime (d : Datetime.date) :
  Datetime.strptime (date_text y1 y2 y3 y4 m1 m2 d1 d2) = Ok d ->
  Datetime.year d
  = (Datetime.digit y1 * 1000 + Datetime.digit y2 * 100 + Datetime.digit y3 * 10 +
     Datetime.digit y4)%Z
  /\ Datetime.month d = (10 * Datetime.digit m1 + Datetime.digit m2)%Z
  /\ Datetime.day d = (10 * Datetime.digit d1 + Datetime.digit d2)%Z.
Proof.
  unfold Datetime.strptime, date_text, Datetime.match_year.
  rewrite Hy1, Hy2, Hy3, Hy4. cbn [andb].
  destruct (Datetime.match_month_dash _) as [[m s2] |] eqn:Hm; [| discriminate].
  apply iso_month in Hm as [-> ->].
  destruct (Datetime.match_day _) as [[dd [| c s3]] |] eqn:Hd; try discriminate.
  apply iso_day in Hd as ->.
  destruct (_ && _); [| discriminate].
  intros [= <-]. cbn. auto.
Qed.

Lemma iso_date_part (rest : string) :
  match rest with EmptyString => true | String c _ => Ascii.eqb c " " end = true ->
  Text.before_first " "
    (String y1 (String y2 (String y3 (String y4 (String "-"
       (String m1 (String m2 (String "-" (String d1 (String d2 rest))))))))))
  = date_text y1 y2 y3 y4 m1 m2 d1 d2.
Proof.
  intros Hrest. unfold date_text. cbn [Text.before_first].
  rewrite (digit_not_blank y1 Hy1), (digit_not_blank y2 Hy2),
    (digit_not_blank y3 Hy3), (digit_not_blank y4 Hy4).
  cbn [Ascii.eqb Bool.eqb Text.before_first].
  rewrite (digit_not_blank m1 Hm1), (digit_not_blank m2 Hm2).
  cbn [Ascii.eqb Bool.eqb Text.before_first].
  rewrite (digit_not_blank d1 Hd1), (digit_not_blank d2 Hd2).
  destruct rest as [| c rest]; [reflexivity |].
  cbn [Text.before_first]. now rewrite Hrest.
Qed.

End IsoDates.

Ltac compare_step :=
  match goal with
  | |- context [Ascii.compare ?a ?b] =>
      let E := fresh "E" in
      destruct (Ascii.compare a b) eqn:E;
      [ apply Ascii.compare_eq_iff in E; subst
      | apply compare_lt_code in E; intros _;
        unfold date_key, Datetime.digit in *; lia
      | intros H; discriminate H ]
  end.

Lemma iso_leb_key (a1 a2 a3 a4 a5 a6 a7 a8 b1 b2 b3 b4 b5 b6 b7 b8 : ascii)
  (ra rb : string) :
  Forall (fun c => Datetime.is_digit c = true)
    [a1; a2; a3; a4; a5; a6; a7; a8; b1; b2; b3; b4; b5; b6; b7; b8] ->
  String.leb
    (String a1 (String a2 (String a3 (String a4 (String "-"
       (String a5 (String a6 (String "-" (String a7 (String a8 ra))))))))))
    (String b1 (String b2 (String b3 (String b4 (String "-"
       (String b5 (String b6 (String "-" (String b7 (String b8 rb))))))))))
  = true ->
  (date_key a1 a2 a3 a4 a5 a6 a7 a8 <= date_key b1 b2 b3 b4 b5 b6 b7 b8)%Z.
Proof.
  intros Hdigits.
  repeat match goal with
         | H : Forall _ (_ :: _) |- _ =>
             let Hc := fresh "Hc" in
             inversion H as [| ? ? Hc ?]; subst; clear H;
             apply digit_bounds in Hc
         end.
  unfold String.leb. cbn [String.compare].
  do 4 compare_step.
  change (Ascii.compare "-" "-") with Eq. cbn iota.
  do 2 compare_step.
  change (Ascii.compare "-" "-") with Eq. cbn iota.
  do 2 compare_step.
  intros _. lia.
Qed.

Lemma key_date_leb (d d' : Datetime.date)
  (a1 a2 a3 a4 a5 a6 a7 a8 b1 b2 b3 b4 b5 b6 b7 b8 : ascii) :
  Forall (fun c => Datetime.is_digit c = true)
    [a1; a2; a3; a4; a5; a6; a7; a8; b1; b2; b3; b4; b5; b6; b7; b8] ->
  Datetime.strptime (date_text a1 a2 a3 a4 a5 a6 a7 a8) = Ok d ->
  Datetime.strptime (date_text b1 b2 b3 b4 b5 b6 b7 b8) = Ok d' ->
  (date_key a1 a2 a3 a4 a5 a6 a7 a8 <= date_key b1 b2 b3 b4 b5 b6 b7 b8)%Z ->
  date_leb d d' = true.
Proof.
  intros Hdigits Hd Hd' Hkey.
  repeat match goal with
         | H : Forall _ (_ :: _) |- _ =>
             let Hc := fresh "Hc" in
             inversion H as [| ? ? Hc ?]; subst; clear H
         end.
  apply iso_strptime in Hd as (Hy & Hm & Hdd); try assumption.
  apply iso_strptime in Hd' as (Hy' & Hm' & Hdd'); try assumption.
  repeat match goal with
         | H : Datetime.is_digit _ = true |- _ => apply digit_bounds in H
         end.
  unfold date_leb. rewrite Hy, Hm, Hdd, Hy', Hm', Hdd'. unfold date_key in Hkey.
  repeat match goal with
         | |- context [(?x <? ?y)%Z] => destruct (Z.ltb_spec x y)
         | |- context [(?x =? ?y)%Z] => destruct (Z.eqb_spec x y)
         | |- context [(?x <=? ?y)%Z] => destruct (Z.leb_spec x y)
         end; cbn [orb andb]; try reflexivity; lia.
Qed.

Lemma iso_timestamp_inv (v : value) :
  iso_timestamp v = true ->
  exists a1 a2 a3 a4 a5 a6 a7 a8 rest,
    v = VStr (String a1 (String a2 (String a3 (String a4 (String "-"
               (String a5 (String a6 (String "-" (String a7 (String a8 rest))))))))))
    /\ Forall (fun c => Datetime.is_digit c = true) [a1; a2; a3; a4; a5; a6; a7; a8]
    /\ match rest with EmptyString => true | String c _ => Ascii.eqb c " " end = true.
Proof.
  destruct v as [| z | s]; try discriminate.
  destruct s as [| a1 [| a2 [| a3 [| a4 [| x [| a5 [| a6 [| y [| a7 [| a8 rest]]]]]]]]]];
    try discriminate.
  cbn [iso_timestamp]. intros H.
  repeat match goal with
         | H : _ && _ = true |- _ =>
             let H' := fresh "H" in apply andb_prop in H as [H H']
         end.
  repeat match goal with
         | H : Ascii.eqb _ "-" = true |- _ => apply Ascii.eqb_eq in H; subst
         end.
  exists a1, a2, a3, a4, a5, a6, a7, a8, rest.
  split; [reflexivity |]. split; [| assumption].
  repeat constructor; assumption.
Qed.

Lemma iso_order_calendar (v1 v2 : value) (d1 d2 : Datetime.date) :
  iso_timestamp v1 = true ->
  iso_timestamp v2 = true ->
  bind (Utils.date_part v1) Datetime.strptime = Ok d1 ->
  bind (Utils.date_part v2) Datetime.strptime = Ok d2 ->
  Store.sql_leb v2 v1 = true ->
  date_leb d2 d1 = true.
Proof.
  intros H1 H2.
  apply iso_timestamp_inv in H1
    as (a1 & a2 & a3 & a4 & a5 & a6 & a7 & a8 & ra & -> & Ha & Hra).
  apply iso_timestamp_inv in H2
    as (b1 & b2 & b3 & b4 & b5 & b6 & b7 & b8 & rb & -> & Hb & Hrb).
  assert (Hall : Forall (fun c => Datetime.is_digit c = true)
                   [b1; b2; b3; b4; b5; b6; b7; b8; a1; a2; a3; a4; a5; a6; a7; a8]).
  { apply (Forall_app _ [b1; b2; b3; b4; b5; b6; b7; b8]). now split. }
  cbn [Utils.date_part bind Store.sql_leb].
  repeat match goal with
         | H : Forall _ (_ :: _) |- _ =>
             let Hc := fresh "Hc" in
             inversion H as [| ? ? Hc ?]; subst; clear H
         | H : Forall _ [] |- _ => clear H
         end.
  rewrite !iso_date_part by assumption.
  intros Hd1 Hd2 Hleb.
  apply (key_date_leb d2 d1 b1 b2 b3 b4 b5 b6 b7 b8 a1 a2 a3 a4 a5 a6 a7 a8);
    try assumption.
  - repeat constructor; assumption.
  - apply (iso_leb_key _ _ _ _ _ _ _ _ _ _ _ _ _ _ _ _ rb ra); [| exact Hleb].
    repeat constructor; assumption.
Qed.

Lemma mapM_ok_in {A B : Type} (f : A -> result B) (xs : list A) (ys : list B) :
  mapM f xs = Ok ys -> Forall (fun x => exists y, f x = Ok y) xs.
Proof.
  revert ys. induction xs as [| x xs IH]; intros ys; simpl; [constructor |].
  destruct (f x) as [y | e | ] eqn:Hx; simpl; try discriminate.
  destruct (mapM f xs) as [rest | e | ]; simpl; try discriminate.
  intros _. constructor; [now exists y | now apply (IH rest)].
Qed.

Lemma pub_date_row_date (r : Store.FeedRow) (dt : string) :
  Utils.pub_date (Store.created_time r) = Ok dt -> exists d, row_date r = Ok d.
Proof.
  unfold Utils.pub_date, row_date.
  destruct (Utils.date_part (Store.created_time r)) as [s | e | ]; simpl;
    try discriminate.
  destruct (Datetime.strptime s) as [d | e | ]; simpl; try discriminate.
  intros _. now exists d.
Qed.

Lemma sorted_calendar (rows : list Store.FeedRow) :
  Sorted newer_or_equal rows ->
  Forall iso_dated rows ->
  Forall (fun r => exists d, row_date r = Ok d) rows ->
  Sorted calendar_newer_or_equal rows.
Proof.
  induction 1 as [| r rows Hsorted IH Hhd]; intros Hiso Hdate; constructor.
  - inversion Hiso; inversion Hdate; subst. now apply IH.
  - inversion Hiso as [| ? ? Hr Hrows]; inversion Hdate as [| ? ? [d Hd] Hdates]; subst.
    destruct Hhd as [| r' rows' Hle]; constructor.
    inversion Hrows as [| ? ? Hr' _]; inversion Hdates as [| ? ? [d' Hd'] _]; subst.
    exists d, d'. split; [exact Hd |]. split; [exact Hd' |].
    exact (iso_order_calendar _ _ d d' Hr Hr' Hd Hd' Hle).
Qed.

Lemma order_iso (rows : list Store.FeedRow) :
  Forall iso_dated rows -> Forall iso_dated (Store.order_by_created_time_desc rows).
Proof.
  intros H. apply Forall_forall. intros r Hr.
  apply (Permutation_in _ (Permutation_sym (order_perm rows))) in Hr.
  revert r Hr. now apply Forall_forall.
Qed.

(** * The calendar: what the code parses and prints, against the calendar told
      independently *)

Section Calendar.

Lemma small_cases (z : Z) :
  (0 <= z <= 9)%Z ->
  z = 0%Z \/ z = 1%Z \/ z = 2%Z \/ z = 3%Z \/ z = 4%Z \/ z = 5%Z \/ z = 6%Z
  \/ z = 7%Z \/ z = 8%Z \/ z = 9%Z.
Proof. lia. Qed.

Ltac each_digit H :=
  apply small_cases in H;
  repeat (destruct H as [H | H]); subst.

Lemma digit_char_digit (z : Z) :
  (0 <= z <= 9)%Z ->
  Datetime.is_digit (digit_char z) = true
  /\ Datetime.digit (digit_char z) = z
  /\ Ascii.eqb (digit_char z) " " = false.
Proof. intros H. each_digit H; repeat split. Qed.

Lemma digits_4 (n : Z) :
  digits 4 n
  = String (digit_char (n / 10 / 10 / 10 mod 10))
      (String (digit_char (n / 10 / 10 mod 10))
         (String (digit_char (n / 10 mod 10))
            (String (digit_char (n mod 10)) ""))).
Proof. reflexivity. Qed.

Lemma digits_2 (n : Z) :
  digits 2 n
  = String (digit_char (n / 10 mod 10)) (String (digit_char (n mod 10)) "").
Proof. reflexivity. Qed.

Lemma digits_1 (n : Z) : digits 1 n = String (digit_char (n mod 10)) "".
Proof. reflexivity. Qed.

Lemma mod10 (n : Z) : (0 <= n mod 10 <= 9)%Z.
Proof. pose proof (Z.mod_pos_bound n 10). lia. Qed.

Lemma match_year_digits (y : Z) (s : string) :
  (0 <= y <= 9999)%Z ->
  Datetime.match_year (digits 4 y ++ s) = Some (y, s).
Proof.
  intros Hy. rewrite digits_4. cbn [append Datetime.match_year].
  destruct (digit_char_digit _ (mod10 (y / 10 / 10 / 10))) as (-> & -> & _).
  destruct (digit_char_digit _ (mod10 (y / 10 / 10))) as (-> & -> & _).
  destruct (digit_char_digit _ (mod10 (y / 10))) as (-> & -> & _).
  destruct (digit_char_digit _ (mod10 y)) as (-> & -> & _).
  cbn [andb]. f_equal. f_equal.
  Z.div_mod_to_equations. lia.
Qed.

Lemma month_cases (m : Z) :
  (1 <= m <= 12)%Z ->
  m = 1%Z \/ m = 2%Z \/ m = 3%Z \/ m = 4%Z \/ m = 5%Z \/ m = 6%Z \/ m = 7%Z
  \/ m = 8%Z \/ m = 9%Z \/ m = 10%Z \/ m = 11%Z \/ m = 12%Z.
Proof. lia. Qed.

Lemma day_cases (d : Z) :
  (1 <= d <= 31)%Z ->
  d = 1%Z \/ d = 2%Z \/ d = 3%Z \/ d = 4%Z \/ d = 5%Z \/ d = 6%Z \/ d = 7%Z
  \/ d = 8%Z \/ d = 9%Z \/ d = 10%Z \/ d = 11%Z \/ d = 12%Z \/ d = 13%Z
  \/ d = 14%Z \/ d = 15%Z \/ d = 16%Z \/ d = 17%Z \/ d = 18%Z \/ d = 19%Z
  \/ d = 20%Z \/ d = 21%Z \/ d = 22%Z \/ d = 23%Z \/ d = 24%Z \/ d = 25%Z
  \/ d = 26%Z \/ d = 27%Z \/ d = 28%Z \/ d = 29%Z \/ d = 30%Z \/ d = 31%Z.
Proof. lia. Qed.

Lemma match_month_written (m : Z) (padded : bool) (s : string) :
  (1 <= m <= 12)%Z ->
  Datetime.match_month_dash (written padded m ++ "-" ++ s) = Some (m, s).
Proof.
  intros Hm. apply month_cases in Hm.
  repeat (destruct Hm as [Hm | Hm]); subst; destruct padded; destruct s; reflexivity.
Qed.

Lemma match_day_written (d : Z) (padded : bool) :
  (1 <= d <= 31)%Z ->
  Datetime.match_day (written padded d) = Some (d, "").
Proof.
  intros Hd. apply day_cases in Hd.
  repeat (destruct Hd as [Hd | Hd]); subst; destruct padded; reflexivity.
Qed.

Lemma leap_year_is_leap (y : Z) : leap_year y = Datetime.is_leap y.
Proof.
  unfold leap_year, Datetime.is_leap.
  destruct (Z.eqb_spec (y mod 400) 0) as [H400 | H400];
    destruct (Z.eqb_spec (y mod 100) 0) as [H100 | H100];
    destruct (Z.eqb_spec (y mod 4) 0) as [H4 | H4]; cbn; try reflexivity;
    exfalso; Z.div_mod_to_equations; lia.
Qed.

Lemma month_days_in_month (y m : Z) :
  (1 <= m <= 12)%Z -> month_days y m = Datetime.days_in_month y m.
Proof.
  intros Hm. apply month_cases in Hm. unfold month_days.
  repeat (destruct Hm as [Hm | Hm]); subst; cbn - [leap_year Datetime.is_leap];
    try reflexivity.
  now rewrite leap_year_is_leap.
Qed.

Lemma month_days_bound (y m : Z) : (month_days y m <= 31)%Z.
Proof.
  unfold month_days.
  destruct (m =? 2)%Z; [destruct (leap_year y); lia |].
  destruct ((m =? 4) || (m =? 6) || (m =? 9) || (m =? 11))%Z; lia.
Qed.

Lemma calendar_day_bounds (y m d : Z) :
  calendar_day y m d = true ->
  (1 <= y <= 9999)%Z /\ (1 <= m <= 12)%Z /\ (1 <= d <= month_days y m)%Z.
Proof.
  unfold calendar_day. intros H.
  repeat (apply andb_prop in H; destruct H as [H ?]).
  repeat match goal with
         | H : (_ <=? _)%Z = true |- _ => apply Z.leb_le in H
         end.
  lia.
Qed.

(** [strptime] reads a written date as the day it writes. *)
Lemma strptime_written (y m d : Z) (month_padded day_padded : bool) :
  calendar_day y m d = true ->
  Datetime.strptime (written_date y m d month_padded day_padded)
  = Ok (Datetime.mkDate y m d).
Proof.
  intros H. destruct (calendar_day_bounds y m d H) as (Hy & Hm & Hd).
  pose proof (month_days_bound y m) as Hb.
  unfold Datetime.strptime, written_date.
  rewrite match_year_digits by lia.
  change ("-" ++ written month_padded m ++ "-" ++ written day_padded d)
    with (String "-" (written month_padded m ++ "-" ++ written day_padded d)).
  cbv beta iota.
  rewrite match_month_written by exact Hm.
  rewrite match_day_written by lia.
  rewrite <- month_days_in_month by exact Hm.
  destruct (Z.leb_spec 1 y); [| lia].
  destruct (Z.leb_spec d (month_days y m)); [| lia].
  reflexivity.
Qed.

Lemma digits_no_blank (k : nat) (n : Z) : Text.has_char " " (digits k n) = false.
Proof.
  revert n. induction k as [| k IH]; intros n; [reflexivity |].
  cbn [digits]. rewrite has_char_app, IH. cbn [Text.has_char orb].
  destruct (digit_char_digit _ (mod10 n)) as (_ & _ & ->). reflexivity.
Qed.

Lemma written_date_no_blank (y m d : Z) (month_padded day_padded : bool) :
  Text.has_char " " (written_date y m d month_padded day_padded) = false.
Proof.
  unfold written_date, written. rewrite !has_char_app.
  destruct (month_padded || (10 <=? m)%Z), (day_padded || (10 <=? d)%Z);
    now rewrite !digits_no_blank.
Qed.

(** The date part of a timestamp that starts with a written date. *)
Lemma date_part_written (y m d : Z) (month_padded day_padded : bool) (rest : string) :
  time_of_day rest = true ->
  Text.before_first " " (written_date y m d month_padded day_padded ++ rest)
  = written_date y m d month_padded day_padded.
Proof.
  intros Hrest. destruct rest as [| c rest].
  - rewrite append_nil_r. apply before_first_none, written_date_no_blank.
  - cbn [time_of_day] in Hrest. apply Ascii.eqb_eq in Hrest. subst c.
    apply before_first_app, written_date_no_blank.
Qed.

Lemma padded_year_checked :
  forallb (fun a =>
             forallb (fun b =>
                        String.eqb
                          (Text.zero_padded 4 (Z.of_nat a * 100 + Z.of_nat b))
                          (digits 4 (Z.of_nat a * 100 + Z.of_nat b)))
                     (seq 0 100))
          (seq 0 100) = true.
Proof. vm_compute. reflexivity. Qed.

Lemma hundreds (y : Z) :
  (0 <= y <= 9999)%Z ->
  In (Z.to_nat (y / 100)) (seq 0 100) /\ In (Z.to_nat (y mod 100)) (seq 0 100)
  /\ (Z.of_nat (Z.to_nat (y / 100)) * 100 + Z.of_nat (Z.to_nat (y mod 100)))%Z = y.
Proof.
  intros Hy.
  assert (H1 : (0 <= y / 100 < 100)%Z) by (Z.div_mod_to_equations; lia).
  assert (H2 : (0 <= y mod 100 < 100)%Z) by (Z.div_mod_to_equations; lia).
  split; [apply in_seq; lia |]. split; [apply in_seq; lia |].
  rewrite !Z2Nat.id by lia. Z.div_mod_to_equations. lia.
Qed.

Lemma padded_year (y : Z) :
  (0 <= y <= 9999)%Z -> Text.zero_padded 4 y = digits 4 y.
Proof.
  intros Hy. destruct (hundreds y Hy) as (Ha & Hb & Heq).
  pose proof padded_year_checked as H.
  rewrite forallb_forall in H. specialize (H _ Ha).
  rewrite forallb_forall in H. specialize (H _ Hb).
  rewrite Heq in H. now apply String.eqb_eq.
Qed.

Lemma padded_day (d : Z) :
  (1 <= d <= 31)%Z -> Text.zero_padded 2 d = digits 2 d.
Proof.
  intros Hd. apply day_cases in Hd.
  repeat (destruct Hd as [Hd | Hd]); subst; reflexivity.
Qed.

Lemma month_name_abbreviation (m : Z) :
  (1 <= m <= 12)%Z -> Datetime.month_name m = month_abbreviation m.
Proof.
  intros Hm. apply month_cases in Hm.
  repeat (destruct Hm as [Hm | Hm]); subst; reflexivity.
Qed.

Lemma weekday_checked :
  forallb (fun a =>
             forallb (fun b =>
                        forallb (fun m =>
                                   let y := (Z.of_nat a * 100 + Z.of_nat b)%Z in
                                   (y =? 0)%Z ||
                                   ((zeller y (Z.of_nat m) 1 + 5) mod 7
                                    =? Datetime.weekday
                                         (Datetime.mkDate y (Z.of_nat m) 1))%Z)
                                (seq 1 12))
                     (seq 0 100))
          (seq 0 100) = true.
Proof. vm_compute. reflexivity. Qed.

Lemma weekday_first (y m : Z) :
  (1 <= y <= 9999)%Z -> (1 <= m <= 12)%Z ->
  ((zeller y m 1 + 5) mod 7)%Z = Datetime.weekday (Datetime.mkDate y m 1).
Proof.
  intros Hy Hm. destruct (hundreds y ltac:(lia)) as (Ha & Hb & Heq).
  pose proof weekday_checked as H.
  rewrite forallb_forall in H. specialize (H _ Ha).
  rewrite forallb_forall in H. specialize (H _ Hb).
  rewrite forallb_forall in H. specialize (H (Z.to_nat m)).
  cbv zeta in H. rewrite Heq, Z2Nat.id in H by lia.
  assert (Hin : In (Z.to_nat m) (seq 1 12)) by (apply in_seq; lia).
  specialize (H Hin). apply orb_prop in H as [H | H].
  - apply Z.eqb_eq in H. lia.
  - now apply Z.eqb_eq.
Qed.

Lemma zeller_shift (y m d : Z) :
  zeller y m d = ((zeller y m 1 + (d - 1)) mod 7)%Z.
Proof.
  unfold zeller. cbv zeta.
  set (m' := if (m <? 3)%Z then (m + 12)%Z else m).
  set (y' := if (m <? 3)%Z then (y - 1)%Z else y).
  set (K := (13 * (m' + 1) / 5 + y' mod 100 + y' mod 100 / 4 + y' / 100 / 4
             + 5 * (y' / 100))%Z).
  replace (d + 13 * (m' + 1) / 5 + y' mod 100 + y' mod 100 / 4 + y' / 100 / 4
           + 5 * (y' / 100))%Z with (d + K)%Z by (unfold K; ring).
  replace (1 + 13 * (m' + 1) / 5 + y' mod 100 + y' mod 100 / 4 + y' / 100 / 4
           + 5 * (y' / 100))%Z with (1 + K)%Z by (unfold K; ring).
  clearbody K. clear. Z.div_mod_to_equations. lia.
Qed.

Lemma weekday_shift (y m d : Z) :
  Datetime.weekday (Datetime.mkDate y m d)
  = ((Datetime.weekday (Datetime.mkDate y m 1) + (d - 1)) mod 7)%Z.
Proof.
  unfold Datetime.weekday, Datetime.toordinal.
  cbn [Datetime.year Datetime.month Datetime.day].
  set (B := (Datetime.days_before_year y + Datetime.days_before_month y m)%Z).
  clearbody B. Z.div_mod_to_equations. lia.
Qed.

Lemma weekday_name (h : Z) :
  (0 <= h < 7)%Z ->
  Datetime.day_name ((h + 5) mod 7) = weekday_abbreviation h.
Proof.
  intros H.
  assert (Hc : h = 0%Z \/ h = 1%Z \/ h = 2%Z \/ h = 3%Z \/ h = 4%Z \/ h = 5%Z
               \/ h = 6%Z) by lia.
  repeat (destruct Hc as [Hc | Hc]); subst; reflexivity.
Qed.

Lemma zeller_range (y m d : Z) : (0 <= zeller y m d < 7)%Z.
Proof. unfold zeller. cbv zeta. apply Z.mod_pos_bound. lia. Qed.

(** The day of the week the code prints is the day Zeller's congruence
    gives. *)
Lemma day_name_zeller (y m d : Z) :
  (1 <= y <= 9999)%Z -> (1 <= m <= 12)%Z ->
  Datetime.day_name (Datetime.weekday (Datetime.mkDate y m d))
  = weekday_abbreviation (zeller y m d).
Proof.
  intros Hy Hm. rewrite <- weekday_name by apply zeller_range. f_equal.
  rewrite weekday_shift, <- (weekday_first y m Hy Hm), (zeller_shift y m d).
  pose proof (zeller_range y m 1) as Hz.
  generalize dependent (zeller y m 1). intros z Hz.
  Z.div_mod_to_equations. lia.
Qed.

(** What [format_datetime] prints for a day of the calendar. *)
Lemma format_datetime_calendar (y m d : Z) :
  calendar_day y m d = true ->
  Datetime.format_datetime (Datetime.mkDate y m d) = rfc822_date y m d.
Proof.
  intros H. destruct (calendar_day_bounds y m d H) as (Hy & Hm & Hd).
  pose proof (month_days_bound y m) as Hb.
  unfold Datetime.format_datetime, rfc822_date.
  cbn [Datetime.year Datetime.month Datetime.day].
  rewrite day_name_zeller by assumption.
  rewrite padded_day by lia.
  rewrite month_name_abbreviation by exact Hm.
  rewrite padded_year by lia.
  reflexivity.
Qed.

(** The [pubDate] of a timestamp that starts with a written date. *)
Lemma pub_date_written (y m d : Z) (month_padded day_padded : bool) (rest : string) :
  calendar_day y m d = true ->
  time_of_day rest = true ->
  Utils.pub_date (VStr (written_date y m d month_padded day_padded ++ rest))
  = Ok (rfc822_date y m d).
Proof.
  intros Hday Hrest. unfold Utils.pub_date, Utils.date_part.
  rewrite date_part_written by exact Hrest. cbn [bind].
  rewrite strptime_written by exact Hday. cbn [bind].
  now rewrite format_datetime_calendar.
Qed.

End Calendar.

(** * Watch mode *)

Section Lookup.

Lemma find_slug_absent (slug : string) (rows : list Row) :
  forallb (fun r =>
             match Store.cell "slug" r with
             | VNone => true
             | VInt _ => false
             | VStr s => negb (String.eqb s slug)
             end) rows = true ->
  find (fun r => Store.sql_eq (Store.cell "slug" r) (VStr slug)) rows = None.
Proof.
  induction rows as [| r rows IH]; [reflexivity |].
  cbn [forallb find]. intros H. apply andb_prop in H as [Hr Hrows].
  rewrite (IH Hrows).
  destruct (Store.cell "slug" r) as [| z | s]; cbn [Store.sql_eq value_eqb];
    try reflexivity; try discriminate Hr.
  apply negb_true_iff in Hr. now rewrite Hr.
Qed.

Lemma fetchone_no_row (db : Store.Database) (t : Store.Table) (table slug : string) :
  Store.bare_name table = true ->
  Store.quotable slug = true ->
  Store.find_table db table = Ok t ->
  Store.has_column t "slug" = true ->
  slug_absent slug t = true ->
  Store.fetchone_by_slug db table slug = Ok None.
Proof.
  intros Htable Hslug Ht Hcol Habsent.
  unfold Store.fetchone_by_slug, Store.require_column.
  rewrite Htable, Hslug, Ht. cbn [andb bind]. rewrite Hcol. cbn [bind].
  now rewrite (find_slug_absent slug _ Habsent).
Qed.

End Lookup.

(** C9, as stated, fails when the table of the requested pair is missing
    from the store: the lookup raises [OperationalError], which neither
    file catches, and the diagnostic of [die_with_honor] is not printed. *)
Lemma watch_buffer_table_not_found :
  Store.find_table Samples.notes_db "weblog" = Raise OperationalError
  /\ Prev.watch_buffer (Store.fetchone_by_slug Samples.notes_db "weblog" "hello")
       "" "weblog" "hello" ["<p>hi</p>"] empty_world
     = (Raise OperationalError, empty_world)
  /\ Main.watch_buffer Samples.templates (Ok "")
       (Store.fetchone_by_slug Samples.notes_db "weblog" "hello")
       "weblog" "hello" ["<p>hi</p>"] empty_world
     = (Raise OperationalError, empty_world).
Proof. repeat split. Qed.

(** C9, amended.  In watch mode, when the table is in the store with a
    [slug] column and no row of it holds the requested slug (the table a
    bare name and the slug free of quote characters, since the lookup pastes
    both into its statement), both files print the one diagnostic
    [Slug '<slug>' not found in table '<table>'] to the error stream and
    exit with status 1; the watch loop is not entered (no announcement, no
    scratch file opened, the change events are not looked at) and no output
    file is written. *)
Theorem watch_buffer_row_not_found
  (db : Store.Database) (t : Store.Table) (css table slug : string)
  (events : list string) (tmpls : Main.Assets) (global_css : result string)
  (w : World) :
  Store.bare_name table = true ->
  Store.quotable slug = true ->
  Store.find_table db table = Ok t ->
  Store.has_column t "slug" = true ->
  slug_absent slug t = true ->
  let msg := "Slug '" ++ slug ++ "' not found in table '" ++ table ++ "'" in
  let w' := mkWorld (writes w) (stdout w) (stderr w ++ [msg])%list (opened w) in
  Prev.watch_buffer (Store.fetchone_by_slug db table slug) css table slug events w
    = (Raise (SystemExit 1), w')
  /\ Main.watch_buffer tmpls global_css (Store.fetchone_by_slug db table slug)
       table slug events w
    = (Raise (SystemExit 1), w').
Proof.
  intros Htable Hslug Ht Hcol Habsent msg w'.
  rewrite (fetchone_no_row db t table slug Htable Hslug Ht Hcol Habsent).
  split; reflexivity.
Qed.

Lemma watch_buffer_row_not_found_witness :
  Prev.watch_buffer (Store.fetchone_by_slug Samples.notes_db "notes" "missing")
    "" "notes" "missing" ["<p>hi</p>"] empty_world
  = (Raise (SystemExit 1),
     mkWorld [] [] ["Slug 'missing' not found in table 'notes'"] [])
  /\ Main.watch_buffer Samples.templates (Ok "")
       (Store.fetchone_by_slug Samples.notes_db "notes" "missing")
       "notes" "missing" ["<p>hi</p>"] empty_world
     = (Raise (SystemExit 1),
        mkWorld [] [] ["Slug 'missing' not found in table 'notes'"] []).
Proof.
  apply (watch_buffer_row_not_found Samples.notes_db
           (Store.mkTable ["id"; "slug"; "title"; "created_time"; "html"]
              [[VInt 1; VStr "hello"; VStr "Hello"; VStr "2024-01-01 00:00:00";
                VStr ""]])
           "" "notes" "missing" ["<p>hi</p>"] Samples.templates (Ok "") empty_world);
    reflexivity.
Defined.

(** * The feed: one build, links and dates *)

(** C2, as stated, fails twice.  On a table without rows the loop of
    [prev.py] never binds [rss_content] and the write raises, where a build
    after the loop writes a feed without items; and on a table with one row
    the feeds of the two files are different texts. *)
Lemma generate_rss_loop_differs :
  Prev.generate_rss Samples.empty_weblog_db "weblog" empty_world
    = (Raise (UnboundLocalError "rss_content"), empty_world)
  /\ fst (generate_rss_build_once Samples.empty_weblog_db "weblog" empty_world)
     = Ok tt
  /\ writes (snd (Prev.generate_rss Samples.one_entry_db "weblog" empty_world))
     <> writes (snd (Main.generate_rss Samples.one_entry_db "weblog" empty_world)).
Proof.
  split; [reflexivity |]. split; [reflexivity |].
  vm_compute. intros H. discriminate H.
Qed.

(** C2, amended.  When the feed query of [prev.py] gives at least one row
    (or fails), rebuilding the document in every turn of the loop does
    exactly what building it once after the loop does, exceptions and
    diagnostics included.  The two files do not write the same text, but
    for a table other than [authors] they write the same entries (titles,
    addresses, dates and bodies, in the same order) into the same elements:
    the two documents are one function of the entries, applied to the two
    layouts, which hold nothing but the white space between the elements.
    For [authors] the entries of [main.py] are made of the [name] column,
    where [prev.py] always reads [title]. *)
Theorem generate_rss_loop_builds_once (db : Store.Database) (table : string)
  (w : World) :
  (Store.select_feed db table "title" <> Ok [] ->
   Prev.generate_rss db table w = generate_rss_build_once db table w)
  /\ (forall w_prev,
        Prev.generate_rss db table w = (Ok tt, w_prev) ->
        exists rows entries,
          Store.select_feed db table "title" = Ok rows
          /\ mapM (feed_entry table) rows = Ok entries
          /\ writes w_prev
             = (writes w ++
                [(["dist"; table; "rss"], feed_text prev_layout table entries)])%list
          /\ (table <> "authors" ->
              exists w_main,
                Main.generate_rss db table w = (Ok tt, w_main)
                /\ writes w_main
                   = (writes w ++
                      [(["dist"; table; "rss"],
                        feed_text main_layout table entries)])%list))
  /\ (table = "authors" ->
      forall w_main,
        Main.generate_rss db table w = (Ok tt, w_main) ->
        exists rows entries,
          Store.select_feed db table "name" = Ok rows
          /\ mapM (feed_entry table) rows = Ok entries
          /\ writes w_main
             = (writes w ++
                [(["dist"; table; "rss"], feed_text main_layout table entries)])%list).
Proof.
  split; [| split].
  - intros Hrows. rewrite prev_generate_rss_eq.
    unfold generate_rss_build_once, bindR, lift.
    destruct (Store.select_feed db table "title") as [rows | e | ]; try reflexivity.
    destruct (mapM (Prev.item_xml table) rows) as [items | e | ]; try reflexivity.
    destruct rows; [congruence | reflexivity].
  - intros w_prev. rewrite prev_generate_rss_eq.
    destruct (Store.select_feed db table "title") as [rows | e | ] eqn:Hsel;
      try discriminate.
    rewrite prev_items_entries.
    destruct (mapM (feed_entry table) rows) as [entries | e | ] eqn:Hentries;
      cbn [bind]; try discriminate.
    destruct rows as [| r rows]; [discriminate |].
    destruct (write_file_writes [Prev.DIST_DIR; table; "rss"]
                (Prev.rss_document table
                   (Text.join (map (render_entry prev_layout) entries))) w)
      as (out & ->).
    intros [= <-]. exists (r :: rows), entries.
    split; [reflexivity |]. split; [exact Hentries |]. split.
    + cbn [writes]. now rewrite prev_rss_document_eq.
    + intros Htable. rewrite main_generate_rss_eq. unfold Main.title_col.
      destruct (String.eqb_spec table "authors") as [-> | _]; [congruence |].
      rewrite Hsel, main_items_entries, Hentries. cbn [bind].
      destruct (write_file_writes [Main.DIST_DIR; table; "rss"]
                  (Main.rss_document table
                     (Text.join (map (render_entry main_layout) entries))) w)
        as (out' & ->).
      eexists. split; [reflexivity |].
      cbn [writes]. now rewrite main_rss_document_eq.
  - intros -> w_main. rewrite main_generate_rss_eq.
    change (Main.title_col "authors") with "name".
    destruct (Store.select_feed db "authors" "name") as [rows | e | ];
      try discriminate.
    rewrite main_items_entries.
    destruct (mapM (feed_entry "authors") rows) as [entries | e | ] eqn:Hentries;
      cbn [bind]; try discriminate.
    destruct (write_file_writes [Main.DIST_DIR; "authors"; "rss"]
                (Main.rss_document "authors"
                   (Text.join (map (render_entry main_layout) entries))) w)
      as (out & ->).
    intros [= <-]. exists rows, entries.
    split; [reflexivity |]. split; [exact Hentries |].
    cbn [writes]. now rewrite main_rss_document_eq.
Qed.

Lemma generate_rss_loop_builds_once_witness :
  Store.select_feed Samples.listing_db "weblog" "title" <> Ok []
  /\ Prev.generate_rss Samples.listing_db "weblog" empty_world
     = generate_rss_build_once Samples.listing_db "weblog" empty_world
  /\ exists w_prev w_main entries,
       map entry_title entries = ["C"; "B"; "A"]
       /\ Prev.generate_rss Samples.listing_db "weblog" empty_world = (Ok tt, w_prev)
       /\ Main.generate_rss Samples.listing_db "weblog" empty_world = (Ok tt, w_main)
       /\ writes w_prev
          = [(["dist"; "weblog"; "rss"], feed_text prev_layout "weblog" entries)]
       /\ writes w_main
          = [(["dist"; "weblog"; "rss"], feed_text main_layout "weblog" entries)].
Proof.
  assert (H : Store.select_feed Samples.listing_db "weblog" "title" <> Ok [])
    by (vm_compute; discriminate).
  destruct (generate_rss_loop_builds_once Samples.listing_db "weblog" empty_world)
    as (Honce & Hboth & _).
  split; [exact H |]. split; [exact (Honce H) |].
  destruct (Prev.generate_rss Samples.listing_db "weblog" empty_world) as [res w_prev]
    eqn:Hrun.
  assert (Hres : res = Ok tt).
  { apply (f_equal fst) in Hrun. vm_compute in Hrun. now symmetry. }
  subst res.
  destruct (Hboth w_prev eq_refl) as (rows & entries & Hsel & Hentries & Hw & Hmain).
  destruct (Hmain ltac:(discriminate)) as (w_main & Hrun_main & Hw_main).
  exists w_prev, w_main, entries.
  split; [| split; [reflexivity | split; [exact Hrun_main | split; assumption]]].
  vm_compute in Hsel. injection Hsel as <-.
  vm_compute in Hentries. injection Hentries as <-. reflexivity.
Defined.


(** * The feed: links and dates *)

(** C7.  For a feed row whose [created_time] starts with a written day of
    the calendar (four digits for the year, the month and the day with two
    digits or, below ten, with one), followed by nothing or by a blank and
    whatever else, both files emit an item whose [guid] and [link] are the
    base URL, the table and the slug joined by slashes, nothing after the
    slug, and whose [pubDate] is that day in RFC 822 form at midnight UTC:
    the day of the week, the day with two digits, the month by name and the
    year with four digits.  What follows the date in the timestamp has no
    influence on the item. *)
Theorem feed_item_link_and_pub_date (table : string) (r : Store.FeedRow)
  (y m d : Z) (month_padded day_padded : bool) (rest : string) :
  calendar_day y m d = true ->
  time_of_day rest = true ->
  Store.created_time r
  = VStr (written_date y m d month_padded day_padded ++ rest) ->
  Prev.item_xml table r
    = Ok (feed_item prev_layout (escape_chars (py_str (Store.title r)))
            ("https://danielfalbo.com" ++ "/" ++ table ++ "/" ++ py_str (Store.slug r))
            (rfc822_date y m d) (py_str (Store.html r)))
  /\ Main.item_xml table r
    = Ok (feed_item main_layout (escape_chars (py_str (Store.title r)))
            ("https://danielfalbo.com" ++ "/" ++ table ++ "/" ++ py_str (Store.slug r))
            (rfc822_date y m d) (py_str (Store.html r))).
Proof.
  intros Hday Hrest Hs.
  rewrite prev_item_xml_eq, main_item_xml_eq, Hs.
  rewrite (pub_date_written y m d month_padded day_padded rest Hday Hrest).
  split; reflexivity.
Qed.

Lemma feed_item_link_and_pub_date_witness :
  Prev.item_xml "weblog"
    (Store.mkFeedRow (VStr "a") (VStr "A") (VStr "2023-9-05 12:34:56")
       (VStr "<p>x</p>"))
  = Ok (feed_item prev_layout "A" "https://danielfalbo.com/weblog/a"
          "Tue, 05 Sep 2023 00:00:00 +0000" "<p>x</p>")
  /\ Main.item_xml "weblog"
       (Store.mkFeedRow (VStr "a") (VStr "A") (VStr "2023-9-05 12:34:56")
          (VStr "<p>x</p>"))
     = Ok (feed_item main_layout "A" "https://danielfalbo.com/weblog/a"
             "Tue, 05 Sep 2023 00:00:00 +0000" "<p>x</p>").
Proof.
  exact (feed_item_link_and_pub_date "weblog"
           (Store.mkFeedRow (VStr "a") (VStr "A") (VStr "2023-9-05 12:34:56")
              (VStr "<p>x</p>"))
           2023 9 5 false true " 12:34:56" eq_refl eq_refl eq_refl).
Defined.

(** * Template values *)




(** What [gen_tmpl_values] of [prev.py] returns, entry by entry. *)
Lemma prev_values_frame (config : Utils.Relationships)
  (db : Store.Database) (table : string) (vs : Values) :
  Prev.gen_tmpl_values_with config db table = Ok vs ->
  exists rows,
    Store.select_all db table = Ok rows
    /\ NoDup (PyDict.keys vs)
    /\ forall slug row,
         values_get slug vs = Some row ->
         exists r,
           last_with_slug slug rows = Some r
           /\ (forall k, k <> "html" -> k <> "context" ->
                         row_get k row = row_get k r)
           /\ row_get "html" row
              = match Utils.get_or_none "html" r,
                      Utils.get_or_none "created_time" r with
                | VStr s, (VInt _ | VStr _) as created_time =>
                    Some (VStr (s ++ Prev.dateage_js created_time))
                | _, _ => row_get "html" r
                end.
Proof.
  intros Hgen.
  destruct (Prev.base_values db table) as [vs0 | e | ] eqn:Hbase;
    try (unfold Prev.gen_tmpl_values_with in Hgen; rewrite Hbase in Hgen;
         discriminate).
  destruct (prev_base_values_spec db table vs0 Hbase)
    as (rows & Hrows & Hnd & Hctx & Hrow0).
  exists rows. split; [exact Hrows |].
  assert (Hstep : forall slug row0,
             values_get slug vs0 = Some row0 ->
             exists r, last_with_slug slug rows = Some r
               /\ (forall k, k <> "html" -> k <> "context" ->
                             row_get k row0 = row_get k r)
               /\ row_get "html" row0
                  = match Utils.get_or_none "html" r,
                          Utils.get_or_none "created_time" r with
                    | VStr s, (VInt _ | VStr _) as created_time =>
                        Some (VStr (s ++ Prev.dateage_js created_time))
                    | _, _ => row_get "html" r
                    end).
  { intros slug row0 H0. destruct (Hrow0 _ _ H0) as (r & Hr & Hd).
    exists r. split; [exact Hr |].
    destruct (prev_dated_frame _ _ Hd) as [Hframe Hhtml].
    unfold initial_values in *. split.
    - intros k Hk1 Hk2. rewrite Hframe by exact Hk1.
      apply row_get_set_other. congruence.
    - rewrite Hhtml. unfold Utils.get_or_none.
      rewrite !row_get_set_other by congruence. reflexivity. }
  rewrite (prev_gen_tmpl_values_eq db table config vs0 Hbase) in Hgen.
  destruct (PyDict.get String.eqb table config) as [decls |].
  - destruct (mapM (join_of db table) decls) as [joins | e | ]; cbn [bind] in Hgen;
      try discriminate.
    injection Hgen as <-. split.
    + unfold PyDict.keys in *. now rewrite map_map.
    + intros slug row.
      rewrite (values_get_map
                 (fun s r => row_set "context"
                               (VStr (context_links Prev.link decls joins s)) r)).
      destruct (values_get slug vs0) as [row0 |] eqn:H0; simpl; [| discriminate].
      intros [= <-]. destruct (Hstep _ _ H0) as (r & Hr & Hk & Hh).
      exists r. split; [exact Hr |]. split.
      * intros k Hk1 Hk2. rewrite row_get_set_other by congruence. now apply Hk.
      * now rewrite row_get_set_other by congruence.
  - injection Hgen as <-. split; [exact Hnd | exact Hstep].
Qed.

(** [gen_tmpl_values] of [prev.py] leaves the columns alone.  No slug is a
    key twice; the row under a slug is the row stored last under it, where
    every key other than [html] and [context] has the stored value, and
    [html] is the stored body followed by the date-age script when body and
    creation time are both there, the stored value otherwise. *)
Theorem prev_gen_tmpl_values_frame (config : Utils.Relationships)
  (db : Store.Database) (table : string) (vs : Values) :
  Prev.gen_tmpl_values_with config db table = Ok vs ->
  exists rows,
    Store.select_all db table = Ok rows
    /\ NoDup (PyDict.keys vs)
    /\ forall slug row,
         values_get slug vs = Some row ->
         exists r,
           last_with_slug slug rows = Some r
           /\ (forall k, k <> "html" -> k <> "context" ->
                         row_get k row = row_get k r)
           /\ row_get "html" row
              = match Utils.get_or_none "html" r,
                      Utils.get_or_none "created_time" r with
                | VStr s, (VInt _ | VStr _) as created_time =>
                    Some (VStr (s ++ Prev.dateage_js created_time))
                | _, _ => row_get "html" r
                end.
Proof. exact (prev_values_frame config db table vs). Qed.

Lemma prev_gen_tmpl_values_frame_witness :
  exists vs rows,
    Prev.gen_tmpl_values Samples.library_db "authors" = Ok vs
    /\ Store.select_all Samples.library_db "authors" = Ok rows
    /\ NoDup (PyDict.keys vs).
Proof.
  destruct (Prev.gen_tmpl_values Samples.library_db "authors") as [vs | e | ] eqn:Hgen;
    [| vm_compute in Hgen; discriminate | vm_compute in Hgen; discriminate].
  destruct (prev_gen_tmpl_values_frame Prev.RELATIONSHIPS Samples.library_db
              "authors" vs Hgen) as (rows & Hrows & Hnd & _).
  exists vs, rows. split; [reflexivity |]. split; [exact Hrows | exact Hnd].
Defined.

(** * Sections *)



(** [generate_section] of [prev.py] stops at the first entry whose page
    cannot be built: the pages of the entries before it are written, the
    exception of the builder is raised, and neither a later page nor the
    index is written. *)
Theorem prev_generate_section_stops_at_failure (config : Utils.Relationships)
  (db : Store.Database) (css table : string) (builder : Prev.Builder)
  (before after : Values) (entry : value * Row) (pages : list string) (e : exn)
  (w : World) :
  Prev.gen_tmpl_values_with config db table = Ok (before ++ entry :: after)%list ->
  mapM (fun e => builder css (snd e)) before = Ok pages ->
  builder css (snd entry) = Raise e ->
  exists w',
    Prev.generate_section_with config db css table builder w = (Raise e, w')
    /\ wrote w w' (entry_writes table before pages).
Proof.
  intros Hgen Hpages Hfail. unfold Prev.generate_section_with.
  unfold bindR at 1, lift. rewrite Hgen.
  unfold bindR at 1.
  destruct (prev_section_loop_stops css table builder before after entry pages e
              Hpages Hfail "" w) as (w1 & -> & Hw1).
  exists w1. split; [reflexivity | exact Hw1].
Qed.

Lemma prev_generate_section_stops_at_failure_witness :
  exists w',
    Prev.generate_section Samples.untitled_db "" "weblog" Prev.entry_page empty_world
    = (Raise TypeError, w')
    /\ map fst (writes w') = [["dist"; "weblog"; "a.html"]].
Proof.
  set (values := match Prev.gen_tmpl_values Samples.untitled_db "weblog" with
                 | Ok v => v
                 | _ => []
                 end).
  set (pages := match mapM (fun e => Prev.entry_page "" (snd e)) (firstn 1 values) with
                | Ok p => p
                | _ => []
                end).
  destruct (prev_generate_section_stops_at_failure Prev.RELATIONSHIPS
              Samples.untitled_db "" "weblog" Prev.entry_page
              (firstn 1 values) (skipn 2 values) (nth 1 values (VNone, []))
              pages TypeError empty_world) as (w' & Hrun & Hw).
  - vm_compute. reflexivity.
  - vm_compute. reflexivity.
  - vm_compute. reflexivity.
  - exists w'. split; [exact Hrun |].
    destruct Hw as (Hw & _). rewrite Hw. vm_compute. reflexivity.
Defined.



(** * The feed: order, failures, escaping *)

(** When the feed query gives no row, [generate_rss] of [prev.py] raises
    [UnboundLocalError] for [rss_content] and leaves the world as it was,
    while [generate_rss] of [main.py] writes, for a table other than
    [authors], a feed without items. *)
Theorem generate_rss_without_rows (db : Store.Database) (table : string) (w : World) :
  Store.select_feed db table "title" = Ok [] ->
  Prev.generate_rss db table w = (Raise (UnboundLocalError "rss_content"), w)
  /\ (table <> "authors" ->
      exists w',
        Main.generate_rss db table w = (Ok tt, w')
        /\ wrote w w' [(["dist"; table; "rss"],
                        feed_document main_layout "https://danielfalbo.com" table "")]).
Proof.
  intros Hrows. split.
  - rewrite prev_generate_rss_eq, Hrows. reflexivity.
  - intros Htable. rewrite main_generate_rss_eq. unfold Main.title_col.
    destruct (String.eqb_spec table "authors") as [-> | _]; [congruence |].
    rewrite Hrows. cbn [mapM Text.join].
    destruct (write_file_wrote [Main.DIST_DIR; table; "rss"]
                (Main.rss_document table "") w) as (w' & -> & Hw).
    exists w'. split; [reflexivity |].
    now rewrite main_rss_document_eq in Hw.
Qed.

Lemma generate_rss_without_rows_witness :
  Prev.generate_rss Samples.empty_weblog_db "weblog" empty_world
  = (Raise (UnboundLocalError "rss_content"), empty_world).
Proof.
  exact (proj1 (generate_rss_without_rows Samples.empty_weblog_db "weblog"
                  empty_world eq_refl)).
Defined.

(** [generate_rss] writes the feed or nothing.  Either every row has a
    date that can be read and exactly one file, [dist/<table>/rss], is
    written, or an exception is raised and no file is written; this holds
    for both files and every store. *)
Theorem generate_rss_all_or_nothing (db : Store.Database) (table : string)
  (w : World) :
  ((exists doc w', Prev.generate_rss db table w = (Ok tt, w')
                   /\ wrote w w' [(["dist"; table; "rss"], doc)])
   \/ exists e, Prev.generate_rss db table w = (Raise e, w))
  /\ ((exists doc w', Main.generate_rss db table w = (Ok tt, w')
                      /\ wrote w w' [(["dist"; table; "rss"], doc)])
      \/ exists e, Main.generate_rss db table w = (Raise e, w)).
Proof.
  split.
  - rewrite prev_generate_rss_eq.
    pose proof (select_feed_modelled db table "title") as Hsel.
    destruct (Store.select_feed db table "title") as [rows | e | ];
      [| right; now exists e | congruence].
    pose proof (mapM_modelled (Prev.item_xml table) rows) as Hitems.
    destruct (mapM (Prev.item_xml table) rows) as [items | e | ];
      [| right; now exists e |].
    + destruct rows as [| r rows]; [right; eexists; reflexivity |].
      left.
      destruct (write_file_wrote [Prev.DIST_DIR; table; "rss"]
                  (Prev.rss_document table (Text.join items)) w) as (w' & -> & Hw).
      now exists (Prev.rss_document table (Text.join items)), w'.
    + exfalso. apply Hitems; [| reflexivity].
      intros r. rewrite prev_item_xml_eq.
      pose proof (pub_date_modelled (Store.created_time r)) as H.
      destruct (Utils.pub_date (Store.created_time r)); simpl; congruence.
  - rewrite main_generate_rss_eq.
    pose proof (select_feed_modelled db table (Main.title_col table)) as Hsel.
    destruct (Store.select_feed db table (Main.title_col table)) as [rows | e | ];
      [| right; now exists e | congruence].
    pose proof (mapM_modelled (Main.item_xml table) rows) as Hitems.
    destruct (mapM (Main.item_xml table) rows) as [items | e | ];
      [| right; now exists e |].
    + left.
      destruct (write_file_wrote [Main.DIST_DIR; table; "rss"]
                  (Main.rss_document table (Text.join items)) w) as (w' & -> & Hw).
      now exists (Main.rss_document table (Text.join items)), w'.
    + exfalso. apply Hitems; [| reflexivity].
      intros r. rewrite main_item_xml_eq.
      pose proof (pub_date_modelled (Store.created_time r)) as H.
      destruct (Utils.pub_date (Store.created_time r)); simpl; congruence.
Qed.

(** The feed that [generate_rss] of [prev.py] writes has one item for each
    row of the table, the items standing in non-increasing order of the
    stored [created_time] (the order SQLite sorts values in, texts byte by
    byte). *)
Theorem prev_generate_rss_items_in_order (db : Store.Database) (table : string)
  (w w' : World) :
  Prev.generate_rss db table w = (Ok tt, w') ->
  exists t rows items,
    Store.find_table db table = Ok t
    /\ Permutation (map (feed_row "title") (Store.table_rows t)) rows
    /\ Sorted newer_or_equal rows
    /\ mapM (Prev.item_xml table) rows = Ok items
    /\ wrote w w' [(["dist"; table; "rss"],
                    feed_document prev_layout "https://danielfalbo.com" table
                      (Text.join items))].
Proof.
  rewrite prev_generate_rss_eq.
  destruct (Store.select_feed db table "title") as [rows | e | ] eqn:Hsel;
    try discriminate.
  destruct (mapM (Prev.item_xml table) rows) as [items | e | ] eqn:Hitems;
    try discriminate.
  destruct rows as [| r rows]; [discriminate |].
  intros Hrun.
  destruct (write_file_wrote [Prev.DIST_DIR; table; "rss"]
              (Prev.rss_document table (Text.join items)) w) as (w1 & Hw1 & Hw).
  rewrite Hw1 in Hrun. injection Hrun as <-.
  unfold Store.select_feed, Store.require_column in Hsel.
  destruct (Store.find_table db table) as [t | e | ] eqn:Ht; cbn [bind] in Hsel;
    try discriminate.
  destruct (Store.has_column t "slug"); cbn [bind] in Hsel; try discriminate.
  destruct (Store.has_column t "title"); cbn [bind] in Hsel; try discriminate.
  destruct (Store.has_column t "created_time"); cbn [bind] in Hsel; try discriminate.
  destruct (Store.has_column t "html"); cbn [bind] in Hsel; try discriminate.
  injection Hsel as Hsel.
  exists t, (r :: rows), items. split; [reflexivity |].
  split; [| split; [| split]].
  - rewrite <- Hsel. apply order_perm.
  - rewrite <- Hsel. apply order_sorted.
  - exact Hitems.
  - now rewrite prev_rss_document_eq in Hw.
Qed.

Lemma prev_generate_rss_items_in_order_witness :
  exists w' t rows items,
    Prev.generate_rss Samples.listing_db "weblog" empty_world = (Ok tt, w')
    /\ Store.find_table Samples.listing_db "weblog" = Ok t
    /\ Permutation (map (feed_row "title") (Store.table_rows t)) rows
    /\ Sorted newer_or_equal rows
    /\ mapM (Prev.item_xml "weblog") rows = Ok items.
Proof.
  destruct (Prev.generate_rss Samples.listing_db "weblog" empty_world) as [res w']
    eqn:Hrun.
  assert (Hres : res = Ok tt).
  { apply (f_equal fst) in Hrun. vm_compute in Hrun. now symmetry. }
  subst res.
  destruct (prev_generate_rss_items_in_order Samples.listing_db "weblog"
              empty_world w' Hrun)
    as (t & rows & items & Ht & Hperm & Hsorted & Hitems & Hw).
  exists w', t, rows, items. auto.
Defined.

Section Escaping.

Lemma escape_char_cases (c : ascii) :
  (c = "&"%char /\ escape_char c = "&amp;")
  \/ (c = "<"%char /\ escape_char c = "&lt;")
  \/ (c = ">"%char /\ escape_char c = "&gt;")
  \/ (c <> "&"%char /\ c <> "<"%char /\ c <> ">"%char
      /\ escape_char c = String c "").
Proof.
  unfold escape_char.
  destruct (Ascii.eqb_spec c "&") as [-> | H1]; [now left |].
  destruct (Ascii.eqb_spec c "<") as [-> | H2]; [right; now left |].
  destruct (Ascii.eqb_spec c ">") as [-> | H3]; [right; right; now left |].
  right; right; right. auto.
Qed.

Lemma prefix_nil (s : string) : String.prefix "" s = true.
Proof. now destruct s. Qed.

End Escaping.

Section EscapeResult.

(** The replacements, character by character: what the result holds. *)
Lemma escape_chars_result (s : string) :
  Text.has_char "<" (escape_chars s) = false
  /\ Text.has_char ">" (escape_chars s) = false
  /\ ampersands_escaped (escape_chars s) = true
  /\ (Text.has_char "&" s = false ->
      Text.has_char "<" s = false ->
      Text.has_char ">" s = false ->
      escape_chars s = s).
Proof.
  induction s as [| c s (IHlt & IHgt & IHamp & IHsame)]; [now simpl |].
  cbn [escape_chars].
  destruct (escape_char_cases c)
    as [[-> ->] | [[-> ->] | [[-> ->] | (H1 & H2 & H3 & ->)]]].
  - repeat split; try (rewrite has_char_app; simpl; assumption).
    + simpl. rewrite prefix_nil. exact IHamp.
    + simpl. discriminate.
  - repeat split; try (rewrite has_char_app; simpl; assumption).
    + simpl. rewrite prefix_nil. exact IHamp.
    + simpl. discriminate.
  - repeat split; try (rewrite has_char_app; simpl; assumption).
    + simpl. rewrite prefix_nil. exact IHamp.
    + simpl. discriminate.
  - apply Ascii.eqb_neq in H1, H2, H3.
    cbn [append Text.has_char ampersands_escaped]. rewrite H1, H2, H3. simpl.
    repeat split; try assumption.
    intros Ha Hb Hc. f_equal. now apply IHsame.
Qed.

End EscapeResult.

(** [xml_escape] replaces each [&], [<] and [>] of the printed value once,
    where it stands, and nothing else: the result holds no [<] and no [>],
    each of its [&] starts [&amp;], [&lt;] or [&gt;], and a value without
    the three characters comes back as it is. *)
Theorem xml_escape_result (v : value) :
  Prev.xml_escape v = escape_chars (py_str v)
  /\ Text.has_char "<" (Prev.xml_escape v) = false
  /\ Text.has_char ">" (Prev.xml_escape v) = false
  /\ ampersands_escaped (Prev.xml_escape v) = true
  /\ (Text.has_char "&" (py_str v) = false ->
      Text.has_char "<" (py_str v) = false ->
      Text.has_char ">" (py_str v) = false ->
      Prev.xml_escape v = py_str v).
Proof.
  rewrite prev_xml_escape_chars. split; [reflexivity |].
  apply escape_chars_result.
Qed.

(** * Template values of [main.py] *)

Section MainValues.

(** What [gen_tmpl_values] of [main.py] returns, entry by entry. *)
Lemma main_values_frame (config : Utils.Relationships)
  (db : Store.Database) (table : string) (cmps : Main.Assets) (vs : Values) :
  Main.gen_tmpl_values_with config db table cmps = Ok vs ->
  exists rows dateage_cmp,
    Store.select_all db table = Ok rows
    /\ Main.component cmps "dateage" = Ok dateage_cmp
    /\ NoDup (PyDict.keys vs)
    /\ forall slug row,
         values_get slug vs = Some row ->
         exists r,
           last_with_slug slug rows = Some r
           /\ (forall k, k <> "html" -> k <> "context" ->
                         row_get k row = row_get k r)
           /\ match Utils.get_or_none "html" r,
                    Utils.get_or_none "created_time" r with
              | VStr s, (VInt _ | VStr _) as created_time =>
                  exists dateage formatted,
                    Format.format
                      [("created_time", created_time);
                       ("AUTHOR_BIRTHDAY", VStr "2003-12-10T13:30:00+01:00")]
                      dateage_cmp = Ok dateage
                    /\ Format.format [("dateage", VStr dateage)] s = Ok formatted
                    /\ row_get "html" row = Some (VStr formatted)
              | _, _ => row_get "html" row = row_get "html" r
              end.
Proof.
  intros Hgen.
  destruct (Main.base_values db table cmps) as [vs0 | e | ] eqn:Hbase;
    try (unfold Main.gen_tmpl_values_with in Hgen; rewrite Hbase in Hgen;
         discriminate).
  destruct (main_base_values_spec db table cmps vs0 Hbase)
    as (rows & cmp & Hrows & Hcmp & Hnd & Hctx & Hrow0).
  exists rows, cmp. split; [exact Hrows |]. split; [exact Hcmp |].
  assert (Hstep : forall slug row0,
             values_get slug vs0 = Some row0 ->
             exists r, last_with_slug slug rows = Some r
               /\ (forall k, k <> "html" -> k <> "context" ->
                             row_get k row0 = row_get k r)
               /\ match Utils.get_or_none "html" r,
                        Utils.get_or_none "created_time" r with
                  | VStr s, (VInt _ | VStr _) as created_time =>
                      exists dateage formatted,
                        Format.format
                          [("created_time", created_time);
                           ("AUTHOR_BIRTHDAY", VStr "2003-12-10T13:30:00+01:00")]
                          cmp = Ok dateage
                        /\ Format.format [("dateage", VStr dateage)] s = Ok formatted
                        /\ row_get "html" row0 = Some (VStr formatted)
                  | _, _ => row_get "html" row0 = row_get "html" r
                  end).
  { intros slug row0 H0. destruct (Hrow0 _ _ H0) as (r & Hr & Hd).
    exists r. split; [exact Hr |].
    destruct (main_dated_frame _ _ _ Hd) as [Hframe Hhtml].
    unfold initial_values in *. split.
    - intros k Hk1 Hk2. rewrite Hframe by exact Hk1.
      apply row_get_set_other. congruence.
    - unfold Utils.get_or_none in *.
      rewrite !row_get_set_other in Hhtml by congruence. exact Hhtml. }
  rewrite (main_gen_tmpl_values_eq db table cmps config vs0 Hbase) in Hgen.
  destruct (PyDict.get String.eqb table config) as [decls |].
  - destruct (mapM (join_of db table) decls) as [joins | e | ]; cbn [bind] in Hgen;
      try discriminate.
    injection Hgen as <-. split.
    + unfold PyDict.keys in *. now rewrite map_map.
    + intros slug row.
      rewrite (values_get_map
                 (fun s r => row_set "context"
                               (VStr (context_links Main.link decls joins s)) r)).
      destruct (values_get slug vs0) as [row0 |] eqn:H0; simpl; [| discriminate].
      intros [= <-]. destruct (Hstep _ _ H0) as (r & Hr & Hk & Hh).
      exists r. split; [exact Hr |]. split.
      * intros k Hk1 Hk2. rewrite row_get_set_other by congruence. now apply Hk.
      * rewrite row_get_set_other by congruence. exact Hh.
  - injection Hgen as <-. split; [exact Hnd | exact Hstep].
Qed.

(** The [html] of an entry with a body and a creation time. *)
Lemma main_values_formatted (config : Utils.Relationships)
  (db : Store.Database) (table : string) (cmps : Main.Assets) (vs : Values)
  (rows : list Row) (slug : value) (row r : Row) (body : string) :
  Main.gen_tmpl_values_with config db table cmps = Ok vs ->
  values_get slug vs = Some row ->
  Store.select_all db table = Ok rows ->
  last_with_slug slug rows = Some r ->
  Utils.get_or_none "html" r = VStr body ->
  Utils.get_or_none "created_time" r <> VNone ->
  exists dateage_cmp dateage formatted,
    Main.component cmps "dateage" = Ok dateage_cmp
    /\ Format.format
         [("created_time", Utils.get_or_none "created_time" r);
          ("AUTHOR_BIRTHDAY", VStr "2003-12-10T13:30:00+01:00")]
         dateage_cmp = Ok dateage
    /\ Format.format [("dateage", VStr dateage)] body = Ok formatted
    /\ row_get "html" row = Some (VStr formatted).
Proof.
  intros Hgen Hrow Hrows Hr Hbody Hct.
  destruct (main_values_frame config db table cmps vs Hgen)
    as (rows' & cmp & Hrows' & Hcmp & _ & Hframe).
  rewrite Hrows in Hrows'. injection Hrows' as <-.
  destruct (Hframe _ _ Hrow) as (r' & Hr' & _ & Hhtml).
  rewrite Hr in Hr'. injection Hr' as <-.
  rewrite Hbody in Hhtml. exists cmp.
  destruct (Utils.get_or_none "created_time" r) as [| z | s];
    [congruence | |];
    destruct Hhtml as (d & f & Hd & Hf & Hh); now exists d, f.
Qed.

(** The first field of a body that could be formatted is [dateage]. *)
Lemma main_first_field (dateage formatted a name rest : string) :
  Format.format [("dateage", VStr dateage)] (a ++ "{" ++ name ++ "}" ++ rest)
  = Ok formatted ->
  brace_free a = true -> plain_name name = true ->
  name = "dateage".
Proof.
  intros Hf Ha Hname.
  rewrite (format_plain_field _ a name rest Ha Hname) in Hf.
  unfold row_get in Hf. cbn [PyDict.get] in Hf.
  destruct (String.eqb_spec "dateage" name) as [<- | Hne]; [reflexivity |].
  discriminate Hf.
Qed.

End MainValues.

(** [gen_tmpl_values] of [main.py] leaves the columns alone, except that it
    reads the stored body as a format string.  No slug is a key twice; the
    row under a slug is the row stored last under it, where every key other
    than [html] and [context] has the stored value; and when body and
    creation time are both there, [html] is the body formatted with, for its
    [dateage] field, the date-age component formatted with the creation
    time and the birthday.  Without one of the two, [html] is as stored. *)
Theorem main_gen_tmpl_values_frame (config : Utils.Relationships)
  (db : Store.Database) (table : string) (cmps : Main.Assets) (vs : Values) :
  Main.gen_tmpl_values_with config db table cmps = Ok vs ->
  exists rows dateage_cmp,
    Store.select_all db table = Ok rows
    /\ Main.component cmps "dateage" = Ok dateage_cmp
    /\ NoDup (PyDict.keys vs)
    /\ forall slug row,
         values_get slug vs = Some row ->
         exists r,
           last_with_slug slug rows = Some r
           /\ (forall k, k <> "html" -> k <> "context" ->
                         row_get k row = row_get k r)
           /\ match Utils.get_or_none "html" r,
                    Utils.get_or_none "created_time" r with
              | VStr s, (VInt _ | VStr _) as created_time =>
                  exists dateage formatted,
                    Format.format
                      [("created_time", created_time);
                       ("AUTHOR_BIRTHDAY", VStr "2003-12-10T13:30:00+01:00")]
                      dateage_cmp = Ok dateage
                    /\ Format.format [("dateage", VStr dateage)] s = Ok formatted
                    /\ row_get "html" row = Some (VStr formatted)
              | _, _ => row_get "html" row = row_get "html" r
              end.
Proof. exact (main_values_frame config db table cmps vs). Qed.

Lemma main_gen_tmpl_values_frame_witness :
  exists vs row,
    Main.gen_tmpl_values Samples.placeholder_db "weblog" Samples.components = Ok vs
    /\ values_get (VStr "a") vs = Some row
    /\ row_get "html" row = Some (VStr "<p><i>2024-01-01</i></p>")
    /\ NoDup (PyDict.keys vs).
Proof.
  destruct (Main.gen_tmpl_values Samples.placeholder_db "weblog" Samples.components)
    as [vs | e | ] eqn:Hgen;
    [| vm_compute in Hgen; discriminate | vm_compute in Hgen; discriminate].
  destruct (main_gen_tmpl_values_frame Main.RELATIONSHIPS Samples.placeholder_db
              "weblog" Samples.components vs Hgen)
    as (rows & cmp & Hrows & Hcmp & Hnd & _).
  vm_compute in Hgen. injection Hgen as <-.
  eexists _, _. split; [reflexivity |]. split; [reflexivity |].
  split; [reflexivity | exact Hnd].
Defined.

(** In [main.py] the stored body is a format string.  For a row with a
    body and a creation time that [gen_tmpl_values] returned values for: a
    body without braces is kept as it is, so it gets no date-age fragment;
    in a body that is the placeholder [{dateage}] between texts without
    braces, the placeholder is replaced by the fragment, which is the
    date-age component formatted with the creation time and the birthday;
    and the first field of the body can only be [dateage], any other name
    making [gen_tmpl_values] fail. *)
Theorem main_gen_tmpl_values_body (config : Utils.Relationships)
  (db : Store.Database) (table : string) (cmps : Main.Assets) (vs : Values)
  (rows : list Row) (slug : value) (row r : Row) (body : string) :
  Main.gen_tmpl_values_with config db table cmps = Ok vs ->
  values_get slug vs = Some row ->
  Store.select_all db table = Ok rows ->
  last_with_slug slug rows = Some r ->
  Utils.get_or_none "html" r = VStr body ->
  Utils.get_or_none "created_time" r <> VNone ->
  (brace_free body = true -> row_get "html" row = Some (VStr body))
  /\ (forall a b,
        body = a ++ "{dateage}" ++ b ->
        brace_free a = true -> brace_free b = true ->
        exists dateage_cmp fragment,
          Main.component cmps "dateage" = Ok dateage_cmp
          /\ Format.format
               [("created_time", Utils.get_or_none "created_time" r);
                ("AUTHOR_BIRTHDAY", VStr "2003-12-10T13:30:00+01:00")]
               dateage_cmp = Ok fragment
          /\ row_get "html" row = Some (VStr (a ++ fragment ++ b)))
  /\ (forall a name rest,
        body = a ++ "{" ++ name ++ "}" ++ rest ->
        brace_free a = true -> plain_name name = true ->
        name = "dateage").
Proof.
  intros Hgen Hrow Hrows Hr Hbody Hct.
  destruct (main_values_formatted config db table cmps vs rows slug row r body
              Hgen Hrow Hrows Hr Hbody Hct)
    as (cmp & dateage & formatted & Hcmp & Hd & Hf & Hh).
  split; [| split].
  - intros Hfree. rewrite format_brace_free in Hf by exact Hfree. congruence.
  - intros a b -> Ha Hb. exists cmp, dateage.
    split; [exact Hcmp |]. split; [exact Hd |].
    rewrite (format_plain_field _ a "dateage" b Ha eq_refl) in Hf.
    cbn [row_get PyDict.get String.eqb Ascii.eqb Bool.eqb] in Hf.
    rewrite format_brace_free in Hf by exact Hb. simpl in Hf.
    rewrite append_assoc in Hf. congruence.
  - intros a name rest -> Ha Hname.
    exact (main_first_field dateage formatted a name rest Hf Ha Hname).
Qed.

Lemma main_gen_tmpl_values_body_witness :
  exists vs row,
    Main.gen_tmpl_values Samples.placeholder_db "weblog" Samples.components = Ok vs
    /\ values_get (VStr "a") vs = Some row
    /\ exists dateage_cmp fragment,
         Main.component Samples.components "dateage" = Ok dateage_cmp
         /\ Format.format
              [("created_time", VStr "2024-01-01");
               ("AUTHOR_BIRTHDAY", VStr "2003-12-10T13:30:00+01:00")]
              dateage_cmp = Ok fragment
         /\ row_get "html" row = Some (VStr ("<p>" ++ fragment ++ "</p>")).
Proof.
  destruct (Main.gen_tmpl_values Samples.placeholder_db "weblog" Samples.components)
    as [vs | e | ] eqn:Hgen;
    [| vm_compute in Hgen; discriminate | vm_compute in Hgen; discriminate].
  destruct (values_get (VStr "a") vs) as [row |] eqn:Hrow;
    [| vm_compute in Hgen; injection Hgen as <-; vm_compute in Hrow; discriminate].
  exists vs, row. split; [reflexivity |]. split; [exact Hrow |].
  refine (proj1 (proj2 (main_gen_tmpl_values_body Main.RELATIONSHIPS
                          Samples.placeholder_db "weblog" Samples.components vs
                          _ (VStr "a") row _ "<p>{dateage}</p>"
                          Hgen Hrow eq_refl eq_refl eq_refl _))
            "<p>" "</p>" eq_refl eq_refl eq_refl).
  vm_compute. discriminate.
Defined.

(** A stored body with a field that is no keyword makes [gen_tmpl_values]
    of [main.py] fail: no values are returned for the table. *)
Theorem main_gen_tmpl_values_rejects_stray_field (config : Utils.Relationships)
  (db : Store.Database) (table : string) (cmps : Main.Assets)
  (rows : list Row) (slug : value) (r : Row) (a name rest : string) :
  Store.select_all db table = Ok rows ->
  last_with_slug slug rows = Some r ->
  Utils.get_or_none "html" r = VStr (a ++ "{" ++ name ++ "}" ++ rest) ->
  Utils.get_or_none "created_time" r <> VNone ->
  brace_free a = true -> plain_name name = true -> name <> "dateage" ->
  forall vs, Main.gen_tmpl_values_with config db table cmps <> Ok vs.
Proof.
  intros Hrows Hr Hbody Hct Ha Hname Hne vs Hgen.
  destruct (values_get slug vs) as [row |] eqn:Hrow.
  - apply Hne.
    destruct (main_values_formatted config db table cmps vs rows slug row r _
                Hgen Hrow Hrows Hr Hbody Hct)
      as (cmp & dateage & formatted & _ & _ & Hf & _).
    exact (main_first_field dateage formatted a name rest Hf Ha Hname).
  - destruct (Main.base_values db table cmps) as [vs0 | e | ] eqn:Hbase;
      try (unfold Main.gen_tmpl_values_with in Hgen; rewrite Hbase in Hgen;
           discriminate).
    assert (Hkeys : PyDict.keys vs = PyDict.keys vs0).
    { rewrite (main_gen_tmpl_values_eq db table cmps config vs0 Hbase) in Hgen.
      destruct (PyDict.get String.eqb table config) as [decls |].
      - destruct (mapM (join_of db table) decls) as [joins | e | ];
          cbn [bind] in Hgen; try discriminate.
        injection Hgen as <-. unfold PyDict.keys. now rewrite map_map.
      - now injection Hgen as <-. }
    rewrite main_base_values_eq, Hrows in Hbase. cbn [bind] in Hbase.
    destruct (Utils.values_of_rows rows) as [vs1 | e | ] eqn:Hvs1; cbn [bind] in Hbase;
      try discriminate.
    destruct (Main.component cmps "dateage") as [cmp | e | ]; cbn [bind] in Hbase;
      try discriminate.
    pose proof (mapM_on_entry _ _ _ Hbase) as Hall.
    pose proof (forall2_keys (fun r r' => main_dated cmp r = Ok r') vs1 vs0 Hall)
      as Hkeys0.
    destruct (values_of_rows_spec rows vs1 Hvs1) as [_ Hget].
    specialize (Hget slug). rewrite Hr in Hget. simpl in Hget.
    apply (get_some_in value_eqb value_eqb_spec) in Hget.
    apply (in_map fst) in Hget. simpl in Hget.
    fold (PyDict.keys vs1) in Hget. rewrite <- Hkeys0, <- Hkeys in Hget.
    apply (mem_true_in value_eqb value_eqb_spec) in Hget.
    unfold PyDict.mem in Hget. unfold values_get in Hrow. rewrite Hrow in Hget.
    discriminate.
Qed.

Lemma main_gen_tmpl_values_rejects_stray_field_witness :
  Main.gen_tmpl_values Samples.stray_field_db "weblog" Samples.components
  = Raise (KeyError "x")
  /\ forall vs,
       Main.gen_tmpl_values Samples.stray_field_db "weblog" Samples.components
       <> Ok vs.
Proof.
  split; [reflexivity |].
  refine (main_gen_tmpl_values_rejects_stray_field Main.RELATIONSHIPS
            Samples.stray_field_db "weblog" Samples.components
            _ (VStr "a") _ "<p>" "x" "</p>" eq_refl eq_refl eq_refl _
            eq_refl eq_refl _).
  - vm_compute. discriminate.
  - discriminate.
Defined.




(** * Watch mode, the row found *)

(** In watch mode of [prev.py], for a table that is a bare name and a slug
    free of quote characters (the lookup pastes both into its statement),
    a row that was found, a table that has a page builder and a row none of
    whose values is the text [created_time]: the scratch file is opened, and every change writes the
    page of the entry anew, built of the row with the text of the buffer as
    its body and no links.  The date-age script is not added to the body,
    whether or not the row has a [created_time] column: the test made on
    the row object runs over its values. *)
Theorem prev_watch_buffer_rebuilds (db : Store.Database) (css table slug : string)
  (row : Row) (builder : Prev.Builder) (events pages : list string) (w : World) :
  Store.bare_name table = true ->
  Store.quotable slug = true ->
  Store.fetchone_by_slug db table slug = Ok (Some row) ->
  row <> [] ->
  PyDict.get String.eqb table Prev.TABLE_TO_BUILDER = Some builder ->
  no_value_is "created_time" row = true ->
  mapM (prev_watch_page builder css row) events = Ok pages ->
  exists w',
    Prev.watch_buffer (Store.fetchone_by_slug db table slug) css table slug events w
    = (Ok tt, w')
    /\ watched w w' table slug pages.
Proof.
  intros _ _ Hrow Hne Hbuilder Hno Hpages. rewrite Hrow.
  destruct row as [| column columns]; [congruence |].
  unfold Prev.watch_buffer. unfold bindR at 1, lift.
  unfold bindR at 1. unfold print at 1.
  unfold bindR at 1. unfold os_open at 1. cbn [writes stdout stderr opened].
  unfold bindR at 1. rewrite Hbuilder.
  unfold bindR at 1.
  match goal with
  | |- context [for_each _ events ?w0] =>
      destruct (prev_rebuild_loop table slug css builder (column :: columns)
                  events pages Hno Hpages w0) as (w1 & -> & H1 & H2 & H3)
  end.
  eexists. split; [reflexivity |].
  unfold watched. cbn in H1, H2, H3 |- *. auto.
Qed.

Lemma prev_watch_buffer_rebuilds_witness :
  exists pages w',
    mapM (prev_watch_page Prev.entry_page "" 
            [("id", VInt 1); ("slug", VStr "a"); ("title", VStr "A");
             ("created_time", VStr "2024-01-01 00:00:00");
             ("html", VStr "<p>x</p>"); ("listed", VInt 1)])
         ["<p>one</p>"; "<p>two</p>"] = Ok pages
    /\ Prev.watch_buffer (Store.fetchone_by_slug Samples.one_entry_db "weblog" "a")
         "" "weblog" "a" ["<p>one</p>"; "<p>two</p>"] empty_world
       = (Ok tt, w')
    /\ watched empty_world w' "weblog" "a" pages.
Proof.
  destruct (mapM (prev_watch_page Prev.entry_page ""
                    [("id", VInt 1); ("slug", VStr "a"); ("title", VStr "A");
                     ("created_time", VStr "2024-01-01 00:00:00");
                     ("html", VStr "<p>x</p>"); ("listed", VInt 1)])
                 ["<p>one</p>"; "<p>two</p>"]) as [pages | e | ] eqn:Hpages;
    [| vm_compute in Hpages; discriminate Hpages ..].
  destruct (prev_watch_buffer_rebuilds Samples.one_entry_db "" "weblog" "a"
              [("id", VInt 1); ("slug", VStr "a"); ("title", VStr "A");
               ("created_time", VStr "2024-01-01 00:00:00");
               ("html", VStr "<p>x</p>"); ("listed", VInt 1)]
              Prev.entry_page ["<p>one</p>"; "<p>two</p>"] pages empty_world
              eq_refl eq_refl eq_refl ltac:(discriminate) eq_refl eq_refl Hpages)
    as (w' & Hrun & Hw).
  exists pages, w'. split; [reflexivity |]. split; [exact Hrun | exact Hw].
Defined.

(** In watch mode of [prev.py], for a table that is a bare name and a slug
    free of quote characters, and a row that was found in a table that has
    no page builder, the session is announced and the scratch file is
    opened, and then the lookup of the builder fails with a [KeyError]:
    no change is waited for and nothing is written. *)
Theorem prev_watch_buffer_unknown_table (db : Store.Database)
  (css table slug : string) (row : Row) (events : list string) (w : World) :
  Store.bare_name table = true ->
  Store.quotable slug = true ->
  Store.fetchone_by_slug db table slug = Ok (Some row) ->
  row <> [] ->
  PyDict.get String.eqb table Prev.TABLE_TO_BUILDER = None ->
  Prev.watch_buffer (Store.fetchone_by_slug db table slug) css table slug events w
  = (Raise (KeyError table),
     mkWorld (writes w)
       (stdout w ++ [("Watching " ++ buffer_name table slug ++ " as html content of " ++
                      table ++ "/" ++ slug ++ "...")%string])%list
       (stderr w)
       (opened w ++ [buffer_name table slug])%list).
Proof.
  intros _ _ Hrow Hne Hbuilder. rewrite Hrow.
  destruct row as [| column columns]; [congruence |].
  unfold Prev.watch_buffer. unfold bindR at 1, lift.
  unfold bindR at 1. unfold print at 1.
  unfold bindR at 1. unfold os_open at 1. cbn [writes stdout stderr opened].
  unfold bindR at 1. rewrite Hbuilder. reflexivity.
Qed.

Lemma prev_watch_buffer_unknown_table_witness :
  Prev.watch_buffer (Store.fetchone_by_slug Samples.notes_db "notes" "hello")
    "" "notes" "hello" ["<p>hi</p>"] empty_world
  = (Raise (KeyError "notes"),
     mkWorld [] ["Watching buf_notes_hello.html as html content of notes/hello..."]
       [] ["buf_notes_hello.html"]).
Proof.
  apply (prev_watch_buffer_unknown_table Samples.notes_db "" "notes" "hello"
           [("id", VInt 1); ("slug", VStr "hello"); ("title", VStr "Hello");
            ("created_time", VStr "2024-01-01 00:00:00"); ("html", VStr "")]
           ["<p>hi</p>"] empty_world eq_refl eq_refl eq_refl ltac:(discriminate)
           eq_refl).
Defined.

(** In watch mode of [main.py], for a table that is a bare name and a slug
    free of quote characters, a row that was found and a template and
    stylesheet that could be read: the scratch file is opened, and
    every change writes the page of the entry anew, the template formatted
    with the stylesheet, the columns of the row, the text of the buffer as
    [html] and an empty [context].  The text of the buffer is a value of
    the formatting: it is not itself read as a format string, and no
    date-age component is put into it. *)
Theorem main_watch_buffer_rebuilds (db : Store.Database) (tmpls : Main.Assets)
  (global_css : result string) (template css table slug : string) (row : Row)
  (events pages : list string) (w : World) :
  Store.bare_name table = true ->
  Store.quotable slug = true ->
  Store.fetchone_by_slug db table slug = Ok (Some row) ->
  row <> [] ->
  Main.load_tmpl tmpls table = Ok template ->
  global_css = Ok css ->
  mapM (main_watch_page template css row) events = Ok pages ->
  exists w',
    Main.watch_buffer tmpls global_css (Store.fetchone_by_slug db table slug)
      table slug events w
    = (Ok tt, w')
    /\ watched w w' table slug pages.
Proof.
  intros _ _ Hrow Hne Htmpl Hcss Hpages. rewrite Hrow.
  destruct row as [| column columns]; [congruence |].
  unfold Main.watch_buffer. unfold bindR at 1, lift.
  unfold bindR at 1. unfold print at 1.
  unfold bindR at 1. unfold os_open at 1. cbn [writes stdout stderr opened].
  unfold bindR at 1. rewrite Htmpl.
  unfold bindR at 1. rewrite Hcss.
  unfold bindR at 1.
  match goal with
  | |- context [fold_run _ events _ ?w0] =>
      destruct (main_rebuild_loop table slug css template (column :: columns)
                  events pages Hpages None w0) as (w1 & row' & -> & H1 & H2 & H3)
  end.
  eexists. split; [reflexivity |].
  unfold watched. cbn in H1, H2, H3 |- *. auto.
Qed.

Lemma main_watch_buffer_rebuilds_witness :
  exists w',
    Main.watch_buffer Samples.templates (Ok "body{}")
      (Store.fetchone_by_slug Samples.placeholder_db "weblog" "a")
      "weblog" "a" ["<p>{dateage}</p>"; "{"] empty_world
    = (Ok tt, w')
    /\ watched empty_world w' "weblog" "a"
         ["<style>body{}</style><h1>A</h1><p>{dateage}</p>";
          "<style>body{}</style><h1>A</h1>{"].
Proof.
  apply (main_watch_buffer_rebuilds Samples.placeholder_db Samples.templates
           (Ok "body{}") "<style>{css}</style><h1>{title}</h1>{context}{html}"
           "body{}" "weblog" "a"
           [("id", VInt 1); ("slug", VStr "a"); ("title", VStr "A");
            ("created_time", VStr "2024-01-01"); ("html", VStr "<p>{dateage}</p>");
            ("listed", VInt 0)]
           ["<p>{dateage}</p>"; "{"]
           ["<style>body{}</style><h1>A</h1><p>{dateage}</p>";
            "<style>body{}</style><h1>A</h1>{"]
           empty_world eq_refl eq_refl eq_refl ltac:(discriminate) eq_refl eq_refl
           eq_refl).
Defined.

(** * The page builders of [prev.py] *)

(** [entry_page] puts the context and the body into the page as they are,
    the body last, right before the closing tags of the page: for a row
    with a title and a context that are texts, whatever text is set as
    [html] comes out unchanged, neither escaped nor read as a template. *)
Theorem prev_entry_page_body_verbatim (css : string) (entry : Row) (t c : string) :
  row_get "title" entry = Some (VStr t) ->
  row_get "context" entry = Some (VStr c) ->
  exists before,
    forall body,
      Prev.entry_page css (row_set "html" (VStr body) entry)
      = Ok (before ++ c ++ body ++ "</body></html>").
Proof.
  intros Ht Hc. destruct (layout_body t css) as [b Hb].
  exists (b ++ Prev.NAVBAR ++ Prev.title_component t).
  intros body. unfold Prev.entry_page.
  rewrite (row_item_set_other "html" "title") by discriminate.
  rewrite (row_item_some _ _ _ Ht). cbn [bind Utils.as_str].
  rewrite (row_item_set_other "html" "context") by discriminate.
  rewrite (row_item_some _ _ _ Hc). cbn [bind Utils.as_str].
  rewrite row_item_set_same. cbn [bind Utils.as_str py_str].
  rewrite Hb. cbn [Text.join]. f_equal.
  rewrite append_nil_r. now rewrite !append_assoc.
Qed.

Lemma prev_entry_page_body_verbatim_witness :
  exists before,
    forall body,
      Prev.entry_page "body{}"
        (row_set "html" (VStr body)
           [("slug", VStr "a"); ("title", VStr "A"); ("html", VStr "<p>x</p>");
            ("context", VStr "<p>c</p>")])
      = Ok (before ++ "<p>c</p>" ++ body ++ "</body></html>").
Proof.
  apply (prev_entry_page_body_verbatim "body{}"
           [("slug", VStr "a"); ("title", VStr "A"); ("html", VStr "<p>x</p>");
            ("context", VStr "<p>c</p>")] "A" "<p>c</p>");
    reflexivity.
Defined.

(** [entry_page] builds a page exactly for the rows whose [title],
    [context] and [html] are all there and all texts: a row without one of
    them, or with a NULL or a number in one of them, makes it raise. *)
Theorem prev_entry_page_builds_iff_texts (css : string) (entry : Row) :
  (exists page, Prev.entry_page css entry = Ok page)
  <-> (exists t c b,
         row_get "title" entry = Some (VStr t)
         /\ row_get "context" entry = Some (VStr c)
         /\ row_get "html" entry = Some (VStr b)).
Proof.
  unfold Prev.entry_page, row_item.
  destruct (row_get "title" entry) as [[| z | t] |]; cbn [bind Utils.as_str];
    try (split; [intros [page H]; discriminate H
                | intros (t' & c' & b' & H & _); discriminate H]).
  destruct (row_get "context" entry) as [c |]; cbn [bind];
    try (split; [intros [page H]; discriminate H
                | intros (t' & c' & b' & _ & H & _); discriminate H]).
  destruct (row_get "html" entry) as [b |]; cbn [bind];
    try (split; [intros [page H]; discriminate H
                | intros (t' & c' & b' & _ & _ & H); discriminate H]).
  destruct c as [| z | c]; cbn [bind Utils.as_str];
    try (split; [intros [page H]; discriminate H
                | intros (t' & c' & b' & _ & H & _); discriminate H]).
  destruct b as [| z | b]; cbn [bind Utils.as_str];
    try (split; [intros [page H]; discriminate H
                | intros (t' & c' & b' & _ & _ & H); discriminate H]).
  split; [intros _; now exists t, c, b | intros _; eexists; reflexivity].
Qed.

(** * The order of the feed, by the calendar *)

Section FeedRows.

Lemma select_feed_rows (db : Store.Database) (table col : string)
  (rows : list Store.FeedRow) :
  Store.select_feed db table col = Ok rows ->
  exists t,
    Store.find_table db table = Ok t
    /\ rows = Store.order_by_created_time_desc
                (map (feed_row col) (Store.table_rows t)).
Proof.
  unfold Store.select_feed, Store.require_column.
  destruct (Store.find_table db table) as [t | e | ]; cbn [bind]; try discriminate.
  destruct (Store.has_column t "slug"); cbn [bind]; try discriminate.
  destruct (Store.has_column t col); cbn [bind]; try discriminate.
  destruct (Store.has_column t "created_time"); cbn [bind]; try discriminate.
  destruct (Store.has_column t "html"); cbn [bind]; try discriminate.
  intros [= <-]. now exists t.
Qed.

(** The rows of a feed stand in the order of the calendar when every
    stored timestamp has the ISO form and the date of every row could be
    read. *)
Lemma feed_rows_by_calendar (t : Store.Table) (col : string) :
  Forall (fun r => iso_timestamp (Store.cell "created_time" r) = true)
         (Store.table_rows t) ->
  Forall (fun r => exists dt, Utils.pub_date (Store.created_time r) = Ok dt)
         (Store.order_by_created_time_desc (map (feed_row col) (Store.table_rows t))) ->
  Sorted calendar_newer_or_equal
    (Store.order_by_created_time_desc (map (feed_row col) (Store.table_rows t))).
Proof.
  intros Hiso Hdated.
  apply sorted_calendar.
  - apply order_sorted.
  - apply order_iso. apply Forall_forall. intros r Hr.
    apply in_map_iff in Hr as (r0 & <- & Hr0).
    unfold iso_dated, feed_row. cbn [Store.created_time].
    revert r0 Hr0. now apply Forall_forall.
  - apply Forall_forall. intros r Hr.
    destruct (proj1 (Forall_forall _ _) Hdated r Hr) as [dt Hdt].
    exact (pub_date_row_date r dt Hdt).
Qed.

Lemma prev_items_dated (table : string) (rows : list Store.FeedRow)
  (items : list string) :
  mapM (Prev.item_xml table) rows = Ok items ->
  Forall (fun r => exists dt, Utils.pub_date (Store.created_time r) = Ok dt) rows.
Proof.
  intros H. apply mapM_ok_in in H. apply Forall_forall. intros r Hr.
  destruct (proj1 (Forall_forall _ _) H r Hr) as [x Hx].
  rewrite prev_item_xml_eq in Hx.
  destruct (Utils.pub_date (Store.created_time r)) as [dt | e | ];
    try discriminate Hx.
  now exists dt.
Qed.

Lemma main_items_dated (table : string) (rows : list Store.FeedRow)
  (items : list string) :
  mapM (Main.item_xml table) rows = Ok items ->
  Forall (fun r => exists dt, Utils.pub_date (Store.created_time r) = Ok dt) rows.
Proof.
  intros H. apply mapM_ok_in in H. apply Forall_forall. intros r Hr.
  destruct (proj1 (Forall_forall _ _) H r Hr) as [x Hx].
  rewrite main_item_xml_eq in Hx.
  destruct (Utils.pub_date (Store.created_time r)) as [dt | e | ];
    try discriminate Hx.
  now exists dt.
Qed.

End FeedRows.

(** When every [created_time] of the table has the ISO form ([YYYY-MM-DD],
    alone or followed by a blank and a time of day), a feed that
    [generate_rss] of [prev.py] writes has one item for each row of the table,
    and the items stand newest first by the calendar: the date each item
    prints as its [pubDate] is no earlier than the date of the item after
    it. *)
Theorem prev_generate_rss_newest_first (db : Store.Database) (table : string)
  (t : Store.Table) (w w' : World) :
  Store.find_table db table = Ok t ->
  Forall (fun r => iso_timestamp (Store.cell "created_time" r) = true)
         (Store.table_rows t) ->
  Prev.generate_rss db table w = (Ok tt, w') ->
  exists rows items,
    Permutation (map (feed_row "title") (Store.table_rows t)) rows
    /\ Sorted calendar_newer_or_equal rows
    /\ mapM (Prev.item_xml table) rows = Ok items
    /\ wrote w w' [(["dist"; table; "rss"],
                    feed_document prev_layout "https://danielfalbo.com" table
                      (Text.join items))].
Proof.
  intros Ht Hiso. rewrite prev_generate_rss_eq.
  destruct (Store.select_feed db table "title") as [rows | e | ] eqn:Hsel;
    try discriminate.
  destruct (mapM (Prev.item_xml table) rows) as [items | e | ] eqn:Hitems;
    try discriminate.
  destruct rows as [| r rows]; [discriminate |].
  intros Hrun.
  destruct (write_file_wrote [Prev.DIST_DIR; table; "rss"]
              (Prev.rss_document table (Text.join items)) w) as (w1 & Hw1 & Hw).
  rewrite Hw1 in Hrun. injection Hrun as <-.
  apply select_feed_rows in Hsel as (t' & Ht' & Hrows).
  rewrite Ht in Ht'. injection Ht' as <-.
  exists (r :: rows), items.
  split; [rewrite Hrows; apply order_perm |].
  split; [| split; [exact Hitems | now rewrite prev_rss_document_eq in Hw]].
  rewrite Hrows. apply feed_rows_by_calendar; [exact Hiso |].
  rewrite <- Hrows. exact (prev_items_dated table _ _ Hitems).
Qed.

Lemma prev_generate_rss_newest_first_witness :
  exists w' rows items,
    Prev.generate_rss Samples.listing_db "weblog" empty_world = (Ok tt, w')
    /\ Permutation
         (map (feed_row "title")
              (Store.table_rows
                 (Store.mkTable Samples.weblog_columns
                    [[VInt 1; VStr "a"; VStr "A"; VStr "2024-01-01 00:00:00";
                      VStr "<p>a</p>"; VInt 1];
                     [VInt 2; VStr "b"; VStr "B"; VStr "2024-01-02"; VStr "<p>b</p>";
                      VNone];
                     [VInt 3; VStr "c"; VStr "C"; VStr "2024-01-03"; VStr "<p>c</p>";
                      VInt 0]])))
         rows
    /\ Sorted calendar_newer_or_equal rows
    /\ mapM (Prev.item_xml "weblog") rows = Ok items.
Proof.
  destruct (Prev.generate_rss Samples.listing_db "weblog" empty_world) as [res w']
    eqn:Hrun.
  assert (Hres : res = Ok tt).
  { apply (f_equal fst) in Hrun. vm_compute in Hrun. now symmetry. }
  subst res.
  destruct (prev_generate_rss_newest_first Samples.listing_db "weblog"
              (Store.mkTable Samples.weblog_columns
                 [[VInt 1; VStr "a"; VStr "A"; VStr "2024-01-01 00:00:00";
                   VStr "<p>a</p>"; VInt 1];
                  [VInt 2; VStr "b"; VStr "B"; VStr "2024-01-02"; VStr "<p>b</p>";
                   VNone];
                  [VInt 3; VStr "c"; VStr "C"; VStr "2024-01-03"; VStr "<p>c</p>";
                   VInt 0]])
              empty_world w' eq_refl
              ltac:(repeat constructor) Hrun)
    as (rows & items & Hperm & Hsorted & Hitems & _).
  exists w', rows, items. auto.
Defined.

(** The same for [main.py]: with timestamps in the ISO form, the items of
    a feed it writes stand newest first by the calendar. *)
Theorem main_generate_rss_newest_first (db : Store.Database) (table : string)
  (t : Store.Table) (w w' : World) :
  Store.find_table db table = Ok t ->
  Forall (fun r => iso_timestamp (Store.cell "created_time" r) = true)
         (Store.table_rows t) ->
  Main.generate_rss db table w = (Ok tt, w') ->
  exists rows items,
    Permutation (map (feed_row (Main.title_col table)) (Store.table_rows t)) rows
    /\ Sorted calendar_newer_or_equal rows
    /\ mapM (Main.item_xml table) rows = Ok items
    /\ wrote w w' [(["dist"; table; "rss"],
                    feed_document main_layout "https://danielfalbo.com" table
                      (Text.join items))].
Proof.
  intros Ht Hiso. rewrite main_generate_rss_eq.
  destruct (Store.select_feed db table (Main.title_col table)) as [rows | e | ]
    eqn:Hsel; try discriminate.
  destruct (mapM (Main.item_xml table) rows) as [items | e | ] eqn:Hitems;
    try discriminate.
  intros Hrun.
  destruct (write_file_wrote [Main.DIST_DIR; table; "rss"]
              (Main.rss_document table (Text.join items)) w) as (w1 & Hw1 & Hw).
  rewrite Hw1 in Hrun. injection Hrun as <-.
  apply select_feed_rows in Hsel as (t' & Ht' & Hrows).
  rewrite Ht in Ht'. injection Ht' as <-.
  exists rows, items.
  split; [rewrite Hrows; apply order_perm |].
  split; [| split; [exact Hitems | now rewrite main_rss_document_eq in Hw]].
  rewrite Hrows. apply feed_rows_by_calendar; [exact Hiso |].
  rewrite <- Hrows. exact (main_items_dated table _ _ Hitems).
Qed.

Lemma main_generate_rss_newest_first_witness :
  exists w' rows items,
    Main.generate_rss Samples.listing_db "weblog" empty_world = (Ok tt, w')
    /\ Permutation
         (map (feed_row "title")
              (Store.table_rows
                 (Store.mkTable Samples.weblog_columns
                    [[VInt 1; VStr "a"; VStr "A"; VStr "2024-01-01 00:00:00";
                      VStr "<p>a</p>"; VInt 1];
                     [VInt 2; VStr "b"; VStr "B"; VStr "2024-01-02"; VStr "<p>b</p>";
                      VNone];
                     [VInt 3; VStr "c"; VStr "C"; VStr "2024-01-03"; VStr "<p>c</p>";
                      VInt 0]])))
         rows
    /\ Sorted calendar_newer_or_equal rows
    /\ mapM (Main.item_xml "weblog") rows = Ok items.
Proof.
  destruct (Main.generate_rss Samples.listing_db "weblog" empty_world) as [res w']
    eqn:Hrun.
  assert (Hres : res = Ok tt).
  { apply (f_equal fst) in Hrun. vm_compute in Hrun. now symmetry. }
  subst res.
  destruct (main_generate_rss_newest_first Samples.listing_db "weblog"
              (Store.mkTable Samples.weblog_columns
                 [[VInt 1; VStr "a"; VStr "A"; VStr "2024-01-01 00:00:00";
                   VStr "<p>a</p>"; VInt 1];
                  [VInt 2; VStr "b"; VStr "B"; VStr "2024-01-02"; VStr "<p>b</p>";
                   VNone];
                  [VInt 3; VStr "c"; VStr "C"; VStr "2024-01-03"; VStr "<p>c</p>";
                   VInt 0]])
              empty_world w' eq_refl
              ltac:(repeat constructor) Hrun)
    as (rows & items & Hperm & Hsorted & Hitems & _).
  exists w', rows, items. auto.
Defined.

(** * Standalone pages of [main.py] *)

Section Standalone.

Lemma replace_css_step (css : string) (c : ascii) (r : string) :
  Main.replace_css css (String c r)
  = if String.prefix "{css}" (String c r)
    then css ++ Main.replace_css css (drop_chars 4 r)
    else String c (Main.replace_css css r).
Proof.
  destruct c as [[] [] [] [] [] [] [] []]; try reflexivity.
  destruct r as [| c r]; [reflexivity |].
  destruct c as [[] [] [] [] [] [] [] []]; try reflexivity.
  destruct r as [| c r]; [reflexivity |].
  destruct c as [[] [] [] [] [] [] [] []]; try reflexivity.
  destruct r as [| c r]; [reflexivity |].
  destruct c as [[] [] [] [] [] [] [] []]; try reflexivity.
  destruct r as [| c r]; [reflexivity |].
  destruct c as [[] [] [] [] [] [] [] []]; try reflexivity.
  destruct r; reflexivity.
Qed.

Lemma replace_css_absent (css s : string) :
  Text.containsb s "{css}" = false -> Main.replace_css css s = s.
Proof.
  induction s as [| c s IH]; [reflexivity |].
  cbn [Text.containsb]. intros H. apply orb_false_elim in H as [Hp Hs].
  rewrite replace_css_step, Hp. now rewrite IH.
Qed.

Lemma replace_css_first (css a b : string) :
  Text.has_char "{" a = false ->
  Main.replace_css css (a ++ "{css}" ++ b) = a ++ css ++ Main.replace_css css b.
Proof.
  induction a as [| c a IH]; [reflexivity |].
  cbn [Text.has_char]. intros H. apply orb_false_elim in H as [Hc Ha].
  change (String c a ++ "{css}" ++ b) with (String c (a ++ "{css}" ++ b)).
  change (String c a ++ css ++ Main.replace_css css b)
    with (String c (a ++ css ++ Main.replace_css css b)).
  rewrite replace_css_step.
  assert (Hp : String.prefix "{css}" (String c (a ++ "{css}" ++ b)) = false).
  { cbn [String.prefix]. destruct (ascii_dec "{" c) as [<- | _]; [| reflexivity].
    discriminate Hc. }
  rewrite Hp. now rewrite IH.
Qed.

End Standalone.

(** [generate_standalone_page] of [main.py] replaces the stylesheet
    placeholder and nothing else: for a template that holds [{css}] once,
    after a text without an opening brace, the page written to
    [dist/<name>.html] is the template with the stylesheet in the place of
    the placeholder.  What follows the placeholder is copied as it is, other
    braces included: the template is not read as a format string, and the
    stylesheet is not searched for placeholders. *)
Theorem main_standalone_page_replaces_css (tmpls : Main.Assets)
  (css name a b : string) (w : World) :
  Main.load_tmpl tmpls name = Ok (a ++ "{css}" ++ b) ->
  Text.has_char "{" a = false ->
  Text.containsb b "{css}" = false ->
  exists w',
    Main.generate_standalone_page tmpls css name w = (Ok tt, w')
    /\ wrote w w' [(["dist"; name ++ ".html"], a ++ css ++ b)].
Proof.
  intros Htmpl Ha Hb. unfold Main.generate_standalone_page.
  unfold bindR at 1, lift. rewrite Htmpl.
  rewrite replace_css_first by exact Ha.
  rewrite replace_css_absent by exact Hb.
  apply write_file_wrote.
Qed.

Lemma main_standalone_page_replaces_css_witness :
  exists w',
    Main.generate_standalone_page
      [("index", "<style>{css}</style><script>if (a) { b() }</script>")]
      "body{color:red}" "index" empty_world = (Ok tt, w')
    /\ wrote empty_world w'
         [(["dist"; "index.html"],
           "<style>body{color:red}</style><script>if (a) { b() }</script>")].
Proof.
  apply (main_standalone_page_replaces_css
           [("index", "<style>{css}</style><script>if (a) { b() }</script>")]
           "body{color:red}" "index" "<style>"
           "</style><script>if (a) { b() }</script>" empty_world);
    reflexivity.
Defined.

(** A template without the placeholder is written as it is, whatever
    braces it holds. *)
Theorem main_standalone_page_without_placeholder (tmpls : Main.Assets)
  (css name template : string) (w : World) :
  Main.load_tmpl tmpls name = Ok template ->
  Text.containsb template "{css}" = false ->
  exists w',
    Main.generate_standalone_page tmpls css name w = (Ok tt, w')
    /\ wrote w w' [(["dist"; name ++ ".html"], template)].
Proof.
  intros Htmpl H. unfold Main.generate_standalone_page.
  unfold bindR at 1, lift. rewrite Htmpl.
  rewrite replace_css_absent by exact H.
  apply write_file_wrote.
Qed.

Lemma main_standalone_page_without_placeholder_witness :
  exists w',
    Main.generate_standalone_page [("404", "<h1>{title}</h1><p>{ css }</p>")]
      "body{}" "404" empty_world = (Ok tt, w')
    /\ wrote empty_world w' [(["dist"; "404.html"], "<h1>{title}</h1><p>{ css }</p>")].
Proof.
  apply (main_standalone_page_without_placeholder
           [("404", "<h1>{title}</h1><p>{ css }</p>")] "body{}" "404"
           "<h1>{title}</h1><p>{ css }</p>" empty_world);
    reflexivity.
Defined.

(** * The body of a feed item *)

(** Both [generate_rss] copy the body of a row into its item as it is, as
    [str] prints it, between the opening and the closing mark of a CDATA
    block: for a row whose date can be read, the item is a text that does
    not depend on the body, the opening mark and a blank, the body, a blank
    and the closing mark, and again a text that does not depend on the
    body.  Nothing in the body is escaped or looked at, a closing mark in it
    included, and a NULL body is printed as [None]. *)
Theorem feed_item_body_verbatim (table : string) (r : Store.FeedRow) (dt : string) :
  Utils.pub_date (Store.created_time r) = Ok dt ->
  exists before_prev after_prev before_main after_main,
    forall body : value,
      Prev.item_xml table (with_html r body)
      = Ok (before_prev ++ "<![CDATA[ " ++ py_str body ++ " ]]>" ++ after_prev)
      /\ Main.item_xml table (with_html r body)
         = Ok (before_main ++ "<![CDATA[ " ++ py_str body ++ " ]]>" ++ after_main).
Proof.
  intros Hdt.
  exists (before_item prev_layout ++ "<item>" ++
          in_item prev_layout ++
            element "title" (escape_chars (py_str (Store.title r))) ++
          in_item prev_layout ++ element "guid" (feed_link table (Store.slug r)) ++
          in_item prev_layout ++ element "link" (feed_link table (Store.slug r)) ++
          in_item prev_layout ++ element "pubDate" dt ++
          in_item prev_layout ++ "<description>" ++ in_description prev_layout),
         (in_item prev_layout ++ "</description>" ++
          before_item_end prev_layout ++ "</item>"),
         (before_item main_layout ++ "<item>" ++
          in_item main_layout ++
            element "title" (escape_chars (py_str (Store.title r))) ++
          in_item main_layout ++ element "guid" (feed_link table (Store.slug r)) ++
          in_item main_layout ++ element "link" (feed_link table (Store.slug r)) ++
          in_item main_layout ++ element "pubDate" dt ++
          in_item main_layout ++ "<description>" ++ in_description main_layout),
         (in_item main_layout ++ "</description>" ++
          before_item_end main_layout ++ "</item>").
  intros body. rewrite prev_item_xml_eq, main_item_xml_eq.
  unfold with_html. cbn [Store.created_time Store.title Store.slug Store.html].
  rewrite Hdt. cbn [bind]. unfold feed_item.
  split; f_equal; repeat rewrite append_assoc; reflexivity.
Qed.

Lemma feed_item_body_verbatim_witness :
  exists before_prev after_prev before_main after_main,
    forall body : value,
      Prev.item_xml "weblog"
        (with_html (Store.mkFeedRow (VStr "a") (VStr "A & B") (VStr "2024-01-01") VNone)
                   body)
      = Ok (before_prev ++ "<![CDATA[ " ++ py_str body ++ " ]]>" ++ after_prev)
      /\ Main.item_xml "weblog"
           (with_html (Store.mkFeedRow (VStr "a") (VStr "A & B") (VStr "2024-01-01")
                         VNone)
                      body)
         = Ok (before_main ++ "<![CDATA[ " ++ py_str body ++ " ]]>" ++ after_main).
Proof.
  apply (feed_item_body_verbatim "weblog"
           (Store.mkFeedRow (VStr "a") (VStr "A & B") (VStr "2024-01-01") VNone)
           "Mon, 01 Jan 2024 00:00:00 +0000").
  reflexivity.
Defined.

(** * Template values: the relationship links and the columns *)



(** C10, as stated, fails for [main.py]: the stored body is run through
    [str.format], so a body with doubled braces comes out with single ones,
    a change that is no date-age fragment. *)
Lemma main_gen_tmpl_values_changes_body :
  Main.gen_tmpl_values Samples.doubled_braces_db "weblog" Samples.components
  = Ok [(VStr "a",
         [("id", VInt 1); ("slug", VStr "a"); ("title", VStr "A");
          ("created_time", VStr "2024-01-01"); ("html", VStr "<p>{x}</p>");
          ("listed", VInt 1); ("context", VStr "")])]
  /\ Store.select_all Samples.doubled_braces_db "weblog"
     = Ok [[("id", VInt 1); ("slug", VStr "a"); ("title", VStr "A");
            ("created_time", VStr "2024-01-01"); ("html", VStr "<p>{{x}}</p>");
            ("listed", VInt 1)]].
Proof. split; reflexivity. Qed.

(** C10, amended.  The [gen_tmpl_values] of both files hold no slug twice,
    and the row under a slug is the row stored last under it, where every
    key other than [html] and [context] has the stored value.  In
    [prev.py], [html] is the stored body followed by the date-age script
    when the body is a text and the creation time is not NULL, and the
    stored value otherwise.  In [main.py], when the body is a text and the
    creation time is not NULL, [html] is the stored body formatted as a
    format string whose [dateage] field is the date-age component, itself
    formatted with the creation time and the birthday; it is the stored
    value otherwise, and a body without braces is never changed. *)
Theorem gen_tmpl_values_preserves_columns (config : Utils.Relationships)
  (db : Store.Database) (table : string) (cmps : Main.Assets) :
  (forall vs,
     Prev.gen_tmpl_values_with config db table = Ok vs ->
     exists rows,
       Store.select_all db table = Ok rows
       /\ NoDup (PyDict.keys vs)
       /\ forall slug row,
            values_get slug vs = Some row ->
            exists r,
              last_with_slug slug rows = Some r
              /\ (forall k, k <> "html" -> k <> "context" ->
                            row_get k row = row_get k r)
              /\ row_get "html" row
                 = match Utils.get_or_none "html" r,
                         Utils.get_or_none "created_time" r with
                   | VStr s, (VInt _ | VStr _) as created_time =>
                       Some (VStr (s ++ Prev.dateage_js created_time))
                   | _, _ => row_get "html" r
                   end)
  /\ (forall vs,
        Main.gen_tmpl_values_with config db table cmps = Ok vs ->
        exists rows dateage_cmp,
          Store.select_all db table = Ok rows
          /\ Main.component cmps "dateage" = Ok dateage_cmp
          /\ NoDup (PyDict.keys vs)
          /\ forall slug row,
               values_get slug vs = Some row ->
               exists r,
                 last_with_slug slug rows = Some r
                 /\ (forall k, k <> "html" -> k <> "context" ->
                               row_get k row = row_get k r)
                 /\ match Utils.get_or_none "html" r,
                          Utils.get_or_none "created_time" r with
                    | VStr s, (VInt _ | VStr _) as created_time =>
                        exists dateage formatted,
                          Format.format
                            [("created_time", created_time);
                             ("AUTHOR_BIRTHDAY", VStr "2003-12-10T13:30:00+01:00")]
                            dateage_cmp = Ok dateage
                          /\ Format.format [("dateage", VStr dateage)] s
                             = Ok formatted
                          /\ row_get "html" row = Some (VStr formatted)
                    | _, _ => row_get "html" row = row_get "html" r
                    end
                 /\ (forall s, row_get "html" r = Some (VStr s) ->
                               brace_free s = true ->
                               row_get "html" row = Some (VStr s))).
Proof.
  split.
  - intros vs Hgen. exact (prev_values_frame config db table vs Hgen).
  - intros vs Hgen.
    destruct (main_values_frame config db table cmps vs Hgen)
      as (rows & cmp & Hrows & Hcmp & Hnd & Hframe).
    exists rows, cmp. split; [exact Hrows |]. split; [exact Hcmp |].
    split; [exact Hnd |].
    intros slug row Hrow. destruct (Hframe slug row Hrow) as (r & Hr & Hk & Hh).
    exists r. split; [exact Hr |]. split; [exact Hk |]. split; [exact Hh |].
    intros s Hs Hfree. unfold Utils.get_or_none in Hh. rewrite Hs in Hh.
    destruct (match row_get "created_time" r with
              | Some v => v
              | None => VNone
              end) as [| z | c].
    + now rewrite Hh.
    + destruct Hh as (d & f & _ & Hf & Hhtml).
      rewrite format_brace_free in Hf by exact Hfree. congruence.
    + destruct Hh as (d & f & _ & Hf & Hhtml).
      rewrite format_brace_free in Hf by exact Hfree. congruence.
Qed.

Lemma gen_tmpl_values_preserves_columns_witness :
  (exists vs row1 row2,
     Prev.gen_tmpl_values Samples.library_db "bookmarks" = Ok vs
     /\ values_get (VStr "b1") vs = Some row1
     /\ values_get (VStr "b2") vs = Some row2
     /\ row_get "title" row1 = Some (VStr "One")
     /\ row_get "html" row1
        = Some (VStr ("<p>1</p>" ++ Prev.dateage_js (VStr "2024-01-01")))
     /\ row_get "html" row2 = Some (VStr "<p>{2}</p>"))
  /\ (exists vs row,
        Main.gen_tmpl_values Samples.resources_db "resources" Samples.components
        = Ok vs
        /\ values_get (VStr "r1") vs = Some row
        /\ row_get "title" row = Some (VStr "One")
        /\ row_get "html" row = Some (VStr "<p>1</p>")).
Proof.
  destruct (gen_tmpl_values_preserves_columns Prev.RELATIONSHIPS Samples.library_db
              "bookmarks" Samples.components) as (Hprev & _).
  destruct (gen_tmpl_values_preserves_columns Main.RELATIONSHIPS
              Samples.resources_db "resources" Samples.components) as (_ & Hmain).
  split.
  - destruct (Prev.gen_tmpl_values Samples.library_db "bookmarks") as [vs | e | ]
      eqn:Hgen;
      [| vm_compute in Hgen; discriminate | vm_compute in Hgen; discriminate].
    destruct (Hprev vs Hgen) as (rows & Hrows & _ & Hframe).
    vm_compute in Hrows. injection Hrows as <-.
    destruct (values_get (VStr "b1") vs) as [row1 |] eqn:H1;
      [| vm_compute in Hgen; injection Hgen as <-; vm_compute in H1; discriminate].
    destruct (values_get (VStr "b2") vs) as [row2 |] eqn:H2;
      [| vm_compute in Hgen; injection Hgen as <-; vm_compute in H2; discriminate].
    destruct (Hframe _ _ H1) as (r1 & Hr1 & Hk1 & Hh1).
    destruct (Hframe _ _ H2) as (r2 & Hr2 & _ & Hh2).
    vm_compute in Hr1. injection Hr1 as <-.
    vm_compute in Hr2. injection Hr2 as <-.
    exists vs, row1, row2. split; [reflexivity |].
    split; [exact H1 |]. split; [exact H2 |]. split; [| split].
    + rewrite Hk1 by discriminate. reflexivity.
    + exact Hh1.
    + exact Hh2.
  - destruct (Main.gen_tmpl_values Samples.resources_db "resources"
                Samples.components) as [vs | e | ] eqn:Hgen;
      [| vm_compute in Hgen; discriminate | vm_compute in Hgen; discriminate].
    destruct (Hmain vs Hgen) as (rows & cmp & Hrows & _ & _ & Hframe).
    vm_compute in Hrows. injection Hrows as <-.
    destruct (values_get (VStr "r1") vs) as [row |] eqn:H1;
      [| vm_compute in Hgen; injection Hgen as <-; vm_compute in H1; discriminate].
    destruct (Hframe _ _ H1) as (r1 & Hr1 & Hk1 & _ & Hfree).
    vm_compute in Hr1. injection Hr1 as <-.
    exists vs, row. split; [reflexivity |]. split; [exact H1 |]. split.
    + rewrite Hk1 by discriminate. reflexivity.
    + apply Hfree; reflexivity.
Defined.

(** * Sections: which entries the index links *)




(** * The feed: its order and its titles *)

Section FeedWritten.

Lemma entries_dated (table : string) (rows : list Store.FeedRow)
  (entries : list entry) :
  mapM (feed_entry table) rows = Ok entries ->
  Forall (fun r => exists dt, Utils.pub_date (Store.created_time r) = Ok dt) rows.
Proof.
  intros H. apply mapM_ok_in in H. apply Forall_forall. intros r Hr.
  destruct (proj1 (Forall_forall _ _) H r Hr) as [x Hx].
  unfold feed_entry in Hx.
  destruct (Utils.pub_date (Store.created_time r)) as [dt | e | ];
    try discriminate Hx.
  now exists dt.
Qed.


(** What a run of [generate_rss] that ends well has read and written. *)
Lemma prev_feed_written (db : Store.Database) (table : string) (w w' : World) :
  Prev.generate_rss db table w = (Ok tt, w') ->
  exists rows entries,
    Store.select_feed db table "title" = Ok rows
    /\ mapM (feed_entry table) rows = Ok entries
    /\ wrote w w' [(["dist"; table; "rss"], feed_text prev_layout table entries)].
Proof.
  rewrite prev_generate_rss_eq.
  destruct (Store.select_feed db table "title") as [rows | e | ]; try discriminate.
  rewrite prev_items_entries.
  destruct (mapM (feed_entry table) rows) as [entries | e | ] eqn:Hentries;
    cbn [bind]; try discriminate.
  destruct rows as [| r rows]; [discriminate |].
  destruct (write_file_wrote [Prev.DIST_DIR; table; "rss"]
              (Prev.rss_document table
                 (Text.join (map (render_entry prev_layout) entries))) w)
    as (w1 & -> & Hw).
  intros [= <-]. exists (r :: rows), entries.
  split; [reflexivity |]. split; [exact Hentries |].
  now rewrite prev_rss_document_eq in Hw.
Qed.

Lemma main_feed_written (db : Store.Database) (table : string) (w w' : World) :
  Main.generate_rss db table w = (Ok tt, w') ->
  exists rows entries,
    Store.select_feed db table (if String.eqb table "authors" then "name" else "title")
    = Ok rows
    /\ mapM (feed_entry table) rows = Ok entries
    /\ wrote w w' [(["dist"; table; "rss"], feed_text main_layout table entries)].
Proof.
  rewrite main_generate_rss_eq.
  change (Main.title_col table)
    with (if String.eqb table "authors" then "name" else "title").
  destruct (Store.select_feed db table
              (if String.eqb table "authors" then "name" else "title"))
    as [rows | e | ]; try discriminate.
  rewrite main_items_entries.
  destruct (mapM (feed_entry table) rows) as [entries | e | ] eqn:Hentries;
    cbn [bind]; try discriminate.
  destruct (write_file_wrote [Main.DIST_DIR; table; "rss"]
              (Main.rss_document table
                 (Text.join (map (render_entry main_layout) entries))) w)
    as (w1 & -> & Hw).
  intros [= <-]. exists rows, entries.
  split; [reflexivity |]. split; [exact Hentries |].
  now rewrite main_rss_document_eq in Hw.
Qed.

(** The rows of a feed query, against the table: all its rows, newest
    stored timestamp first, which for timestamps in the ISO form is newest
    day first. *)
Lemma feed_rows_ordered (db : Store.Database) (table col : string)
  (t : Store.Table) (rows : list Store.FeedRow) (entries : list entry) :
  Store.find_table db table = Ok t ->
  Store.select_feed db table col = Ok rows ->
  mapM (feed_entry table) rows = Ok entries ->
  Permutation (map (feed_row col) (Store.table_rows t)) rows
  /\ Sorted newer_or_equal rows
  /\ (Forall (fun r => iso_timestamp (Store.cell "created_time" r) = true)
             (Store.table_rows t) ->
      Sorted calendar_newer_or_equal rows).
Proof.
  intros Ht Hsel Hentries.
  apply select_feed_rows in Hsel as (t' & Ht' & Hrows).
  rewrite Ht in Ht'. injection Ht' as <-.
  split; [rewrite Hrows; apply order_perm |].
  split; [rewrite Hrows; apply order_sorted |].
  intros Hiso. rewrite Hrows. apply feed_rows_by_calendar; [exact Hiso |].
  rewrite <- Hrows. exact (entries_dated table rows entries Hentries).
Qed.

End FeedWritten.

(** C6, as stated, fails for timestamps that are not written with two
    digits for month and day, which both files accept: the store orders the
    texts, and the text of a September day written [2024-9-01] comes after
    that of the October day [2024-10-01], so the feed has the September
    item first, before a later date. *)
Lemma generate_rss_order_differs :
  writes (snd (Prev.generate_rss Samples.unpadded_dates_db "weblog" empty_world))
  = [(["dist"; "weblog"; "rss"],
      feed_text prev_layout "weblog"
        [mkEntry "September" "https://danielfalbo.com/weblog/sep"
           "Sun, 01 Sep 2024 00:00:00 +0000" "<p>s</p>";
         mkEntry "October" "https://danielfalbo.com/weblog/oct"
           "Tue, 01 Oct 2024 00:00:00 +0000" "<p>o</p>"])]
  /\ writes (snd (Main.generate_rss Samples.unpadded_dates_db "weblog" empty_world))
     = [(["dist"; "weblog"; "rss"],
         feed_text main_layout "weblog"
           [mkEntry "September" "https://danielfalbo.com/weblog/sep"
              "Sun, 01 Sep 2024 00:00:00 +0000" "<p>s</p>";
            mkEntry "October" "https://danielfalbo.com/weblog/oct"
              "Tue, 01 Oct 2024 00:00:00 +0000" "<p>o</p>"])].
Proof. split; vm_compute; reflexivity. Qed.

(** C6, amended.  A feed that [generate_rss] writes, in either file, has
    one item for each row of the table, and the rows the items are made of
    stand in non-increasing order of the stored [created_time], as the
    store compares values (texts byte by byte).  When every [created_time]
    of the table has the ISO form, [YYYY-MM-DD] alone or followed by a
    blank and a time of day, this is the order of the calendar: the day of
    every item is no earlier than the day of the item after it. *)
Theorem generate_rss_items_ordered (db : Store.Database) (table : string)
  (t : Store.Table) (w : World) :
  Store.find_table db table = Ok t ->
  (forall w',
     Prev.generate_rss db table w = (Ok tt, w') ->
     exists rows entries,
       Permutation (map (feed_row "title") (Store.table_rows t)) rows
       /\ Sorted newer_or_equal rows
       /\ (Forall (fun r => iso_timestamp (Store.cell "created_time" r) = true)
                  (Store.table_rows t) ->
           Sorted calendar_newer_or_equal rows)
       /\ mapM (feed_entry table) rows = Ok entries
       /\ wrote w w' [(["dist"; table; "rss"],
                       feed_text prev_layout table entries)])
  /\ (forall w',
        Main.generate_rss db table w = (Ok tt, w') ->
        exists rows entries,
          Permutation
            (map (feed_row (if String.eqb table "authors" then "name" else "title"))
                 (Store.table_rows t)) rows
          /\ Sorted newer_or_equal rows
          /\ (Forall (fun r => iso_timestamp (Store.cell "created_time" r) = true)
                     (Store.table_rows t) ->
              Sorted calendar_newer_or_equal rows)
          /\ mapM (feed_entry table) rows = Ok entries
          /\ wrote w w' [(["dist"; table; "rss"],
                          feed_text main_layout table entries)]).
Proof.
  intros Ht. split.
  - intros w' Hrun.
    destruct (prev_feed_written db table w w' Hrun)
      as (rows & entries & Hsel & Hentries & Hw).
    destruct (feed_rows_ordered db table "title" t rows entries Ht Hsel Hentries)
      as (Hperm & Hsorted & Hcal).
    exists rows, entries. auto.
  - intros w' Hrun.
    destruct (main_feed_written db table w w' Hrun)
      as (rows & entries & Hsel & Hentries & Hw).
    destruct (feed_rows_ordered db table _ t rows entries Ht Hsel Hentries)
      as (Hperm & Hsorted & Hcal).
    exists rows, entries. auto.
Qed.

Lemma generate_rss_items_ordered_witness :
  exists w_prev w_main rows rows',
    Prev.generate_rss Samples.listing_db "weblog" empty_world = (Ok tt, w_prev)
    /\ Main.generate_rss Samples.listing_db "weblog" empty_world = (Ok tt, w_main)
    /\ length rows = 3 /\ length rows' = 3
    /\ Sorted newer_or_equal rows /\ Sorted calendar_newer_or_equal rows
    /\ Sorted newer_or_equal rows' /\ Sorted calendar_newer_or_equal rows'.
Proof.
  destruct (generate_rss_items_ordered Samples.listing_db "weblog"
              (Store.mkTable Samples.weblog_columns
                 [[VInt 1; VStr "a"; VStr "A"; VStr "2024-01-01 00:00:00";
                   VStr "<p>a</p>"; VInt 1];
                  [VInt 2; VStr "b"; VStr "B"; VStr "2024-01-02"; VStr "<p>b</p>";
                   VNone];
                  [VInt 3; VStr "c"; VStr "C"; VStr "2024-01-03"; VStr "<p>c</p>";
                   VInt 0]])
              empty_world eq_refl) as (Hprev & Hmain).
  destruct (Prev.generate_rss Samples.listing_db "weblog" empty_world)
    as [res w_prev] eqn:Hrun.
  assert (Hres : res = Ok tt).
  { apply (f_equal fst) in Hrun. vm_compute in Hrun. now symmetry. }
  subst res.
  destruct (Main.generate_rss Samples.listing_db "weblog" empty_world)
    as [res w_main] eqn:Hrun'.
  assert (Hres : res = Ok tt).
  { apply (f_equal fst) in Hrun'. vm_compute in Hrun'. now symmetry. }
  subst res.
  destruct (Hprev w_prev eq_refl) as (rows & entries & Hperm & Hs & Hcal & _).
  destruct (Hmain w_main eq_refl) as (rows' & entries' & Hperm' & Hs' & Hcal' & _).
  exists w_prev, w_main, rows, rows'.
  split; [reflexivity |]. split; [reflexivity |].
  split; [now rewrite <- (Permutation_length Hperm) |].
  split; [now rewrite <- (Permutation_length Hperm') |].
  split; [exact Hs |]. split; [apply Hcal; repeat constructor |].
  split; [exact Hs' |]. apply Hcal'; repeat constructor.
Defined.




(** * Pages: column values and template syntax *)

Section Keywords.


End Keywords.




(** * The feed: the escaped title and the body *)

Section Cdata.

Lemma prefix_blank_end (s : string) :
  String.prefix "]]>" (s ++ " ") = String.prefix "]]>" s.
Proof.
  destruct s as [| a [| b [| c s]]]; cbn [append String.prefix].
  - reflexivity.
  - destruct (ascii_dec "]" a); reflexivity.
  - destruct (ascii_dec "]" a); [| reflexivity].
    destruct (ascii_dec "]" b); reflexivity.
  - destruct (ascii_dec "]" a); [| reflexivity].
    destruct (ascii_dec "]" b); [| reflexivity].
    destruct (ascii_dec ">" c); [| reflexivity].
    now destruct s.
Qed.

Lemma containsb_blank_end (s : string) :
  Text.containsb (s ++ " ") "]]>" = Text.containsb s "]]>".
Proof.
  induction s as [| c s IH]; [reflexivity |].
  change (String c s ++ " ") with (String c (s ++ " ")).
  cbn [Text.containsb]. rewrite IH. f_equal.
  exact (prefix_blank_end (String c s)).
Qed.

Lemma containsb_blanks (s : string) :
  Text.containsb (" " ++ s ++ " ") "]]>" = Text.containsb s "]]>".
Proof.
  change (" " ++ s ++ " ") with (String " " (s ++ " ")).
  cbn [Text.containsb String.prefix]. 
  destruct (ascii_dec "]" " ") as [H | _]; [discriminate H |].
  cbn [orb]. apply containsb_blank_end.
Qed.

Lemma append_cancel_r (s s' t : string) : s ++ t = s' ++ t -> s = s'.
Proof.
  revert s'. induction s as [| c s IH]; intros [| c' s'] H; cbn [append] in H.
  - reflexivity.
  - apply (f_equal String.length) in H. cbn [String.length] in H.
    rewrite length_append in H. lia.
  - apply (f_equal String.length) in H. cbn [String.length] in H.
    rewrite length_append in H. lia.
  - injection H as -> H. f_equal. now apply IH.
Qed.

(** The block a body is put in is a CDATA section exactly when the body
    does not hold the closing mark. *)
Lemma cdata_block (body : string) :
  cdata_section ("<![CDATA[ " ++ body ++ " ]]>")
  <-> Text.containsb body "]]>" = false.
Proof.
  assert (Hblock : "<![CDATA[ " ++ body ++ " ]]>"
                   = "<![CDATA[" ++ (" " ++ body ++ " ") ++ "]]>").
  { cbn [append]. do 10 f_equal. now rewrite append_assoc. }
  split.
  - intros (inner & Heq & Hinner). rewrite Hblock in Heq.
    assert (Hi : " " ++ body ++ " " = inner).
    { apply (append_cancel_r _ _ "]]>").
      cbn [append] in Heq |- *. now injection Heq. }
    rewrite <- Hi, containsb_blanks in Hinner. exact Hinner.
  - intros H. exists (" " ++ body ++ " "). split; [exact Hblock |].
    now rewrite containsb_blanks.
Qed.

End Cdata.

(** C8, as stated, fails for a body that holds the closing mark of a CDATA
    section: the body is copied as it is, so the block it is put in is no
    CDATA section (the section ends inside the body, and what is left of the
    body stands in the document as markup), whatever the title holds. *)
Lemma feed_body_not_cdata_safe :
  writes (snd (Prev.generate_rss Samples.cdata_end_db "weblog" empty_world))
  = [(["dist"; "weblog"; "rss"],
      feed_text prev_layout "weblog"
        [mkEntry "A &amp; B" "https://danielfalbo.com/weblog/a"
           "Mon, 01 Jan 2024 00:00:00 +0000" "a]]>b"])]
  /\ ~ cdata_section ("<![CDATA[ " ++ "a]]>b" ++ " ]]>").
Proof.
  split; [vm_compute; reflexivity |].
  intros H. apply cdata_block in H. discriminate H.
Qed.

(** C8, amended.  The title of an item of [prev.py] is what [str] prints of
    the title of the row with exactly the three replacements made, each
    character by itself: the result holds no [<] and no [>], every [&] in
    it starts [&amp;], [&lt;] or [&gt;], and a title without the three
    characters is not changed.  The body is copied as it is between the
    marks [<![CDATA[ ] and [ ]]>], and this block is a CDATA section exactly
    when the body does not hold the closing mark. *)
Theorem feed_item_title_and_body (table : string) (r : Store.FeedRow) (dt : string) :
  Utils.pub_date (Store.created_time r) = Ok dt ->
  Prev.item_xml table r
  = Ok (feed_item prev_layout (escape_chars (py_str (Store.title r)))
          (feed_link table (Store.slug r)) dt (py_str (Store.html r)))
  /\ Text.has_char "<" (escape_chars (py_str (Store.title r))) = false
  /\ Text.has_char ">" (escape_chars (py_str (Store.title r))) = false
  /\ ampersands_escaped (escape_chars (py_str (Store.title r))) = true
  /\ (Text.has_char "&" (py_str (Store.title r)) = false ->
      Text.has_char "<" (py_str (Store.title r)) = false ->
      Text.has_char ">" (py_str (Store.title r)) = false ->
      escape_chars (py_str (Store.title r)) = py_str (Store.title r))
  /\ (cdata_section ("<![CDATA[ " ++ py_str (Store.html r) ++ " ]]>")
      <-> Text.containsb (py_str (Store.html r)) "]]>" = false).
Proof.
  intros Hdt. split.
  - rewrite prev_item_xml_eq, Hdt. reflexivity.
  - destruct (escape_chars_result (py_str (Store.title r)))
      as (Hlt & Hgt & Hamp & Hsame).
    repeat (split; [assumption |]). apply cdata_block.
Qed.

Lemma feed_item_title_and_body_witness :
  Prev.item_xml "weblog"
    (Store.mkFeedRow (VStr "a") (VStr "R&D <b> x>y") (VStr "2024-01-01")
       (VStr "<p>1 < 2 & ]] ></p>"))
  = Ok (feed_item prev_layout "R&amp;D &lt;b&gt; x&gt;y"
          "https://danielfalbo.com/weblog/a" "Mon, 01 Jan 2024 00:00:00 +0000"
          "<p>1 < 2 & ]] ></p>")
  /\ cdata_section ("<![CDATA[ " ++ "<p>1 < 2 & ]] ></p>" ++ " ]]>").
Proof.
  destruct (feed_item_title_and_body "weblog"
              (Store.mkFeedRow (VStr "a") (VStr "R&D <b> x>y") (VStr "2024-01-01")
                 (VStr "<p>1 < 2 & ]] ></p>"))
              "Mon, 01 Jan 2024 00:00:00 +0000" eq_refl)
    as (Hitem & _ & _ & _ & _ & Hcdata).
  split; [exact Hitem |]. apply Hcdata. reflexivity.
Defined.
